(** * OpenAPI generation for Infoblox WAPI schemas: the transformation core

    A shallow embedding of [scripts/openspec.py] (class [OpenAPIGenerator]):
    the field transformer ([process_field], [convert_field_type_to_openapi]),
    the schema normalizer ([process_schema], [to_pascal_case]), the schema
    emitter ([process_nested_schema_fields], [generate_schemas_for_objects])
    and the path loop of [generate_group_api].

    Conventions of the embedding.
    - Python [str] is [string]; case conversion and whitespace are the ASCII
      ones.
    - A Python [dict] that is written out (JSON/YAML) is an association list
      in insertion order, with Python's update-in-place-or-append semantics.
    - The set [self.created_schemas] is a [gset string].
    - The raw vendor schema is a typed tree; a key that may be absent is an
      [option], a key read with [.get(key, default)] and never tested for
      presence carries its default when absent.
    - A Python exception is a [Raise] in the [result] type. *)

From Stdlib Require Import ZArith Ascii String.
From stdpp Require Import gmap strings list.

(** ** Python string operations (ASCII) *)

Module PyStr.

(** [c in s] for a one-character needle. *)
Fixpoint char_in (c : ascii) (s : string) : bool :=
  match s with
  | EmptyString => false
  | String x rest => if Ascii.eqb x c then true else char_in c rest
  end.

(** [s.replace(a, b)] for one-character [a] and [b]. *)
Fixpoint replace (a b : ascii) (s : string) : string :=
  match s with
  | EmptyString => EmptyString
  | String x rest => String (if Ascii.eqb x a then b else x) (replace a b rest)
  end.

(** [s.split(sep)] for a one-character separator: never the empty list,
    [''.split('_') == ['']]. *)
Fixpoint split (sep : ascii) (s : string) : list string :=
  match s with
  | EmptyString => [EmptyString]
  | String x rest =>
      if Ascii.eqb x sep then EmptyString :: split sep rest
      else match split sep rest with
           | w :: ws => String x w :: ws
           | [] => [String x EmptyString]
           end
  end.

Definition is_upper (c : ascii) : bool :=
  let n := nat_of_ascii c in (65 <=? n)%nat && (n <=? 90)%nat.
Definition is_lower (c : ascii) : bool :=
  let n := nat_of_ascii c in (97 <=? n)%nat && (n <=? 122)%nat.

Definition to_upper (c : ascii) : ascii :=
  if is_lower c then ascii_of_nat (nat_of_ascii c - 32) else c.
Definition to_lower (c : ascii) : ascii :=
  if is_upper c then ascii_of_nat (nat_of_ascii c + 32) else c.

Fixpoint map_chars (f : ascii -> ascii) (s : string) : string :=
  match s with
  | EmptyString => EmptyString
  | String x rest => String (f x) (map_chars f rest)
  end.

(** [s.lower()] and [s.upper()]. *)
Definition lower (s : string) : string := map_chars to_lower s.
Definition upper (s : string) : string := map_chars to_upper s.

(** [s.capitalize()]: first character upper-cased, the rest lower-cased. *)
Definition capitalize (s : string) : string :=
  match s with
  | EmptyString => EmptyString
  | String x rest => String (to_upper x) (lower rest)
  end.

(** [''.join(ws)]. *)
Fixpoint join (ws : list string) : string :=
  match ws with
  | [] => EmptyString
  | w :: rest => w +:+ join rest
  end.

(** Truth value of a string: [bool(s)]. *)
Definition truthy (s : string) : bool :=
  match s with EmptyString => false | _ => true end.

(** Characters for which [str.isspace()] holds, within ASCII: the class
    [\s] of [re] and the characters removed by [strip()]. *)
Definition is_space (c : ascii) : bool :=
  let n := nat_of_ascii c in
  ((9 <=? n)%nat && (n <=? 13)%nat) || ((28 <=? n)%nat && (n <=? 32)%nat).

(** The class [[\n\r\t\f\v]]. *)
Definition is_control_space (c : ascii) : bool :=
  let n := nat_of_ascii c in (9 <=? n)%nat && (n <=? 13)%nat.

(** [re.sub(r'[\n\r\t\f\v]', ' ', s)]. *)
Definition sub_control_space (s : string) : string :=
  map_chars (fun c => if is_control_space c then " "%char else c) s.

(** [re.sub(r'\s+', ' ', s)]: every maximal run of white space becomes one
    blank. [in_run] tells that the previous character was white space. *)
Fixpoint collapse_from (in_run : bool) (s : string) : string :=
  match s with
  | EmptyString => EmptyString
  | String x rest =>
      if is_space x
      then (if in_run then collapse_from true rest
            else String " "%char (collapse_from true rest))
      else String x (collapse_from false rest)
  end.
Definition collapse_spaces (s : string) : string := collapse_from false s.

Fixpoint lstrip (s : string) : string :=
  match s with
  | EmptyString => EmptyString
  | String x rest => if is_space x then lstrip rest else s
  end.

(** [rstrip] keeps a character when it is not white space or when something
    that is kept follows it. *)
Fixpoint rstrip (s : string) : string :=
  match s with
  | EmptyString => EmptyString
  | String x rest =>
      match rstrip rest with
      | EmptyString => if is_space x then EmptyString else String x EmptyString
      | kept => String x kept
      end
  end.

(** [s.strip()]. *)
Definition strip (s : string) : string := rstrip (lstrip s).

End PyStr.

(** ** Naming: [to_snake_case], [to_pascal_case] *)

(** [to_snake_case]: despite its name it only replaces the colon. *)
Definition to_snake_case (object_name : string) : string :=
  if PyStr.truthy object_name then PyStr.replace ":" "_" object_name else "".

(** [to_pascal_case] on a [str]: the guard on the empty string, the colon
    replaced by the underscore, the split on the underscore, every word
    capitalized, the words joined. *)
Definition to_pascal_case (snake_str : string) : string :=
  if negb (PyStr.truthy snake_str) then ""
  else
    let snake_str := PyStr.replace ":" "_" snake_str in
    let words := PyStr.split "_" snake_str in
    PyStr.join (map PyStr.capitalize words).

(** [to_pascal_case] on a [list]: the branch [isinstance(snake_str, list)]. *)
Definition to_pascal_case_list (items : list string) : list string :=
  map to_pascal_case items.


(** ** Written-out values and insertion-ordered dictionaries *)

(** What [json.dump] / [yaml.dump] receive: [None], [bool], [int], [str],
    [list] and [dict]. *)
#[local] Unset Elimination Schemes.
Inductive json : Type :=
| JNull
| JBool (b : bool)
| JInt (n : Z)
| JStr (s : string)
| JList (items : list json)
| JDict (entries : list (string * json)).
#[local] Set Elimination Schemes.

Section Dict.
Context {V : Type}.

(** [d.get(k)] *)
Fixpoint dict_get (k : string) (d : list (string * V)) : option V :=
  match d with
  | [] => None
  | (k', v) :: rest => if String.eqb k' k then Some v else dict_get k rest
  end.

(** [k in d] *)
Definition dict_has (k : string) (d : list (string * V)) : bool :=
  match dict_get k d with Some _ => true | None => false end.

(** [d[k] = v]: an existing key keeps its position, a new key goes last. *)
Fixpoint dict_set (k : string) (v : V) (d : list (string * V)) : list (string * V) :=
  match d with
  | [] => [(k, v)]
  | (k', v') :: rest =>
      if String.eqb k' k then (k', v) :: rest else (k', v') :: dict_set k v rest
  end.

(** [del d[k]] for a key that is present: the entry under [k] goes (the
    keys of a dictionary are distinct, so there is one). *)
Fixpoint dict_del (k : string) (d : list (string * V)) : list (string * V) :=
  match d with
  | [] => []
  | (k', v') :: rest =>
      if String.eqb k' k then dict_del k rest else (k', v') :: dict_del k rest
  end.

(** In-place mutation of the object stored under [k]: [f] applied to
    [d[k]]. *)
Fixpoint dict_alter (f : V -> V) (k : string) (d : list (string * V)) : list (string * V) :=
  match d with
  | [] => []
  | (k', v') :: rest =>
      if String.eqb k' k then (k', f v') :: rest else (k', v') :: dict_alter f k rest
  end.
End Dict.

(** The same on a [json] value that is a dictionary. *)
Definition json_get (k : string) (j : json) : option json :=
  match j with JDict d => dict_get k d | _ => None end.
Definition json_set (k : string) (v : json) (j : json) : json :=
  match j with JDict d => JDict (dict_set k v d) | _ => j end.
Definition json_alter (f : json -> json) (k : string) (j : json) : json :=
  match j with JDict d => JDict (dict_alter f k d) | _ => j end.
(** [j.append(x)] on a list. *)
Definition json_append (x : json) (j : json) : json :=
  match j with JList l => JList (l ++ [x]) | _ => j end.

Definition JStrs (l : list string) : json := JList (map JStr l).

(** ** Exceptions *)

Inductive exn : Type :=
| TypeError   (** subscript of [None] *)
| KeyError (key : string).

Inductive result (A : Type) : Type :=
| Ok (a : A)
| Raise (e : exn).
Arguments Ok {A} a.
Arguments Raise {A} e.

Definition bind {A B : Type} (r : result A) (k : A -> result B) : result B :=
  match r with Ok a => k a | Raise e => Raise e end.

Notation "'try!' x ':=' r 'in' k" := (bind r (fun x => k))
  (at level 10, x name, r at level 100, k at level 200).

(** ** The raw vendor schema *)

(** The value under ["restrictions"]: a list, a dictionary (with or without
    a ["list"] key, possibly with other keys), or anything else, of which
    only the truth value matters. *)
Inductive RawRestrictions : Type :=
| RestrList (names : list string)
| RestrDict (list_key : option (list string)) (other_keys : bool)
| RestrOther (truth : bool).

(** A raw field descriptor and a raw (object or nested) schema.
    [rf_name], [rf_type], [rf_enum_values], [rf_schema] and the keys of a
    schema are optional; [rf_type] is [None] as well when the value is not a
    list. [rs_other_keys] tells whether the dictionary has keys that the
    generator never reads (they make it non-empty). *)
Inductive RawField : Type := mkRawField {
  rf_name : option string;
  rf_supports : string;
  rf_type : option (list string);
  rf_is_array : bool;
  rf_doc : string;
  rf_searchable_by : string;
  rf_required : bool;
  rf_enum_values : option (list string);
  rf_schema : option RawSchema }
with RawSchema : Type := mkRawSchema {
  rs_type : option string;
  rs_fields : option (list RawField);
  rs_restrictions : option RawRestrictions;
  rs_schema_version : option string;
  rs_other_keys : bool }.

(** [bool(schema)]: a dictionary is true when it has a key. *)
Definition schema_truthy (s : RawSchema) : bool :=
  match rs_type s, rs_fields s, rs_restrictions s, rs_schema_version s with
  | None, None, None, None => rs_other_keys s
  | _, _, _, _ => true
  end.

Definition restrictions_truthy (r : RawRestrictions) : bool :=
  match r with
  | RestrList [] => false
  | RestrList (_ :: _) => true
  | RestrDict None other => other
  | RestrDict (Some _) _ => true
  | RestrOther t => t
  end.

(** ** Field details: the dictionary built by [process_field]

    The same record stands for the two reduced dictionaries that the
    emitters hand to [convert_field_type_to_openapi] for array items; the
    keys they lack are never read on them, except ["enum"], ["name"] and
    ["parent_property"], read with [.get]. *)
Record FieldDetails : Type := mkFieldDetails {
  fd_name : string;
  fd_type : string;
  fd_original_type : string;
  fd_description : string;
  fd_readonly : bool;
  fd_writeonly : bool;
  fd_deleteonly : bool;
  fd_supports_filtering : bool;
  fd_searchable_by : string;
  fd_required : bool;
  fd_is_array : bool;
  fd_enum : option (list string);
  fd_supports : string;
  fd_nested_schema : option RawSchema;
  fd_nested_schema_name : option string;   (** set by [process_schema] *)
  fd_parent_property : option string       (** only on array items *) }.

(** The documentation clean-up of [process_field]. *)
Definition clean_description (description : string) : string :=
  if PyStr.truthy description
  then PyStr.strip (PyStr.collapse_spaces (PyStr.sub_control_space description))
  else description.

(** The value under ["schema"] when the key is there and the value is
    true. *)
Definition nested_schema_of (field : RawField) : option RawSchema :=
  match field with
  | mkRawField _ _ _ _ _ _ _ _ (Some sch) =>
      if schema_truthy sch then Some sch else None
  | mkRawField _ _ _ _ _ _ _ _ None => None
  end.

(** [process_field]: [None] for a field without a name. *)
Definition process_field (field : RawField) : option FieldDetails :=
  let field_name := default "" (rf_name field) in
  if negb (PyStr.truthy field_name) then None
  else
    let supports := rf_supports field in
    let readonly :=
      PyStr.char_in "r" supports && negb (PyStr.char_in "w" supports) in
    let writeonly :=
      PyStr.char_in "w" supports && negb (PyStr.char_in "r" supports) in
    let deleteonly :=
      PyStr.char_in "d" supports && negb (PyStr.char_in "r" supports)
      && negb (PyStr.char_in "w" supports) in
    let field_types :=
      match rf_type field with
      | Some (t :: ts) => t :: ts
      | _ => ["string"]
      end in
    let field_type :=
      match field_types with t :: _ => t | [] => "string" end in
    let is_array := rf_is_array field in
    let original_type := field_type in
    let field_type := if is_array then "array" else field_type in
    let description := clean_description (rf_doc field) in
    let searchable_by := rf_searchable_by field in
    let supports_filtering := PyStr.truthy searchable_by in
    Some {| fd_name := field_name;
            fd_type := field_type;
            fd_original_type := original_type;
            fd_description := description;
            fd_readonly := readonly;
            fd_writeonly := writeonly;
            fd_deleteonly := deleteonly;
            fd_supports_filtering := supports_filtering;
            fd_searchable_by := searchable_by;
            fd_required := rf_required field;
            fd_is_array := is_array;
            fd_enum := rf_enum_values field;
            fd_supports := supports;
            fd_nested_schema := nested_schema_of field;
            fd_nested_schema_name := None;
            fd_parent_property := None |}.

(** ** [convert_field_type_to_openapi] *)

Definition type_mapping : list (string * string) :=
  [ ("string", "string"); ("uint", "integer"); ("int", "integer");
    ("integer", "integer"); ("bool", "boolean"); ("timestamp", "integer");
    ("enum", "string"); ("extattr", "object") ].

Definition format_mapping : list (string * string) :=
  [ ("timestamp", "int64"); ("uint", "int64"); ("int", "int64") ].

(** Truth value of [field_details.get("enum")]. *)
Definition enum_of (field_details : FieldDetails) : option (list string) :=
  match fd_enum field_details with
  | Some (v :: vs) => Some (v :: vs)
  | _ => None
  end.

Definition convert_field_type_to_openapi (field_details : FieldDetails)
  : list (string * json) :=
  let field_type := fd_type field_details in
  let original_type := fd_original_type field_details in
  let property_def :=
    [ ("type", JStr "string");
      ("description", JStr (fd_description field_details)) ] in
  let property_def :=
    match dict_get field_type type_mapping with
    | Some t => dict_set "type" (JStr t) property_def
    | None =>
        if bool_decide (fd_parent_property field_details = Some "is_array")
        then property_def
        else dict_set "type" (JStr "object") property_def
    end in
  let property_def :=
    match dict_get field_type format_mapping with
    | Some f => dict_set "format" (JStr f) property_def
    | None => property_def
    end in
  let property_def :=
    if negb (dict_has field_type type_mapping) && PyStr.truthy original_type
    then dict_set "enum" (JStrs [original_type]) property_def
    else property_def in
  let property_def :=
    match enum_of field_details with
    | Some values => dict_set "enum" (JStrs values) property_def
    | None => property_def
    end in
  let property_def :=
    if fd_readonly field_details
    then dict_set "readOnly" (JBool true) property_def else property_def in
  let property_def :=
    if fd_writeonly field_details
    then dict_set "writeOnly" (JBool true) property_def else property_def in
  property_def.

(** ** The generator's configuration

    What the methods below read from [self]: [self.objects], the inverse
    group table [self.object_to_group], the table of callback fields
    [self.func_call_fields], and the two [schema_options] of [self.config]
    (both default to [True]). *)
Record Generator : Type := mkGenerator {
  gen_objects : list string;
  gen_object_to_group : gmap string string;
  gen_func_call_fields : gmap string (list string);
  gen_pascal_case_schemas : bool;
  gen_include_examples : bool }.

(** ** [process_schema] *)

(** An entry of ["nested_schemas"]. *)
Record NestedRef : Type := mkNestedRef {
  nr_name : string;
  nr_schema : RawSchema;
  nr_field_name : string }.

(** The processed schema. *)
Record ProcessedSchema : Type := mkProcessedSchema {
  sc_object_type : string;
  sc_object_name : string;
  sc_schema_name : string;
  sc_response_schema_name : string;
  sc_fields : list (string * FieldDetails);
  sc_filtering_fields : list string;
  sc_required_fields : list string;
  sc_nested_schemas : list NestedRef;
  sc_supports_create : bool;
  sc_supports_delete : bool;
  sc_supports_modify : bool;
  sc_group : string;
  sc_schema_version : string;
  sc_restrictions : list string }.

(** The restriction list: the value itself when it is a list, its ["list"]
    entry when it is a dictionary that has one, empty otherwise. *)
Definition extract_restrictions (schema : RawSchema) : list string :=
  match rs_restrictions schema with
  | Some r =>
      if restrictions_truthy r then
        match r with
        | RestrList names => names
        | RestrDict (Some names) _ => names
        | RestrDict None _ => []
        | RestrOther _ => []
        end
      else []
  | None => []
  end.

(** The four accumulators of the loop over the raw fields. *)
Record FieldAcc : Type := mkFieldAcc {
  acc_processed_fields : list (string * FieldDetails);
  acc_filtering_fields : list string;
  acc_required_fields : list string;
  acc_nested_schemas : list NestedRef }.

Definition with_nested_schema_name (fd : FieldDetails) (n : string) : FieldDetails :=
  {| fd_name := fd_name fd; fd_type := fd_type fd;
     fd_original_type := fd_original_type fd;
     fd_description := fd_description fd;
     fd_readonly := fd_readonly fd; fd_writeonly := fd_writeonly fd;
     fd_deleteonly := fd_deleteonly fd;
     fd_supports_filtering := fd_supports_filtering fd;
     fd_searchable_by := fd_searchable_by fd;
     fd_required := fd_required fd; fd_is_array := fd_is_array fd;
     fd_enum := fd_enum fd; fd_supports := fd_supports fd;
     fd_nested_schema := fd_nested_schema fd;
     fd_nested_schema_name := Some n;
     fd_parent_property := fd_parent_property fd |}.

(** The truth value of [processed_field["nested_schema"]], with the schema. *)
Definition nested_of (fd : FieldDetails) : option RawSchema :=
  match fd_nested_schema fd with
  | Some sch => if schema_truthy sch then Some sch else None
  | None => None
  end.

(** One turn of the loop over [raw_fields]. The result of [process_field]
    is subscripted at once: on [None] that is a [TypeError]. *)
Definition process_schema_field (type_name : string) (acc : FieldAcc)
    (field : RawField) : result FieldAcc :=
  match process_field field with
  | None => Raise TypeError
  | Some processed_field =>
      let field_name := fd_name processed_field in
      let filtering_fields :=
        if fd_supports_filtering processed_field
        then acc_filtering_fields acc ++ [field_name]
        else acc_filtering_fields acc in
      let required_fields :=
        if fd_required processed_field
        then acc_required_fields acc ++ [field_name]
        else acc_required_fields acc in
      match nested_of processed_field with
      | Some sch =>
          let nested_schema_name :=
            to_pascal_case (type_name +:+ "_" +:+ field_name) in
          Ok {| acc_processed_fields :=
                  dict_set field_name
                    (with_nested_schema_name processed_field nested_schema_name)
                    (acc_processed_fields acc);
                acc_filtering_fields := filtering_fields;
                acc_required_fields := required_fields;
                acc_nested_schemas :=
                  acc_nested_schemas acc ++
                  [ {| nr_name := nested_schema_name; nr_schema := sch;
                       nr_field_name := field_name |} ] |}
      | None =>
          Ok {| acc_processed_fields :=
                  dict_set field_name processed_field (acc_processed_fields acc);
                acc_filtering_fields := filtering_fields;
                acc_required_fields := required_fields;
                acc_nested_schemas := acc_nested_schemas acc |}
      end
  end.

Fixpoint process_schema_fields (type_name : string) (acc : FieldAcc)
    (raw_fields : list RawField) : result FieldAcc :=
  match raw_fields with
  | [] => Ok acc
  | field :: rest =>
      try! acc' := process_schema_field type_name acc field in
      process_schema_fields type_name acc' rest
  end.

(** [any('w' in d.get("supports", "") for d in processed_fields.values())] *)
Definition any_writable (processed_fields : list (string * FieldDetails)) : bool :=
  existsb (fun kv => PyStr.char_in "w" (fd_supports (snd kv))) processed_fields.

(** [process_schema]: [Ok None] for an empty schema, a [TypeError] as soon
    as a raw field has no name. *)
Definition process_schema (self : Generator) (schema : RawSchema)
    (object_type : string) : result (option ProcessedSchema) :=
  if negb (schema_truthy schema) then Ok None
  else
    let type_name := default object_type (rs_type schema) in
    let raw_fields := default [] (rs_fields schema) in
    let restrictions := extract_restrictions schema in
    try! acc := process_schema_fields type_name
                  {| acc_processed_fields := []; acc_filtering_fields := [];
                     acc_required_fields := []; acc_nested_schemas := [] |}
                  raw_fields in
    let group :=
      if bool_decide (length (gen_objects self) = 1)
      then "custom"
      else default "other" (gen_object_to_group self !! object_type) in
    let schema_name :=
      if gen_pascal_case_schemas self then to_pascal_case type_name
      else PyStr.replace ":" "_" type_name in
    let response_schema_name := "List" +:+ schema_name +:+ "Response" in
    let supports_create := negb (bool_decide ("create" ∈ restrictions)) in
    let supports_delete := negb (bool_decide ("delete" ∈ restrictions)) in
    let supports_modify := any_writable (acc_processed_fields acc) in
    Ok (Some {| sc_object_type := type_name;
                sc_object_name := PyStr.lower (PyStr.replace ":" "_" type_name);
                sc_schema_name := schema_name;
                sc_response_schema_name := response_schema_name;
                sc_fields := acc_processed_fields acc;
                sc_filtering_fields := acc_filtering_fields acc;
                sc_required_fields := acc_required_fields acc;
                sc_nested_schemas := acc_nested_schemas acc;
                sc_supports_create := supports_create;
                sc_supports_delete := supports_delete;
                sc_supports_modify := supports_modify;
                sc_group := group;
                sc_schema_version := default "2" (rs_schema_version schema);
                sc_restrictions := restrictions |}).

(** ** The schema emitter *)

(** [generate_extensible_attributes_schema] *)
Definition generate_extensible_attributes_schema : json :=
  JDict
    [ ("type", JStr "object");
      ("properties",
        JDict [ ("value",
                  JDict [ ("description",
                            JStr "The value of the extensible attribute.") ]) ]);
      ("required", JStrs ["value"]);
      ("description", JStr "Extensible attributes associated with the object.") ].

(** [{"$ref": f"#/components/schemas/{name}"}] *)
Definition schema_ref_string (name : string) : json :=
  JStr ("#/components/schemas/" +:+ name).
Definition schema_ref (name : string) : json :=
  JDict [ ("$ref", schema_ref_string name) ].

(** [d[k]] for a key that is there; [convert_field_type_to_openapi] always
    returns a dictionary with a ["type"]. *)
Definition dict_item (k : string) (d : list (string * json)) : json :=
  default JNull (dict_get k d).

(** [property_def.get("type") == t] *)
Definition type_is (t : string) (property_def : list (string * json)) : bool :=
  match dict_get "type" property_def with
  | Some (JStr s) => String.eqb s t
  | _ => false
  end.

(** The three example rules shared by the two emitters. *)
Definition add_example (include_examples : bool) (field_name : string)
    (property_def : list (string * json)) : list (string * json) :=
  if include_examples then
    if type_is "string" property_def
    then dict_set "example" (JStr ("Example " +:+ field_name)) property_def
    else if type_is "integer" property_def
    then dict_set "example" (JInt 1) property_def
    else if type_is "boolean" property_def
    then dict_set "example" (JBool false) property_def
    else property_def
  else property_def.

(** The reduced dictionary built for the items of a plain array. *)
Definition array_item_details (original_type : string)
    (parent_property : option string) : FieldDetails :=
  {| fd_name := ""; fd_type := original_type;
     fd_original_type := original_type; fd_description := "";
     fd_readonly := false; fd_writeonly := false; fd_deleteonly := false;
     fd_supports_filtering := false; fd_searchable_by := "";
     fd_required := false; fd_is_array := false; fd_enum := None;
     fd_supports := ""; fd_nested_schema := None;
     fd_nested_schema_name := None;
     fd_parent_property := parent_property |}.

(** [{"type": item_type["type"]}], with the ["enum"] of [item_type] when it
    has one. *)
Definition array_items (item_type : list (string * json)) : json :=
  let items := [ ("type", dict_item "type" item_type) ] in
  JDict (if dict_has "enum" item_type
         then dict_set "enum" (dict_item "enum" item_type) items
         else items).

(** The truth value of [field_details.get("nested_schema_name")], with the
    name. *)
Definition nested_name_of (fd : FieldDetails) : option string :=
  match fd_nested_schema_name fd with
  | Some n => if PyStr.truthy n then Some n else None
  | None => None
  end.

(** The state of one run of the emitter: [self.created_schemas] and the
    dictionary [schemas_data] under construction. *)
Record EmitState : Type := mkEmitState {
  created_schemas : gset string;
  schemas_data : list (string * json) }.

(** [schemas_data[schema_name]["properties"][field_name] = property_def] *)
Definition set_property (schema_name field_name : string) (property_def : json)
    (schemas_data : list (string * json)) : list (string * json) :=
  dict_alter (json_alter (json_set field_name property_def) "properties")
    schema_name schemas_data.

(** *** Nested schemas: [process_nested_schema_fields] *)

(** The property of one field of a nested schema: everything the loop body
    computes before it stores [property_def]. *)
Definition nested_property_def (self : Generator) (schema_name : string)
    (processed_field : FieldDetails) : list (string * json) :=
  let field_name := fd_name processed_field in
  let property_def := convert_field_type_to_openapi processed_field in
  let property_def :=
    add_example (gen_include_examples self) field_name property_def in
  let is_array := fd_is_array processed_field in
  let property_def :=
    match nested_of processed_field with
    | Some _ =>
        let nested_schema_name :=
          to_pascal_case (schema_name +:+ "_" +:+ field_name) in
        if is_array
        then [ ("type", JStr "array");
               ("description", JStr (fd_description processed_field));
               ("items", schema_ref nested_schema_name) ]
        else dict_set "$ref" (schema_ref_string nested_schema_name) property_def
    | None =>
        if is_array then
          match nested_name_of processed_field with
          | Some n =>
              dict_set "items" (schema_ref n)
                (dict_set "type" (JStr "array") property_def)
          | None =>
              let property_def := dict_set "type" (JStr "array") property_def in
              let item_type :=
                convert_field_type_to_openapi
                  (array_item_details (fd_original_type processed_field) None) in
              dict_set "items" (array_items item_type) property_def
          end
        else property_def
    end in
  if dict_has "$ref" property_def then dict_del "type" property_def
  else property_def.

(** The name is recorded and the empty object schema pre-allocated. *)
Definition register_nested (schema_name : string) (st : EmitState) : EmitState :=
  {| created_schemas := {[schema_name]} ∪ created_schemas st;
     schemas_data :=
       dict_set schema_name
         (JDict [ ("type", JStr "object"); ("properties", JDict []) ])
         (schemas_data st) |}.

(** The body of [process_nested_schema_fields] on the name and the raw
    schema of its argument; the recursion is on the raw schema, through the
    field that carries the child. *)
Fixpoint expand_nested (self : Generator) (schema_name : string)
    (schema_data : RawSchema) (st : EmitState) {struct schema_data} : EmitState :=
  if bool_decide (schema_name ∈ created_schemas st) then st
  else
    let st := register_nested schema_name st in
    match schema_data with
    | mkRawSchema _ fields _ _ _ =>
        match fields with
        | None => st
        | Some fields =>
            (fix loop (fields : list RawField) (st : EmitState) {struct fields}
               : EmitState :=
               match fields with
               | [] => st
               | field :: rest =>
                   let st :=
                     match process_field field with
                     | None => st
                     | Some processed_field =>
                         let field_name := fd_name processed_field in
                         let property_def :=
                           nested_property_def self schema_name processed_field in
                         let st :=
                           match field with
                           | mkRawField _ _ _ _ _ _ _ _ (Some child) =>
                               if schema_truthy child
                               then expand_nested self
                                      (to_pascal_case
                                         (schema_name +:+ "_" +:+ field_name))
                                      child st
                               else st
                           | mkRawField _ _ _ _ _ _ _ _ None => st
                           end in
                         {| created_schemas := created_schemas st;
                            schemas_data :=
                              set_property schema_name field_name
                                (JDict property_def) (schemas_data st) |}
                     end in
                   loop rest st
               end) fields st
        end
    end.

(** [process_nested_schema_fields]: of its argument only ["name"] and
    ["schema"] are read. *)
Definition process_nested_schema_fields (self : Generator)
    (nested_schema : NestedRef) (st : EmitState) : EmitState :=
  expand_nested self (nr_name nested_schema) (nr_schema nested_schema) st.

(** *** Object schemas: the loop of [generate_schemas_for_objects] *)

(** The built-in ["_ref"] property of every object schema. *)
Definition builtin_ref_property : json :=
  JDict [ ("type", JStr "string");
          ("description", JStr "The reference to the object.") ].

(** The two branches put under ["oneOf"] for a callback field. *)
Definition func_call_one_of (object_type field_name description : string) : json :=
  let text := JStr (object_type +:+ ": " +:+ description) in
  let properties :=
    [ ("_object_function", JDict [ ("type", JStr "string") ]);
      ("_parameters", JDict [ ("type", JStr "object") ]);
      ("_result_field", JDict [ ("type", JStr "string") ]);
      ("_object", JDict [ ("type", JStr "string") ]);
      ("_object_parameters", JDict [ ("type", JStr "object") ]) ] in
  let properties :=
    if bool_decide (field_name ∈ ["network"])
    then dict_set "_object_ref"
           (JDict [ ("type", JStr "string");
                    ("description",
                      JStr ("A WAPI object reference on which the function calls. "
                            +:+ "Either _object or _object_ref must be set.")) ])
           properties
    else properties in
  JList [ JDict [ ("type", JStr "string"); ("description", text) ];
          JDict [ ("type", JStr "object"); ("description", text);
                  ("properties", JDict properties) ] ].

(** One turn of the loop over [schema["fields"].items()]: [None] when the
    turn ends in [continue], the property that is stored otherwise. *)
Definition object_property_def (self : Generator) (schema : ProcessedSchema)
    (field_name : string) (field_details : FieldDetails)
  : option (list (string * json)) :=
  let property_def := convert_field_type_to_openapi field_details in
  let special_fields := gen_func_call_fields self in
  if String.eqb field_name "_ref" then None
  else
    let property_def :=
      if String.eqb field_name "extattrs"
      then dict_set "additionalProperties" (schema_ref "ExtAttrs") property_def
      else if bool_decide
                (field_name ∈ default [] (special_fields !! sc_object_type schema))
      then dict_set "oneOf"
             (func_call_one_of (sc_object_type schema) field_name
                (fd_description field_details))
             (dict_del "type" property_def)
      else property_def in
    let property_def :=
      match nested_name_of field_details with
      | Some n =>
          if fd_is_array field_details
          then dict_set "items" (schema_ref n)
                 (dict_set "type" (JStr "array") property_def)
          else [ ("$ref", schema_ref_string n) ]
      | None =>
          if fd_is_array field_details then
            let property_def := dict_set "type" (JStr "array") property_def in
            let item_type :=
              convert_field_type_to_openapi
                (array_item_details (fd_original_type field_details)
                   (Some "is_array")) in
            dict_set "items" (array_items item_type) property_def
          else property_def
      end in
    Some (add_example (gen_include_examples self) field_name property_def).

(** The object schema with its ["required"] list and its properties:
    [schemas_data] after the loop over the fields. *)
Definition emit_object_schema (self : Generator) (schema : ProcessedSchema)
    (schemas_data : list (string * json)) : list (string * json) :=
  let schema_name := sc_schema_name schema in
  let schemas_data :=
    dict_set schema_name
      (JDict [ ("type", JStr "object");
               ("additionalProperties", JBool false);
               ("properties", JDict [ ("_ref", builtin_ref_property) ]) ])
      schemas_data in
  let schemas_data :=
    match sc_required_fields schema with
    | [] => schemas_data
    | required =>
        dict_alter (json_set "required" (JStrs required)) schema_name schemas_data
    end in
  fold_left
    (fun schemas_data '(field_name, field_details) =>
       match object_property_def self schema field_name field_details with
       | None => schemas_data
       | Some property_def =>
           set_property schema_name field_name (JDict property_def) schemas_data
       end)
    (sc_fields schema) schemas_data.

(** *** The response schemas *)

Definition list_response_schema (schema_name response_schema_name : string) : json :=
  let description :=
    JStr ("The response format to retrieve __" +:+ schema_name +:+ "__ "
          +:+ "objects.") in
  JDict
    [ ("oneOf",
        JList
          [ JDict [ ("description", description);
                    ("type", JStr "array");
                    ("title", JStr (response_schema_name +:+ "Array"));
                    ("items", schema_ref schema_name) ];
            JDict [ ("description", description);
                    ("type", JStr "object");
                    ("title", JStr (response_schema_name +:+ "Object"));
                    ("properties",
                      JDict [ ("result",
                                JDict [ ("type", JStr "array");
                                        ("items", schema_ref schema_name) ]) ]) ] ]) ].

Definition create_response_schema (schema_name : string) : json :=
  JDict
    [ ("oneOf",
        JList
          [ JDict [ ("description",
                      JStr ("The response format to create __" +:+ schema_name
                            +:+ "__ " +:+ "in object format."));
                    ("type", JStr "object");
                    ("title",
                      JStr ("Create" +:+ schema_name +:+ "ResponseAsObject"));
                    ("properties",
                      JDict [ ("result", schema_ref schema_name) ]) ];
            JDict [ ("description",
                      JStr ("The response format to create __" +:+ schema_name
                            +:+ "__."));
                    ("type", JStr "string");
                    ("title", JStr ("Create" +:+ schema_name +:+ "Response")) ] ]) ].

Definition get_response_schema (schema_name : string) : json :=
  JDict
    [ ("oneOf",
        JList
          [ schema_ref schema_name;
            JDict [ ("description",
                      JStr ("The response format to retrieve __" +:+ schema_name
                            +:+ "__ " +:+ "objects."));
                    ("type", JStr "object");
                    ("additionalProperties", JBool false);
                    ("title",
                      JStr ("Get" +:+ schema_name +:+ "ResponseObjectAsResult"));
                    ("properties",
                      JDict [ ("result", schema_ref schema_name) ]) ] ]) ].

Definition update_response_schema (schema_name : string) : json :=
  JDict
    [ ("oneOf",
        JList
          [ JDict [ ("description",
                      JStr ("The response format to update __" +:+ schema_name
                            +:+ "__ " +:+ "in object format."));
                    ("type", JStr "object");
                    ("title",
                      JStr ("Update" +:+ schema_name +:+ "ResponseAsObject"));
                    ("properties",
                      JDict [ ("result", schema_ref schema_name) ]) ];
            JDict [ ("description",
                      JStr ("The response format to update __" +:+ schema_name
                            +:+ "__ ."));
                    ("type", JStr "string");
                    ("title", JStr ("Update" +:+ schema_name +:+ "Response")) ] ]) ].

Definition create_schema_name (schema_name : string) : string :=
  "Create" +:+ schema_name +:+ "Response".
Definition get_schema_name (schema_name : string) : string :=
  "Get" +:+ schema_name +:+ "Response".
Definition update_schema_name (schema_name : string) : string :=
  "Update" +:+ schema_name +:+ "Response".

(** The four assignments that end the turn of a schema: the list response,
    the create response under [if schema["supports_create"]], the get
    response and the update response. *)
Definition emit_response_schemas (schema : ProcessedSchema)
    (schemas_data : list (string * json)) : list (string * json) :=
  let schema_name := sc_schema_name schema in
  let response_schema_name := sc_response_schema_name schema in
  let schemas_data :=
    dict_set response_schema_name
      (list_response_schema schema_name response_schema_name) schemas_data in
  let schemas_data :=
    if sc_supports_create schema
    then dict_set (create_schema_name schema_name)
           (create_response_schema schema_name) schemas_data
    else schemas_data in
  let schemas_data :=
    dict_set (get_schema_name schema_name)
      (get_response_schema schema_name) schemas_data in
  dict_set (update_schema_name schema_name)
    (update_response_schema schema_name) schemas_data.

(** One turn of the loop over the processed schemas. *)
Definition emit_schema (self : Generator) (st : EmitState)
    (schema : ProcessedSchema) : EmitState :=
  let st :=
    {| created_schemas := created_schemas st;
       schemas_data := emit_object_schema self schema (schemas_data st) |} in
  let st :=
    fold_left (fun st nested_schema =>
                 process_nested_schema_fields self nested_schema st)
      (sc_nested_schemas schema) st in
  {| created_schemas := created_schemas st;
     schemas_data := emit_response_schemas schema (schemas_data st) |}.

(** The state in which [generate_schemas_for_objects] starts: no schema
    created, the extensible-attributes schema in place. *)
Definition initial_emit_state : EmitState :=
  {| created_schemas := ∅;
     schemas_data := [ ("ExtAttrs", generate_extensible_attributes_schema) ] |}.

(** The state in which [generate_schemas_for_objects] ends. *)
Definition generate_schemas_state (self : Generator)
    (schemas : list ProcessedSchema) : EmitState :=
  fold_left (emit_schema self) schemas initial_emit_state.

(** [generate_schemas_for_objects] *)
Definition generate_schemas_for_objects (self : Generator)
    (schemas : list ProcessedSchema) : list (string * json) :=
  schemas_data (generate_schemas_state self schemas).

(** ** The path emitter: the loop over the schemas in [generate_group_api] *)

Definition parameter_ref (name : string) : json :=
  JDict [ ("$ref", JStr ("#/components/parameters/" +:+ name)) ].

Definition plain_response (description : string) : json :=
  JDict [ ("description", JStr description) ].

Definition json_response (description schema_name : string) : json :=
  JDict
    [ ("description", JStr description);
      ("content",
        JDict [ ("application/json",
                  JDict [ ("schema", schema_ref schema_name) ]) ]) ].

Definition json_request_body (description schema_name : string) : json :=
  JDict
    [ ("description", JStr description);
      ("required", JBool true);
      ("content",
        JDict [ ("application/json",
                  JDict [ ("schema", schema_ref schema_name) ]) ]) ].

Definition basic_auth_security : json :=
  JList [ JDict [ ("basicAuth", JList []) ] ].

(** The path parameter ["reference"]. *)
Definition reference_parameter (object_type : string) : json :=
  JDict
    [ ("name", JStr "reference");
      ("in", JStr "path");
      ("description", JStr ("Reference of the " +:+ object_type +:+ " object"));
      ("required", JBool true);
      ("schema", JDict [ ("type", JStr "string") ]) ].

(** An optional query parameter named after a field and typed by
    [convert_field_type_to_openapi]. *)
Definition field_query_parameter (field_name : string)
    (field_details : FieldDetails) : json :=
  let property_def := convert_field_type_to_openapi field_details in
  JDict
    [ ("name", JStr field_name);
      ("in", JStr "query");
      ("description", JStr (fd_description field_details));
      ("required", JBool false);
      ("schema",
        JDict [ ("type", default (JStr "string") (dict_get "type" property_def)) ]) ].

(** The parameter of a filtering field. A name that is not a key of
    [schema["fields"]] yields the empty dictionary, and the conversion
    subscripts it with ["type"]. *)
Definition filter_parameter (schema : ProcessedSchema) (field_name : string)
  : result json :=
  match dict_get field_name (sc_fields schema) with
  | Some field_detail => Ok (field_query_parameter field_name field_detail)
  | None => Raise (KeyError "type")
  end.

Definition list_operation (schema : ProcessedSchema) : json :=
  let object_type := sc_object_type schema in
  JDict
    [ ("tags", JStrs [to_pascal_case object_type]);
      ("operationId", JStr (to_pascal_case object_type +:+ "List"));
      ("summary", JStr ("Retrieve " +:+ object_type +:+ " objects"));
      ("description",
        JStr ("Returns a list of " +:+ object_type +:+ " objects "
              +:+ "matching the search criteria"));
      ("parameters",
        JList (map parameter_ref
                 [ "ReturnFields"; "ReturnFieldsPlus"; "MaxResults";
                   "ReturnAsObject"; "Paging"; "PageId"; "ProxySearch";
                   "Schema"; "SchemaVersion"; "GetDoc"; "SchemaSearchable";
                   "Inheritance" ]));
      ("responses",
        JDict [ ("200", json_response "Successful operation"
                          (sc_response_schema_name schema));
                ("400", plain_response "Bad request");
                ("401", plain_response "Unauthorized");
                ("403", plain_response "Forbidden");
                ("404", plain_response "Not found") ]);
      ("security", basic_auth_security) ].

Definition create_operation (schema : ProcessedSchema) : json :=
  let object_type := sc_object_type schema in
  JDict
    [ ("tags", JStrs [to_pascal_case object_type]);
      ("operationId", JStr (to_pascal_case object_type +:+ "Create"));
      ("summary", JStr ("Create a " +:+ object_type +:+ " object"));
      ("description", JStr ("Creates a new " +:+ object_type +:+ " object"));
      ("parameters",
        JList (map parameter_ref
                 [ "ReturnFields"; "ReturnFieldsPlus"; "ReturnAsObject";
                   "Inheritance" ]));
      ("requestBody",
        json_request_body "Object data to create" (sc_schema_name schema));
      ("responses",
        JDict [ ("201", json_response "Object created successfully"
                          (create_schema_name (sc_schema_name schema)));
                ("400", plain_response "Bad request");
                ("401", plain_response "Unauthorized");
                ("403", plain_response "Forbidden") ]);
      ("security", basic_auth_security) ].

Definition read_operation (schema : ProcessedSchema) : json :=
  let object_type := sc_object_type schema in
  JDict
    [ ("tags", JStrs [to_pascal_case object_type]);
      ("operationId", JStr (to_pascal_case object_type +:+ "Read"));
      ("summary", JStr ("Get a specific " +:+ object_type +:+ " object"));
      ("description",
        JStr ("Returns a specific " +:+ object_type +:+ " object by reference"));
      ("parameters",
        JList (reference_parameter object_type ::
               map parameter_ref
                 [ "ReturnFields"; "ReturnFieldsPlus"; "ReturnAsObject";
                   "Inheritance" ]));
      ("responses",
        JDict [ ("200", json_response "Successful operation"
                          (get_schema_name (sc_schema_name schema)));
                ("400", plain_response "Bad request");
                ("401", plain_response "Unauthorized");
                ("403", plain_response "Forbidden");
                ("404", plain_response "Not found") ]);
      ("security", basic_auth_security) ].

Definition update_operation (schema : ProcessedSchema) : json :=
  let object_type := sc_object_type schema in
  JDict
    [ ("tags", JStrs [to_pascal_case object_type]);
      ("operationId", JStr (to_pascal_case object_type +:+ "Update"));
      ("summary", JStr ("Update a " +:+ object_type +:+ " object"));
      ("description",
        JStr ("Updates a specific " +:+ object_type +:+ " object by reference"));
      ("parameters",
        JList (reference_parameter object_type ::
               map parameter_ref
                 [ "ReturnFields"; "ReturnFieldsPlus"; "ReturnAsObject" ]));
      ("requestBody",
        json_request_body "Object data to update" (sc_schema_name schema));
      ("responses",
        JDict [ ("200", json_response "Object updated successfully"
                          (update_schema_name (sc_schema_name schema)));
                ("400", plain_response "Bad request");
                ("401", plain_response "Unauthorized");
                ("403", plain_response "Forbidden");
                ("404", plain_response "Not found") ]);
      ("security", basic_auth_security) ].

(** [delete_params]: the path parameter, then one query parameter for every
    field whose ["deleteonly"] is true. *)
Definition delete_params (schema : ProcessedSchema) : list json :=
  fold_left
    (fun params '(field_name, field_details) =>
       if fd_deleteonly field_details
       then params ++ [field_query_parameter field_name field_details]
       else params)
    (sc_fields schema)
    [reference_parameter (sc_object_type schema)].

Definition delete_operation (schema : ProcessedSchema) : json :=
  let object_type := sc_object_type schema in
  JDict
    [ ("tags", JStrs [to_pascal_case object_type]);
      ("operationId", JStr (to_pascal_case object_type +:+ "Delete"));
      ("summary", JStr ("Delete a " +:+ object_type +:+ " object"));
      ("description",
        JStr ("Deletes a specific " +:+ object_type +:+ " object by reference"));
      ("parameters", JList (delete_params schema));
      ("responses",
        JDict [ ("200", plain_response "Object deleted successfully");
                ("400", plain_response "Bad request");
                ("401", plain_response "Unauthorized");
                ("403", plain_response "Forbidden");
                ("404", plain_response "Not found") ]);
      ("security", basic_auth_security) ].

Definition collection_path (schema : ProcessedSchema) : string :=
  "/" +:+ sc_object_type schema.
Definition item_path (schema : ProcessedSchema) : string :=
  "/" +:+ sc_object_type schema +:+ "/{reference}".

(** [api["paths"][path]["get"]["parameters"].append(parameter)] *)
Definition append_get_parameter (path : string) (parameter : json)
    (paths : list (string * json)) : list (string * json) :=
  dict_alter
    (json_alter (json_alter (json_append parameter) "parameters") "get")
    path paths.

(** The loop over [schema["filtering_fields"]]. *)
Fixpoint add_filter_parameters (schema : ProcessedSchema)
    (filtering_fields : list string) (paths : list (string * json))
  : result (list (string * json)) :=
  match filtering_fields with
  | [] => Ok paths
  | field_name :: rest =>
      try! parameter := filter_parameter schema field_name in
      add_filter_parameters schema rest
        (append_get_parameter (collection_path schema) parameter paths)
  end.

(** One turn of the loop [for schema in schemas] that fills [api["paths"]]. *)
Definition emit_paths (schema : ProcessedSchema) (paths : list (string * json))
  : result (list (string * json)) :=
  let paths :=
    dict_set (collection_path schema)
      (JDict [ ("get", list_operation schema) ]) paths in
  try! paths := add_filter_parameters schema (sc_filtering_fields schema) paths in
  let paths :=
    if sc_supports_create schema
    then dict_alter (json_set "post" (create_operation schema))
           (collection_path schema) paths
    else paths in
  let paths :=
    dict_set (item_path schema)
      (JDict [ ("get", read_operation schema) ]) paths in
  let paths :=
    if sc_supports_modify schema
    then dict_alter (json_set "put" (update_operation schema))
           (item_path schema) paths
    else paths in
  let paths :=
    if sc_supports_delete schema
    then dict_alter (json_set "delete" (delete_operation schema))
           (item_path schema) paths
    else paths in
  Ok paths.

(** [api["paths"]] at the end of the loop, or the exception that stops it. *)
Fixpoint generate_paths_from (schemas : list ProcessedSchema)
    (paths : list (string * json)) : result (list (string * json)) :=
  match schemas with
  | [] => Ok paths
  | schema :: rest =>
      try! paths := emit_paths schema paths in
      generate_paths_from rest paths
  end.

Definition generate_paths (schemas : list ProcessedSchema)
  : result (list (string * json)) :=
  generate_paths_from schemas [].


(** ** Derived notions used in the statements *)

(** The access of a field, read off the three flags of [process_field]. *)
Inductive Access : Type := ReadWrite | ReadOnly | WriteOnly | DeleteOnly.

Definition access_of (fd : FieldDetails) : Access :=
  if fd_readonly fd then ReadOnly
  else if fd_writeonly fd then WriteOnly
  else if fd_deleteonly fd then DeleteOnly
  else ReadWrite.

(** A raw field without a name: the key is absent, or its value is the
    empty string. *)
Definition nameless (field : RawField) : Prop :=
  rf_name field = None \/ rf_name field = Some "".

(** ** Notions used in the statements about the emitters *)

(** One turn of the loop over the fields of a nested schema, with the
    recursive call named. *)
Definition nested_field_step (self : Generator) (schema_name : string)
    (st : EmitState) (field : RawField) : EmitState :=
  match process_field field with
  | None => st
  | Some processed_field =>
      let field_name := fd_name processed_field in
      let st :=
        match nested_schema_of field with
        | Some child =>
            expand_nested self
              (to_pascal_case (schema_name +:+ "_" +:+ field_name)) child st
        | None => st
        end in
      {| created_schemas := created_schemas st;
         schemas_data :=
           set_property schema_name field_name
             (JDict (nested_property_def self schema_name processed_field))
             (schemas_data st) |}
  end.

(** A property definition has both a ["$ref"] and a ["type"]. *)
Definition ref_type_clash (property_def : json) : bool :=
  match property_def with
  | JDict d => dict_has "$ref" d && dict_has "type" d
  | _ => false
  end.

(** No property of a schema object has both keys. *)
Definition properties_clean (schema_object : json) : Prop :=
  forall properties,
    json_get "properties" schema_object = Some (JDict properties) ->
    forall field_name property_def,
      In (field_name, property_def) properties ->
      ref_type_clash property_def = false.

(** The same for every schema object of [schemas_data]. *)
Definition schemas_clean (schemas_data : list (string * json)) : Prop :=
  forall schema_name schema_object,
    In (schema_name, schema_object) schemas_data ->
    properties_clean schema_object.

(** Structural induction on a raw schema: the property holds for a schema
    when it holds for the nested schemas of its fields. *)
Section RawSchemaInduction.
Variable P : RawSchema -> Prop.
Hypothesis step :
  forall schema,
    Forall (fun field =>
              match nested_schema_of field with
              | Some child => P child
              | None => True
              end)
           (default [] (rs_fields schema)) ->
    P schema.

Fixpoint RawSchema_nested_ind (schema : RawSchema) : P schema :=
  step schema
    (match schema as s
           return Forall (fun field =>
                            match nested_schema_of field with
                            | Some child => P child
                            | None => True
                            end)
                         (default [] (rs_fields s)) with
     | mkRawSchema _ fields _ _ _ =>
         match fields as fo
               return Forall (fun field =>
                                match nested_schema_of field with
                                | Some child => P child
                                | None => True
                                end)
                             (default [] fo) with
         | None => @List.Forall_nil _ _
         | Some fs =>
             (fix all (fs : list RawField) :=
                match fs as l
                      return Forall (fun field =>
                                       match nested_schema_of field with
                                       | Some child => P child
                                       | None => True
                                       end) l with
                | [] => @List.Forall_nil _ _
                | f :: rest =>
                    @List.Forall_cons _ _ f rest
                      (match f as f0
                             return match nested_schema_of f0 with
                                    | Some child => P child
                                    | None => True
                                    end with
                       | mkRawField _ _ _ _ _ _ _ _ sch =>
                           match sch as so
                                 return match
                                          match so with
                                          | Some s' =>
                                              if schema_truthy s' then Some s'
                                              else None
                                          | None => None
                                          end
                                        with
                                        | Some child => P child
                                        | None => True
                                        end with
                           | Some child =>
                               (if schema_truthy child as b
                                   return match (if b then Some child else None)
                                          with
                                          | Some c => P c
                                          | None => True
                                          end
                                then RawSchema_nested_ind child
                                else I)
                           | None => I
                           end
                       end)
                      (all rest)
                end) fs
         end
     end).
End RawSchemaInduction.

(** [schemas_data[schema_name]["properties"][field_name]], when it is
    there. *)
Definition lookup_property (schema_name field_name : string)
    (schemas_data : list (string * json)) : option json :=
  schema_object ← dict_get schema_name schemas_data;
  properties ← json_get "properties" schema_object;
  json_get field_name properties.

(** Every filtering field is a key of the fields. *)
Definition filtering_fields_known (schema : ProcessedSchema) : Prop :=
  Forall (fun field_name => dict_has field_name (sc_fields schema) = true)
    (sc_filtering_fields schema).


(** [schemas_data[schema_name]["properties"]] is there and is a
    dictionary: the target of the store of a property exists. *)
Definition has_properties (schema_name : string)
    (schemas_data : list (string * json)) : Prop :=
  exists schema_object properties,
    dict_get schema_name schemas_data = Some schema_object
    /\ json_get "properties" schema_object = Some (JDict properties).

(** ** Sample inputs *)

(** A generator with the default options and no callback field. *)
Definition sample_generator : Generator :=
  {| gen_objects := []; gen_object_to_group := ∅; gen_func_call_fields := ∅;
     gen_pascal_case_schemas := true; gen_include_examples := true |}.

(** [{"name": name, "supports": supports, "type": ["string"]}] *)
Definition sample_field (name supports : string) : RawField :=
  {| rf_name := Some name; rf_supports := supports;
     rf_type := Some ["string"]; rf_is_array := false; rf_doc := "";
     rf_searchable_by := ""; rf_required := false; rf_enum_values := None;
     rf_schema := None |}.

(** [{"name": "", "supports": "rw", "type": ["string"]}] *)
Definition sample_nameless_field : RawField :=
  {| rf_name := Some ""; rf_supports := "rw";
     rf_type := Some ["string"]; rf_is_array := false; rf_doc := "";
     rf_searchable_by := ""; rf_required := false; rf_enum_values := None;
     rf_schema := None |}.

(** [{"type": "record:a", "fields": [name, the nameless field]}] *)
Definition sample_schema_nameless : RawSchema :=
  {| rs_type := Some "record:a";
     rs_fields := Some [sample_field "name" "rw"; sample_nameless_field];
     rs_restrictions := None; rs_schema_version := None;
     rs_other_keys := false |}.

(** [{"type": "record:a", "restrictions": ["create"], "fields": [name]}] *)
Definition sample_schema_no_create : RawSchema :=
  {| rs_type := Some "record:a";
     rs_fields := Some [sample_field "name" "rw"];
     rs_restrictions := Some (RestrList ["create"]);
     rs_schema_version := None; rs_other_keys := false |}.

(** What [process_field] makes of [sample_field "comment" "r"]. *)
Definition sample_readonly_details : FieldDetails :=
  {| fd_name := "comment"; fd_type := "string"; fd_original_type := "string";
     fd_description := ""; fd_readonly := true; fd_writeonly := false;
     fd_deleteonly := false; fd_supports_filtering := false;
     fd_searchable_by := ""; fd_required := false; fd_is_array := false;
     fd_enum := None; fd_supports := "r"; fd_nested_schema := None;
     fd_nested_schema_name := None; fd_parent_property := None |}.

(** A field of a vendor-specific struct type, without enum values. *)
Definition sample_struct_details : FieldDetails :=
  {| fd_name := "aws_rte53_record_info"; fd_type := "awsrte53recordinfo";
     fd_original_type := "awsrte53recordinfo";
     fd_description := ""; fd_readonly := true; fd_writeonly := false;
     fd_deleteonly := false; fd_supports_filtering := false;
     fd_searchable_by := ""; fd_required := false; fd_is_array := false;
     fd_enum := None; fd_supports := "r"; fd_nested_schema := None;
     fd_nested_schema_name := None; fd_parent_property := None |}.

(** A nested schema with a field that carries a schema of its own. *)
Definition sample_nested : NestedRef :=
  {| nr_name := "RecordAOptions";
     nr_schema :=
       {| rs_type := None;
          rs_fields :=
            Some [ {| rf_name := Some "num"; rf_supports := "rw";
                      rf_type := Some ["uint"]; rf_is_array := false;
                      rf_doc := ""; rf_searchable_by := "";
                      rf_required := false; rf_enum_values := None;
                      rf_schema := None |};
                   {| rf_name := Some "values"; rf_supports := "rw";
                      rf_type := Some ["option"]; rf_is_array := true;
                      rf_doc := ""; rf_searchable_by := "";
                      rf_required := false; rf_enum_values := None;
                      rf_schema :=
                        Some {| rs_type := None;
                                rs_fields := Some [sample_field "value" "rw"];
                                rs_restrictions := None;
                                rs_schema_version := None;
                                rs_other_keys := false |} |} ];
          rs_restrictions := None; rs_schema_version := None;
          rs_other_keys := false |};
     nr_field_name := "options" |}.

(** [{"type": "record:a", "fields": [comment, options]}]: two read-only
    fields, the second of a struct type with [sample_nested]'s schema. *)
Definition sample_schema_readonly : RawSchema :=
  {| rs_type := Some "record:a";
     rs_fields :=
       Some [ sample_field "comment" "r";
              {| rf_name := Some "options"; rf_supports := "r";
                 rf_type := Some ["struct"]; rf_is_array := false;
                 rf_doc := ""; rf_searchable_by := "";
                 rf_required := false; rf_enum_values := None;
                 rf_schema := Some (nr_schema sample_nested) |} ];
     rs_restrictions := None; rs_schema_version := None;
     rs_other_keys := false |}.

(** What [process_schema] makes of the field ["options"] of that schema. *)
Definition sample_nested_details : FieldDetails :=
  {| fd_name := "options"; fd_type := "struct"; fd_original_type := "struct";
     fd_description := ""; fd_readonly := true; fd_writeonly := false;
     fd_deleteonly := false; fd_supports_filtering := false;
     fd_searchable_by := ""; fd_required := false; fd_is_array := false;
     fd_enum := None; fd_supports := "r";
     fd_nested_schema := Some (nr_schema sample_nested);
     fd_nested_schema_name := Some "RecordAOptions";
     fd_parent_property := None |}.

(** What [process_schema] makes of [sample_schema_readonly]: no field is
    writable. *)
Definition sample_processed_schema : ProcessedSchema :=
  {| sc_object_type := "record:a"; sc_object_name := "record_a";
     sc_schema_name := "RecordA";
     sc_response_schema_name := "ListRecordAResponse";
     sc_fields := [ ("comment", sample_readonly_details);
                    ("options", sample_nested_details) ];
     sc_filtering_fields := []; sc_required_fields := [];
     sc_nested_schemas := [sample_nested];
     sc_supports_create := true; sc_supports_delete := true;
     sc_supports_modify := false;
     sc_group := "other"; sc_schema_version := "2"; sc_restrictions := [] |}.

(** [{"type": "record:a", "fields": [{"name": "name", "type": ["string"],
    "supports": "rw", "required": true}, {"name": "ipv4addr", "type":
    ["string"], "supports": "rw"}]}] *)
Definition sample_schema_record_a : RawSchema :=
  {| rs_type := Some "record:a";
     rs_fields :=
       Some [ {| rf_name := Some "name"; rf_supports := "rw";
                 rf_type := Some ["string"]; rf_is_array := false;
                 rf_doc := ""; rf_searchable_by := "";
                 rf_required := true; rf_enum_values := None;
                 rf_schema := None |};
              sample_field "ipv4addr" "rw" ];
     rs_restrictions := None; rs_schema_version := None;
     rs_other_keys := false |}.

(** ** Notions used in the statements about strings *)

(** Every character of the string satisfies the test. *)
Fixpoint all_chars (p : ascii -> bool) (s : string) : bool :=
  match s with
  | EmptyString => true
  | String c rest => p c && all_chars p rest
  end.

(** The two characters on which [to_pascal_case] cuts. *)
Definition is_separator (c : ascii) : bool :=
  Ascii.eqb c ":" || Ascii.eqb c "_".

(** White space in normal form, read from the left: every white-space
    character is a blank, no blank follows a blank ([after_blank] tells
    that the previous character was one, or that the string starts), and
    the string does not end on a blank. *)
Fixpoint blanks_normal_from (after_blank : bool) (s : string) : bool :=
  match s with
  | EmptyString => negb after_blank
  | String c rest =>
      if PyStr.is_space c
      then Ascii.eqb c " " && negb after_blank && blanks_normal_from true rest
      else blanks_normal_from false rest
  end.

(** Single blanks between words, none at either end. *)
Definition blanks_normal (s : string) : bool :=
  match s with
  | EmptyString => true
  | _ => blanks_normal_from true s
  end.

(** The same without the condition on the end of the string. *)
Fixpoint blanks_single_from (after_blank : bool) (s : string) : bool :=
  match s with
  | EmptyString => true
  | String c rest =>
      if PyStr.is_space c
      then Ascii.eqb c " " && negb after_blank && blanks_single_from true rest
      else blanks_single_from false rest
  end.

(** ** Notions used in the statements about the normalizer *)

(** [field.get("name", "")] *)
Definition raw_name (field : RawField) : string := default "" (rf_name field).

(** What the loop of [process_schema] keeps true of its accumulators: the
    keys of the fields are distinct, every field is stored under its own,
    non-empty name, it has a [nested_schema_name] exactly when it has a
    nested schema, the name is then built from the type name and the field
    name, and the list of nested schemas has the entry. *)
Definition fields_keyed (type_name : string)
    (processed_fields : list (string * FieldDetails))
    (nested_schemas : list NestedRef) : Prop :=
  List.NoDup (map fst processed_fields)
  /\ forall k fd,
       In (k, fd) processed_fields ->
       fd_name fd = k /\ k <> ""
       /\ fd_nested_schema_name fd
          = match nested_of fd with
            | Some _ => Some (to_pascal_case (type_name +:+ "_" +:+ k))
            | None => None
            end
       /\ forall child,
            nested_of fd = Some child ->
            In {| nr_name := to_pascal_case (type_name +:+ "_" +:+ k);
                  nr_schema := child; nr_field_name := k |}
               nested_schemas.

(** What [process_schema] makes of [sample_schema_record_a]. *)
Definition sample_processed_record_a : ProcessedSchema :=
  Eval vm_compute in
    match process_schema sample_generator sample_schema_record_a "record:a" with
    | Ok (Some sc) => sc
    | _ => sample_processed_schema
    end.

(** A generator for which ["network"] is a callback field of
    ["record:a"]. *)
Definition sample_callback_generator : Generator :=
  {| gen_objects := []; gen_object_to_group := ∅;
     gen_func_call_fields := {[ "record:a" := ["network"] ]};
     gen_pascal_case_schemas := true; gen_include_examples := true |}.

(** An array of a vendor struct type, without nested schema. *)
Definition sample_array_details : FieldDetails :=
  {| fd_name := "members"; fd_type := "array"; fd_original_type := "member";
     fd_description := ""; fd_readonly := false; fd_writeonly := false;
     fd_deleteonly := false; fd_supports_filtering := false;
     fd_searchable_by := ""; fd_required := false; fd_is_array := true;
     fd_enum := None; fd_supports := "rw"; fd_nested_schema := None;
     fd_nested_schema_name := None; fd_parent_property := None |}.

(** ** Notions used in the statements about the emitted schemas *)

(** The raw field has a name: [process_field] does not return [None]. *)
Definition has_name (field : RawField) : bool := PyStr.truthy (raw_name field).

(** Every created name is a key of [schemas_data]. *)
Definition created_have_schemas (st : EmitState) : Prop :=
  forall n, n ∈ created_schemas st -> dict_has n (schemas_data st) = true.

(** The field ["values"] of [sample_nested], what [process_field] makes of
    it, and the schema it carries. *)
Definition sample_values_field : RawField :=
  Eval vm_compute in
    match rs_fields (nr_schema sample_nested) with
    | Some [_; f] => f
    | _ => sample_nameless_field
    end.

Definition sample_values_details : FieldDetails :=
  Eval vm_compute in
    match process_field sample_values_field with
    | Some pf => pf
    | None => sample_readonly_details
    end.

Definition sample_values_child : RawSchema :=
  Eval vm_compute in
    match rf_schema sample_values_field with
    | Some child => child
    | None => nr_schema sample_nested
    end.

(** ** The rest of the document: common parameters and tags *)

Definition common_query_parameter (name description : string)
    (schema : list (string * json)) : json :=
  JDict
    [ ("name", JStr name);
      ("in", JStr "query");
      ("description", JStr description);
      ("required", JBool false);
      ("schema", JDict schema) ].

(** [generate_common_parameters] *)
Definition generate_common_parameters : list (string * json) :=
  [ ("ReturnFields",
      common_query_parameter "_return_fields"
        "Enter the field names followed by comma"
        [ ("type", JStr "string") ]);
    ("ReturnFieldsPlus",
      common_query_parameter "_return_fields+"
        ("Enter the field names followed by comma, this returns the "
         +:+ "required fields along with the default fields")
        [ ("type", JStr "string") ]);
    ("MaxResults",
      common_query_parameter "_max_results"
        "Enter the number of results to be fetched"
        [ ("type", JStr "integer"); ("format", JStr "int32");
          ("minimum", JInt 1) ]);
    ("ReturnAsObject",
      common_query_parameter "_return_as_object"
        "Select 1 if result is required as an object"
        [ ("type", JStr "integer"); ("enum", JList [JInt 0; JInt 1]) ]);
    ("Paging",
      common_query_parameter "_paging" "Control paging of results"
        [ ("type", JStr "integer"); ("enum", JList [JInt 0; JInt 1]) ]);
    ("PageId",
      common_query_parameter "_page_id"
        "Page id for retrieving next page of results"
        [ ("type", JStr "string") ]);
    ("ProxySearch",
      common_query_parameter "_proxy_search" "Search Grid members for data"
        [ ("type", JStr "string") ]);
    ("Schema",
      common_query_parameter "_schema" "Return schema for this object type"
        [ ("type", JStr "integer"); ("enum", JList [JInt 0; JInt 1]) ]);
    ("SchemaVersion",
      common_query_parameter "_schema_version" "Schema version to use"
        [ ("type", JStr "integer"); ("enum", JList [JInt 1; JInt 2]) ]);
    ("GetDoc",
      common_query_parameter "_get_doc" "Return documentation with schema"
        [ ("type", JStr "integer"); ("enum", JList [JInt 0; JInt 1]) ]);
    ("SchemaSearchable",
      common_query_parameter "_schema_searchable"
        "Return searchable fields with schema"
        [ ("type", JStr "integer"); ("enum", JList [JInt 0; JInt 1]) ]);
    ("Inheritance",
      common_query_parameter "_inheritance"
        ("If this option is set to True, fields which support inheritance, "
         +:+ "will display data properly.")
        [ ("type", JStr "boolean") ]) ].

(** The targets of the [$ref] entries among the parameters of an
    operation. *)
Definition parameter_refs (operation : json) : list string :=
  match json_get "parameters" operation with
  | Some (JList parameters) =>
      omap (fun parameter =>
              match json_get "$ref" parameter with
              | Some (JStr target) => Some target
              | _ => None
              end)
        parameters
  | _ => []
  end.

(** The entry of [api["tags"]] for an object type. *)
Definition tag_entry (object_type : string) : json :=
  JDict
    [ ("name", JStr (to_pascal_case object_type));
      ("description", JStr ("Operations for " +:+ object_type +:+ " objects")) ].

(** One turn of the loop that fills [api["tags"]]: the set
    [existing_tags] of the object types seen and the list of tags. *)
Definition add_tag (state : gset string * list json) (schema : ProcessedSchema)
  : gset string * list json :=
  let object_type := sc_object_type schema in
  if bool_decide (object_type ∈ state.1) then state
  else ({[object_type]} ∪ state.1, state.2 ++ [tag_entry object_type]).

(** [api["tags"]] after the loop; it starts empty. *)
Definition generate_tags (schemas : list ProcessedSchema) : list json :=
  (fold_left add_tag schemas (∅, [])).2.

(** ** Grouping of the object types *)

(** The inverse table built by [__init__]:
    [self.object_to_group[obj] = group_name] for every object of every
    group, in the order of the configuration. *)
Definition build_object_to_group (object_groups : list (string * list string))
  : gmap string string :=
  fold_left
    (fun table '(group_name, objects_list) =>
       fold_left (fun table obj => <[obj := group_name]> table)
         objects_list table)
    object_groups ∅.

(** [objects_by_group] of [generate_all]: the requested objects, appended
    to the list of their group, ["custom"] for an object of no group. *)
Definition group_requested_objects (object_to_group : gmap string string)
    (objects : list string) : list (string * list string) :=
  fold_left
    (fun objects_by_group obj =>
       let group := default "custom" (object_to_group !! obj) in
       dict_set group
         (default [] (dict_get group objects_by_group) ++ [obj])
         objects_by_group)
    objects [].

(** A processed schema whose filtering field is not one of its fields. *)
Definition sample_unknown_filter_schema : ProcessedSchema :=
  {| sc_object_type := "record:a"; sc_object_name := "record_a";
     sc_schema_name := "RecordA";
     sc_response_schema_name := "ListRecordAResponse";
     sc_fields := [ ("comment", sample_readonly_details) ];
     sc_filtering_fields := ["comment"; "ghost"]; sc_required_fields := [];
     sc_nested_schemas := [];
     sc_supports_create := true; sc_supports_delete := true;
     sc_supports_modify := false;
     sc_group := "other"; sc_schema_version := "2"; sc_restrictions := [] |}.

(** The parameters of the filtering fields, one for a field name that is a
    key of the fields. *)
Definition filter_parameters_of (schema : ProcessedSchema)
    (filtering_fields : list string) (parameters : list json) : Prop :=
  Forall2 (fun n p =>
             exists fd, dict_get n (sc_fields schema) = Some fd
                        /\ p = field_query_parameter n fd)
    filtering_fields parameters.

(** A generator whose table comes from one configured group. *)
Definition sample_dns_generator : Generator :=
  {| gen_objects := [];
     gen_object_to_group :=
       build_object_to_group [ ("dns", ["record:a"; "view"]) ];
     gen_func_call_fields := ∅;
     gen_pascal_case_schemas := true; gen_include_examples := true |}.

(** What [process_schema] makes of [sample_schema_record_a] with it. *)
Definition sample_processed_dns_record_a : ProcessedSchema :=
  Eval vm_compute in
    match process_schema sample_dns_generator sample_schema_record_a "record:a"
    with
    | Ok (Some sc) => sc
    | _ => sample_processed_schema
    end.

(** ** Notions used in the statement about the built-in reference *)

(** The keys that the four assignments of [emit_response_schemas] write. *)
Definition response_schema_names (schema : ProcessedSchema) : list string :=
  sc_response_schema_name schema
  :: (if sc_supports_create schema
      then [create_schema_name (sc_schema_name schema)] else [])
  ++ [ get_schema_name (sc_schema_name schema);
       update_schema_name (sc_schema_name schema) ].







(** [{"type": "record:a", "fields": [name, ttl, comment]}] with
    ["searchable_by"] on the first two, the second of type [uint]. *)
Definition sample_schema_searchable : RawSchema :=
  {| rs_type := Some "record:a";
     rs_fields :=
       Some [ {| rf_name := Some "name"; rf_supports := "rw";
                 rf_type := Some ["string"]; rf_is_array := false;
                 rf_doc := "The name."; rf_searchable_by := "=~:";
                 rf_required := true; rf_enum_values := None;
                 rf_schema := None |};
              {| rf_name := Some "ttl"; rf_supports := "rw";
                 rf_type := Some ["uint"]; rf_is_array := false;
                 rf_doc := "The time to live."; rf_searchable_by := "=<>";
                 rf_required := false; rf_enum_values := None;
                 rf_schema := None |};
              sample_field "comment" "rw" ];
     rs_restrictions := None; rs_schema_version := None;
     rs_other_keys := false |}.

Definition sample_processed_searchable : ProcessedSchema :=
  Eval vm_compute in
    match process_schema sample_generator sample_schema_searchable "record:a"
    with
    | Ok (Some sc) => sc
    | _ => sample_processed_schema
    end.

(** [{"type": object_type, "fields": [{"name": "name", "supports": "rw",
    "type": ["string"]}]}] *)
Definition sample_schema_of_type (object_type : string) : RawSchema :=
  {| rs_type := Some object_type;
     rs_fields := Some [sample_field "name" "rw"];
     rs_restrictions := None; rs_schema_version := None;
     rs_other_keys := false |}.

(** * Properties *)

(** ** Dictionaries *)

Section DictFacts.
Context {V : Type}.
Implicit Types (d : list (string * V)) (k : string) (v : V).

Lemma dict_get_set_eq k v d : dict_get k (dict_set k v d) = Some v.
Proof.
  induction d as [|[k' v'] d IH]; simpl.
  - by rewrite String.eqb_refl.
  - destruct (String.eqb k' k) eqn:E; simpl; rewrite E; auto.
Qed.

Lemma dict_get_set_ne k k' v d :
  k <> k' -> dict_get k' (dict_set k v d) = dict_get k' d.
Proof.
  intros Hne. induction d as [|[k0 v0] d IH]; simpl.
  - apply String.eqb_neq in Hne. by rewrite Hne.
  - destruct (String.eqb k0 k) eqn:E; simpl.
    + apply String.eqb_eq in E. subst k0.
      apply String.eqb_neq in Hne. by rewrite Hne.
    + by rewrite IH.
Qed.

Lemma dict_has_set_eq k v d : dict_has k (dict_set k v d) = true.
Proof. unfold dict_has. by rewrite dict_get_set_eq. Qed.

Lemma dict_has_set_ne k k' v d :
  k <> k' -> dict_has k' (dict_set k v d) = dict_has k' d.
Proof. intros. unfold dict_has. by rewrite dict_get_set_ne. Qed.

Lemma dict_has_set_mono k k' v d :
  dict_has k' d = true -> dict_has k' (dict_set k v d) = true.
Proof.
  intros H. destruct (String.eqb_spec k k') as [->|Hne].
  - apply dict_has_set_eq.
  - by rewrite dict_has_set_ne.
Qed.

Lemma dict_get_del_eq k d : dict_get k (dict_del k d) = None.
Proof.
  induction d as [|[k' v'] d IH]; simpl; [done|].
  destruct (String.eqb k' k) eqn:E; simpl; [done|]. by rewrite E.
Qed.

Lemma dict_get_del_ne k k' d :
  k <> k' -> dict_get k' (dict_del k d) = dict_get k' d.
Proof.
  intros Hne. induction d as [|[k0 v0] d IH]; simpl; [done|].
  destruct (String.eqb k0 k) eqn:E; simpl.
  - apply String.eqb_eq in E. subst k0.
    apply String.eqb_neq in Hne. by rewrite Hne.
  - by rewrite IH.
Qed.

Lemma dict_has_del_eq k d : dict_has k (dict_del k d) = false.
Proof. unfold dict_has. by rewrite dict_get_del_eq. Qed.

Lemma dict_has_del_ne k k' d :
  k <> k' -> dict_has k' (dict_del k d) = dict_has k' d.
Proof. intros. unfold dict_has. by rewrite dict_get_del_ne. Qed.

Lemma dict_get_alter_eq (f : V -> V) k d :
  dict_get k (dict_alter f k d) = f <$> dict_get k d.
Proof.
  induction d as [|[k' v'] d IH]; simpl; [done|].
  destruct (String.eqb k' k) eqn:E; simpl; rewrite E; auto.
Qed.

Lemma dict_get_alter_ne (f : V -> V) k k' d :
  k <> k' -> dict_get k' (dict_alter f k d) = dict_get k' d.
Proof.
  intros Hne. induction d as [|[k0 v0] d IH]; simpl; [done|].
  destruct (String.eqb k0 k) eqn:E; simpl.
  - apply String.eqb_eq in E. subst k0.
    apply String.eqb_neq in Hne. by rewrite Hne.
  - by rewrite IH.
Qed.

Lemma dict_has_alter (f : V -> V) k k' d :
  dict_has k' (dict_alter f k d) = dict_has k' d.
Proof.
  unfold dict_has. destruct (String.eqb_spec k k') as [->|Hne].
  - rewrite dict_get_alter_eq. by destruct (dict_get k' d).
  - by rewrite dict_get_alter_ne.
Qed.

(** The entries after an assignment: the new one, or an old one. *)
Lemma in_dict_set k v d k' v' :
  In (k', v') (dict_set k v d) -> (k' = k /\ v' = v) \/ In (k', v') d.
Proof.
  induction d as [|[k0 v0] d IH]; simpl.
  - intros [[= <- <-]|[]]. by left.
  - destruct (String.eqb k0 k) eqn:E; simpl.
    + apply String.eqb_eq in E. subst k0.
      intros [[= <- <-]|H]; auto.
    + intros [H|H]; auto. destruct (IH H); auto.
Qed.

(** The entries after an in-place mutation: an old one, or the mutated
    one. *)
Lemma in_dict_alter (f : V -> V) k d k' v' :
  In (k', v') (dict_alter f k d) ->
  In (k', v') d \/ (k' = k /\ exists v0, In (k, v0) d /\ v' = f v0).
Proof.
  induction d as [|[k0 v0] d IH]; simpl; [tauto|].
  destruct (String.eqb k0 k) eqn:E; simpl.
  - apply String.eqb_eq in E. subst k0.
    intros [[= <- <-]|H]; eauto 6.
  - intros [H|H]; auto. destruct (IH H) as [?|(-> & v1 & ? & ->)]; eauto 7.
Qed.

Lemma dict_keys_set_in k v d :
  dict_has k d = true -> map fst (dict_set k v d) = map fst d.
Proof.
  unfold dict_has. induction d as [|[k0 v0] d IH]; simpl; [done|].
  destruct (String.eqb k0 k) eqn:E; simpl; [done|].
  intros H. by rewrite IH.
Qed.

Lemma dict_keys_set_new k v d :
  dict_has k d = false -> map fst (dict_set k v d) = map fst d ++ [k].
Proof.
  unfold dict_has. induction d as [|[k0 v0] d IH]; simpl; [done|].
  destruct (String.eqb k0 k) eqn:E; simpl; [done|].
  intros H. by rewrite IH.
Qed.

Lemma dict_keys_alter (f : V -> V) k d :
  map fst (dict_alter f k d) = map fst d.
Proof.
  induction d as [|[k0 v0] d IH]; simpl; [done|].
  destruct (String.eqb k0 k); simpl; [done|]. by rewrite IH.
Qed.

Lemma dict_has_in_keys k d : dict_has k d = true <-> In k (map fst d).
Proof.
  unfold dict_has. induction d as [|[k0 v0] d IH]; simpl.
  - split; [done|tauto].
  - destruct (String.eqb_spec k0 k) as [->|Hne]; [tauto|].
    rewrite IH. split; [tauto|]. intros [?|?]; [congruence|done].
Qed.

(** An assignment keeps the keys distinct. *)
Lemma dict_set_NoDup k v d :
  List.NoDup (map fst d) -> List.NoDup (map fst (dict_set k v d)).
Proof.
  intros Hnd. destruct (dict_has k d) eqn:E.
  - by rewrite dict_keys_set_in.
  - rewrite dict_keys_set_new by done.
    apply NoDup_ListNoDup. apply NoDup_ListNoDup in Hnd.
    apply NoDup_app. split; [done|]. split; [|apply NoDup_singleton].
    intros x Hx Hk. apply list_elem_of_singleton in Hk. subst x.
    apply list_elem_of_In, dict_has_in_keys in Hx. congruence.
Qed.
End DictFacts.

(** Rewriting a lookup through a chain of assignments on literal keys. *)
Ltac dict_lookup :=
  repeat first
    [ rewrite dict_get_set_eq
    | rewrite dict_has_set_eq
    | rewrite dict_get_set_ne by discriminate
    | rewrite dict_has_set_ne by discriminate
    | rewrite dict_get_del_eq
    | rewrite dict_has_del_eq
    | rewrite dict_get_del_ne by discriminate
    | rewrite dict_has_del_ne by discriminate ].

(** ** Naming *)

Lemma replace_app a b s t :
  PyStr.replace a b (s +:+ t) = PyStr.replace a b s +:+ PyStr.replace a b t.
Proof. induction s as [|x s IH]; simpl; [done|]. by rewrite IH. Qed.

Lemma split_nonempty sep s : PyStr.split sep s <> [].
Proof.
  destruct s as [|x s]; simpl; [done|].
  destruct (Ascii.eqb x sep); [done|]. by destruct (PyStr.split sep s).
Qed.

(** A separator inside a string separates the words of what precedes it
    from the words of what follows it. *)
Lemma split_app_sep sep s t :
  PyStr.split sep (s +:+ String sep t) = PyStr.split sep s ++ PyStr.split sep t.
Proof.
  induction s as [|x s IH]; simpl.
  - by rewrite Ascii.eqb_refl.
  - destruct (Ascii.eqb x sep); [by rewrite IH|].
    rewrite IH. pose proof (split_nonempty sep s) as Hne.
    by destruct (PyStr.split sep s).
Qed.

Lemma str_app_assoc (s t u : string) : s +:+ (t +:+ u) = (s +:+ t) +:+ u.
Proof.
  induction s as [|c s IH]; [done|].
  change (String c (s +:+ (t +:+ u)) = String c ((s +:+ t) +:+ u)).
  by rewrite IH.
Qed.

Lemma join_app ws1 ws2 :
  PyStr.join (ws1 ++ ws2) = PyStr.join ws1 +:+ PyStr.join ws2.
Proof.
  induction ws1 as [|w ws1 IH]; simpl; [done|].
  by rewrite IH, str_app_assoc.
Qed.

(** The guard on the empty string changes nothing. *)
Lemma to_pascal_case_words s :
  to_pascal_case s =
  PyStr.join (map PyStr.capitalize (PyStr.split "_" (PyStr.replace ":" "_" s))).
Proof. by destruct s. Qed.

Lemma to_pascal_case_sep (sep : ascii) a b :
  sep = ":"%char \/ sep = "_"%char ->
  to_pascal_case (a +:+ String sep b) = to_pascal_case a +:+ to_pascal_case b.
Proof.
  intros Hsep. rewrite !to_pascal_case_words, replace_app. simpl.
  replace (if Ascii.eqb sep ":" then "_"%char else sep) with "_"%char
    by (destruct Hsep; by subst).
  by rewrite split_app_sep, map_app, join_app.
Qed.

(** C5. For every string, [to_pascal_case] replaces the colons by
    underscores, then splits on the underscore, capitalizes every word and
    joins the words; so a colon separates words exactly as an underscore
    does, [to_pascal_case "dns_record" = "DnsRecord"], and ["a:aaaa"] goes
    through ["a_aaaa"] to ["AAaaa"]. *)
Theorem to_pascal_case_colon_before_split :
  (forall s,
     to_pascal_case s =
     PyStr.join (map PyStr.capitalize
                   (PyStr.split "_" (PyStr.replace ":" "_" s))))
  /\ (forall a b,
        to_pascal_case (a +:+ ":" +:+ b) = to_pascal_case a +:+ to_pascal_case b)
  /\ (forall a b,
        to_pascal_case (a +:+ ":" +:+ b) = to_pascal_case (a +:+ "_" +:+ b))
  /\ to_pascal_case "dns_record" = "DnsRecord"
  /\ PyStr.replace ":" "_" "a:aaaa" = "a_aaaa"
  /\ PyStr.split "_" "a_aaaa" = ["a"; "aaaa"]
  /\ to_pascal_case "a:aaaa" = "AAaaa".
Proof.
  split; [exact to_pascal_case_words|].
  split; [intros a b; exact (to_pascal_case_sep ":" a b (or_introl eq_refl))|].
  split.
  { intros a b.
    etrans; [exact (to_pascal_case_sep ":" a b (or_introl eq_refl))|].
    symmetry. exact (to_pascal_case_sep "_" a b (or_intror eq_refl)). }
  repeat split; reflexivity.
Qed.

(** ** The field transformer *)

Lemma process_field_nameless field :
  nameless field <-> process_field field = None.
Proof.
  unfold nameless, process_field.
  destruct (rf_name field) as [[|c n]|]; simpl; split; auto; try done.
  intros [|]; done.
Qed.

Lemma process_field_name field pf :
  process_field field = Some pf -> rf_name field = Some (fd_name pf) /\ fd_name pf <> "".
Proof.
  unfold process_field.
  destruct (rf_name field) as [[|c n]|]; simpl; try done.
  by intros [= <-].
Qed.

Lemma process_field_nested field pf :
  process_field field = Some pf -> fd_nested_schema pf = nested_schema_of field.
Proof.
  unfold process_field.
  destruct (negb _); [done|]. by intros [= <-].
Qed.

(** The six conditionals of [convert_field_type_to_openapi], one case
    each. *)
Ltac convert_cases fd :=
  unfold convert_field_type_to_openapi;
  change (dict_has (fd_type fd) type_mapping)
    with (match dict_get (fd_type fd) type_mapping with
          | Some _ => true | None => false end);
  destruct (dict_get (fd_type fd) type_mapping);
  destruct (bool_decide (fd_parent_property fd = Some "is_array"));
  destruct (dict_get (fd_type fd) format_mapping);
  destruct (PyStr.truthy (fd_original_type fd));
  destruct (enum_of fd);
  destruct (fd_readonly fd);
  destruct (fd_writeonly fd);
  simpl negb; simpl andb; cbv iota;
  dict_lookup.

Lemma convert_type fd :
  dict_get "type" (convert_field_type_to_openapi fd) =
  Some (JStr match dict_get (fd_type fd) type_mapping with
             | Some t => t
             | None =>
                 if bool_decide (fd_parent_property fd = Some "is_array")
                 then "string" else "object"
             end).
Proof. convert_cases fd; reflexivity. Qed.

Lemma convert_enum fd :
  dict_get "enum" (convert_field_type_to_openapi fd) =
  match enum_of fd with
  | Some values => Some (JStrs values)
  | None =>
      if negb (dict_has (fd_type fd) type_mapping)
         && PyStr.truthy (fd_original_type fd)
      then Some (JStrs [fd_original_type fd]) else None
  end.
Proof. convert_cases fd; reflexivity. Qed.

Lemma convert_readOnly fd :
  dict_get "readOnly" (convert_field_type_to_openapi fd) =
  if fd_readonly fd then Some (JBool true) else None.
Proof. convert_cases fd; reflexivity. Qed.

Lemma convert_writeOnly fd :
  dict_get "writeOnly" (convert_field_type_to_openapi fd) =
  if fd_writeonly fd then Some (JBool true) else None.
Proof. convert_cases fd; reflexivity. Qed.

Lemma convert_no_ref fd :
  dict_has "$ref" (convert_field_type_to_openapi fd) = false.
Proof. convert_cases fd; reflexivity. Qed.

Lemma convert_has_type fd :
  dict_has "type" (convert_field_type_to_openapi fd) = true.
Proof. unfold dict_has. by rewrite convert_type. Qed.

(** C4. For every raw field that [process_field] accepts, with operations
    string [s]: the field is read-only iff [s] has ['r'] and no ['w'],
    write-only iff it has ['w'] and no ['r'], delete-only iff it has ['d']
    and neither ['r'] nor ['w'], and read-write in every other case; and
    [convert_field_type_to_openapi] puts [readOnly: true] on the read-only
    fields and on no other, [writeOnly: true] on the write-only fields and
    on no other, so neither flag on a delete-only or read-write field. *)
Theorem access_from_supports (field : RawField) (pf : FieldDetails) :
  process_field field = Some pf ->
  (access_of pf = ReadOnly <->
     PyStr.char_in "r" (rf_supports field) = true
     /\ PyStr.char_in "w" (rf_supports field) = false)
  /\ (access_of pf = WriteOnly <->
        PyStr.char_in "w" (rf_supports field) = true
        /\ PyStr.char_in "r" (rf_supports field) = false)
  /\ (access_of pf = DeleteOnly <->
        PyStr.char_in "d" (rf_supports field) = true
        /\ PyStr.char_in "r" (rf_supports field) = false
        /\ PyStr.char_in "w" (rf_supports field) = false)
  /\ (access_of pf = ReadWrite <->
        access_of pf <> ReadOnly /\ access_of pf <> WriteOnly
        /\ access_of pf <> DeleteOnly)
  /\ (fd_readonly pf = true <-> access_of pf = ReadOnly)
  /\ (fd_writeonly pf = true <-> access_of pf = WriteOnly)
  /\ (fd_deleteonly pf = true <-> access_of pf = DeleteOnly)
  /\ dict_get "readOnly" (convert_field_type_to_openapi pf) =
       match access_of pf with ReadOnly => Some (JBool true) | _ => None end
  /\ dict_get "writeOnly" (convert_field_type_to_openapi pf) =
       match access_of pf with WriteOnly => Some (JBool true) | _ => None end.
Proof.
  intros Hpf. rewrite convert_readOnly, convert_writeOnly.
  unfold process_field in Hpf.
  destruct (negb _); [done|]. injection Hpf as <-.
  unfold access_of; simpl.
  destruct (PyStr.char_in "r" (rf_supports field)),
           (PyStr.char_in "w" (rf_supports field)),
           (PyStr.char_in "d" (rf_supports field)); simpl;
    repeat split; try done; try (intros (? & ?); done);
    try (intros (? & ? & ?); done).
Qed.

(** The kinds that have an entry in the table. *)
Lemma type_mapping_kinds :
  map fst type_mapping =
  ["string"; "uint"; "int"; "integer"; "bool"; "timestamp"; "enum"; "extattr"].
Proof. reflexivity. Qed.

(** C3. For every field record: a kind of the table (string, uint, int,
    integer, bool, timestamp, enum, extattr) gives the type of the table
    (string, integer, integer, integer, boolean, integer, string, object);
    a kind outside the table gives the type ["object"], unless the record
    is the item descriptor of an array ([parent_property] is ["is_array"]),
    where no type is forced and the initial ["string"] stays; a kind
    outside the table with a non-empty original kind gets the one-element
    enum of the original kind; and the enum values of the field, when it
    has some, replace that enum. *)
Theorem convert_kind_table (fd : FieldDetails) :
  map (fun k => dict_get k type_mapping)
      ["string"; "uint"; "int"; "integer"; "bool"; "timestamp"; "enum"; "extattr"]
    = [Some "string"; Some "integer"; Some "integer"; Some "integer";
       Some "boolean"; Some "integer"; Some "string"; Some "object"]
  /\ (dict_get (fd_type fd) type_mapping = None <->
        ~ In (fd_type fd)
            ["string"; "uint"; "int"; "integer"; "bool"; "timestamp"; "enum";
             "extattr"])
  /\ (forall t,
        dict_get (fd_type fd) type_mapping = Some t ->
        dict_get "type" (convert_field_type_to_openapi fd) = Some (JStr t))
  /\ (dict_get (fd_type fd) type_mapping = None ->
      fd_parent_property fd <> Some "is_array" ->
      dict_get "type" (convert_field_type_to_openapi fd) = Some (JStr "object"))
  /\ (dict_get (fd_type fd) type_mapping = None ->
      fd_parent_property fd = Some "is_array" ->
      dict_get "type" (convert_field_type_to_openapi fd) = Some (JStr "string"))
  /\ (dict_get (fd_type fd) type_mapping = None ->
      fd_original_type fd <> "" ->
      enum_of fd = None ->
      dict_get "enum" (convert_field_type_to_openapi fd)
        = Some (JList [JStr (fd_original_type fd)]))
  /\ (forall v vs,
        fd_enum fd = Some (v :: vs) ->
        dict_get "enum" (convert_field_type_to_openapi fd)
          = Some (JList (map JStr (v :: vs)))).
Proof.
  split; [reflexivity|].
  split.
  { rewrite <- type_mapping_kinds, <- dict_has_in_keys. unfold dict_has.
    destruct (dict_get (fd_type fd) type_mapping); split; done. }
  rewrite convert_type, convert_enum. unfold dict_has.
  split; [by intros t ->|].
  split; [intros -> Hp; by rewrite bool_decide_false|].
  split; [intros -> Hp; by rewrite bool_decide_true|].
  split.
  - intros -> Ho ->. destruct (fd_original_type fd); done.
  - intros v vs He. unfold enum_of. by rewrite He.
Qed.

Lemma access_from_supports_witness :
  process_field (sample_field "comment" "r") = Some sample_readonly_details
  /\ access_of sample_readonly_details = ReadOnly
  /\ dict_get "readOnly" (convert_field_type_to_openapi sample_readonly_details)
       = Some (JBool true)
  /\ dict_get "writeOnly" (convert_field_type_to_openapi sample_readonly_details)
       = None.
Proof.
  assert (H : process_field (sample_field "comment" "r")
              = Some sample_readonly_details) by reflexivity.
  split; [exact H|].
  destruct (access_from_supports _ _ H)
    as (Hro & _ & _ & _ & _ & _ & _ & Hr & Hw).
  assert (Ha : access_of sample_readonly_details = ReadOnly).
  { apply Hro. split; reflexivity. }
  split; [exact Ha|]. rewrite Ha in Hr, Hw. split; [exact Hr|exact Hw].
Defined.

Lemma convert_kind_table_witness :
  dict_get (fd_type sample_struct_details) type_mapping = None
  /\ fd_parent_property sample_struct_details <> Some "is_array"
  /\ fd_original_type sample_struct_details <> ""
  /\ enum_of sample_struct_details = None
  /\ dict_get "type" (convert_field_type_to_openapi sample_struct_details)
       = Some (JStr "object")
  /\ dict_get "enum" (convert_field_type_to_openapi sample_struct_details)
       = Some (JList [JStr "awsrte53recordinfo"]).
Proof.
  assert (H1 : dict_get (fd_type sample_struct_details) type_mapping = None)
    by reflexivity.
  assert (H2 : fd_parent_property sample_struct_details <> Some "is_array")
    by discriminate.
  assert (H3 : fd_original_type sample_struct_details <> "") by discriminate.
  assert (H4 : enum_of sample_struct_details = None) by reflexivity.
  split; [exact H1|]. split; [exact H2|]. split; [exact H3|].
  split; [exact H4|].
  destruct (convert_kind_table sample_struct_details)
    as (_ & _ & _ & Hobj & _ & Henum & _).
  split; [exact (Hobj H1 H2)|exact (Henum H1 H3 H4)].
Defined.

(** ** The schema normalizer *)

Lemma process_schema_field_raise type_name acc field :
  process_field field = None ->
  process_schema_field type_name acc field = Raise TypeError.
Proof. intros H. unfold process_schema_field. by rewrite H. Qed.

Lemma process_schema_field_ok type_name acc field :
  process_field field <> None ->
  exists acc', process_schema_field type_name acc field = Ok acc'.
Proof.
  intros H. unfold process_schema_field.
  destruct (process_field field) as [pf|]; [|done].
  destruct (nested_of pf); eauto.
Qed.

Lemma process_schema_field_only_type_error type_name acc field e :
  process_schema_field type_name acc field = Raise e -> e = TypeError.
Proof.
  unfold process_schema_field.
  destruct (process_field field) as [pf|]; [|by intros [= <-]].
  destruct (nested_of pf); done.
Qed.

(** The loop stops with a [TypeError] at the first field without a name. *)
Lemma process_schema_fields_raise type_name fields :
  forall acc,
    Exists (fun f => process_field f = None) fields ->
    process_schema_fields type_name acc fields = Raise TypeError.
Proof.
  induction fields as [|f fields IH]; intros acc Hex; [by inversion Hex|].
  simpl. destruct (process_schema_field type_name acc f) as [acc'|e] eqn:E; simpl.
  - apply IH. inversion Hex as [? ? Hf|]; subst; [|done].
    by rewrite (process_schema_field_raise _ _ _ Hf) in E.
  - by rewrite (process_schema_field_only_type_error _ _ _ _ E).
Qed.

(** The loop ends when every field has a name. *)
Lemma process_schema_fields_ok type_name fields :
  forall acc,
    Forall (fun f => process_field f <> None) fields ->
    exists acc', process_schema_fields type_name acc fields = Ok acc'.
Proof.
  induction fields as [|f fields IH]; intros acc Hall; simpl; [eauto|].
  inversion Hall as [|? ? Hf Hrest]; subst.
  destruct (process_schema_field_ok type_name acc f Hf) as [acc' ->]. simpl.
  by apply IH.
Qed.

(** C1. For every raw field without a name (the key absent or empty),
    [process_field] returns [None]; and [process_schema], on every raw
    schema that has such a field, does not drop the field but stops with a
    [TypeError]: it subscripts the [None] it got for the field. *)
Theorem process_schema_nameless_field_raises
    (self : Generator) (schema : RawSchema) (object_type : string)
    (fields : list RawField) (field : RawField) :
  rs_fields schema = Some fields ->
  In field fields ->
  nameless field ->
  process_field field = None
  /\ process_schema self schema object_type = Raise TypeError.
Proof.
  intros Hfields Hin Hname.
  apply process_field_nameless in Hname. split; [done|].
  unfold process_schema.
  assert (schema_truthy schema = true) as ->.
  { unfold schema_truthy. rewrite Hfields. by destruct (rs_type schema). }
  simpl. rewrite Hfields. simpl.
  rewrite process_schema_fields_raise; [done|].
  apply List.Exists_exists. eauto.
Qed.

Lemma process_schema_nameless_field_raises_witness :
  rs_fields sample_schema_nameless = Some [sample_field "name" "rw"; sample_nameless_field]
  /\ In sample_nameless_field [sample_field "name" "rw"; sample_nameless_field]
  /\ nameless sample_nameless_field
  /\ process_field sample_nameless_field = None
  /\ process_schema sample_generator sample_schema_nameless "record:a"
       = Raise TypeError.
Proof.
  assert (H1 : rs_fields sample_schema_nameless
               = Some [sample_field "name" "rw"; sample_nameless_field])
    by reflexivity.
  assert (H2 : In sample_nameless_field
                 [sample_field "name" "rw"; sample_nameless_field])
    by (right; left; reflexivity).
  assert (H3 : nameless sample_nameless_field) by (right; reflexivity).
  split; [exact H1|]. split; [exact H2|]. split; [exact H3|].
  exact (process_schema_nameless_field_raises sample_generator
           sample_schema_nameless "record:a" _ _ H1 H2 H3).
Defined.

(** C8. For every raw schema that is processed (it is not empty and its
    fields have names): the restriction list is the value under
    ["restrictions"] when that is a list, its ["list"] entry when it is a
    dictionary that has one, and the empty list when the key or the entry
    is missing; [supports_create] is true iff ["create"] is not in the list
    and [supports_delete] is true iff ["delete"] is not in it; so the list
    [["create"]] gives [supports_create] false and [supports_delete]
    true. *)
Theorem restrictions_and_capabilities
    (self : Generator) (schema : RawSchema) (object_type : string) :
  schema_truthy schema = true ->
  Forall (fun f => ~ nameless f) (default [] (rs_fields schema)) ->
  exists sc,
    process_schema self schema object_type = Ok (Some sc)
    /\ (forall names,
          rs_restrictions schema = Some (RestrList names) ->
          sc_restrictions sc = names)
    /\ (forall names other,
          rs_restrictions schema = Some (RestrDict (Some names) other) ->
          sc_restrictions sc = names)
    /\ (forall other,
          rs_restrictions schema = Some (RestrDict None other) ->
          sc_restrictions sc = [])
    /\ (rs_restrictions schema = None -> sc_restrictions sc = [])
    /\ (sc_supports_create sc = true <-> "create" ∉ sc_restrictions sc)
    /\ (sc_supports_delete sc = true <-> "delete" ∉ sc_restrictions sc)
    /\ (sc_restrictions sc = ["create"] ->
        sc_supports_create sc = false /\ sc_supports_delete sc = true).
Proof.
  intros Htruthy Hnamed.
  unfold process_schema. rewrite Htruthy. simpl.
  destruct (process_schema_fields_ok
              (default object_type (rs_type schema))
              (default [] (rs_fields schema))
              {| acc_processed_fields := []; acc_filtering_fields := [];
                 acc_required_fields := []; acc_nested_schemas := [] |})
    as [acc ->].
  { eapply Forall_impl; [exact Hnamed|].
    intros f Hf Hnone. by apply Hf, process_field_nameless. }
  simpl. eexists. split; [reflexivity|]. simpl.
  unfold extract_restrictions.
  split; [intros names ->; by destruct names|].
  split; [by intros names other ->|].
  split; [intros other ->; simpl; by destruct other|].
  split; [by intros ->|].
  split.
  { rewrite negb_true_iff, bool_decide_eq_false. done. }
  split.
  { rewrite negb_true_iff, bool_decide_eq_false. done. }
  intros ->. split; reflexivity.
Qed.

Lemma restrictions_and_capabilities_witness :
  schema_truthy sample_schema_no_create = true
  /\ Forall (fun f => ~ nameless f) (default [] (rs_fields sample_schema_no_create))
  /\ exists sc,
       process_schema sample_generator sample_schema_no_create "record:a"
         = Ok (Some sc)
       /\ sc_restrictions sc = ["create"]
       /\ sc_supports_create sc = false /\ sc_supports_delete sc = true.
Proof.
  assert (H1 : schema_truthy sample_schema_no_create = true) by reflexivity.
  assert (H2 : Forall (fun f => ~ nameless f)
                 (default [] (rs_fields sample_schema_no_create))).
  { repeat constructor; intros [H|H]; discriminate H. }
  split; [exact H1|]. split; [exact H2|].
  destruct (restrictions_and_capabilities sample_generator
              sample_schema_no_create "record:a" H1 H2)
    as (sc & Hsc & Hlist & _ & _ & _ & _ & _ & Hex).
  exists sc. split; [exact Hsc|].
  assert (Hr : sc_restrictions sc = ["create"]) by (apply Hlist; reflexivity).
  split; [exact Hr|]. exact (Hex Hr).
Defined.

(** ** Nested schemas *)

(** [expand_nested], one level unfolded: nothing when the name is already
    created; otherwise the name is registered and the fields are folded. *)
Lemma expand_nested_eq self schema_name schema_data st :
  expand_nested self schema_name schema_data st =
  if bool_decide (schema_name ∈ created_schemas st) then st
  else fold_left (nested_field_step self schema_name)
         (default [] (rs_fields schema_data))
         (register_nested schema_name st).
Proof.
  destruct schema_data as [ty fields restr ver other]. simpl.
  case_bool_decide; [done|].
  destruct fields as [fields|]; simpl; [|done].
  generalize (register_nested schema_name st). clear st H.
  induction fields as [|field fields IH]; intros st; simpl; [done|].
  rewrite IH. f_equal. unfold nested_field_step.
  destruct (process_field field) as [pf|]; [|done].
  destruct field as [? ? ? ? ? ? ? ? [child|]]; simpl; [|done].
  by destruct (schema_truthy child).
Qed.

(** Every relation between states that is reflexive and transitive, and
    holds across the registration of a new name and across the store of a
    property, holds across [expand_nested]. *)
Section NestedClosure.
Variable self : Generator.
Variable R : EmitState -> EmitState -> Prop.
Hypothesis R_refl : forall st, R st st.
Hypothesis R_trans : forall st1 st2 st3, R st1 st2 -> R st2 st3 -> R st1 st3.
Hypothesis R_register :
  forall schema_name st,
    schema_name ∉ created_schemas st ->
    R st (register_nested schema_name st).
Hypothesis R_store :
  forall schema_name pf st,
    R st {| created_schemas := created_schemas st;
            schemas_data :=
              set_property schema_name (fd_name pf)
                (JDict (nested_property_def self schema_name pf))
                (schemas_data st) |}.

Lemma expand_nested_closure schema_data :
  forall schema_name st, R st (expand_nested self schema_name schema_data st).
Proof.
  induction schema_data as [schema_data IH] using RawSchema_nested_ind.
  intros schema_name st. rewrite expand_nested_eq.
  case_bool_decide as Hin; [apply R_refl|].
  eapply R_trans; [by apply R_register|].
  generalize (register_nested schema_name st). clear st Hin.
  induction IH as [|field fields Hfield _ IHfields]; intros st; simpl;
    [apply R_refl|].
  eapply R_trans; [|apply IHfields].
  unfold nested_field_step.
  destruct (process_field field) as [pf|]; [|apply R_refl].
  eapply R_trans; [|apply R_store].
  destruct (nested_schema_of field); [apply Hfield|apply R_refl].
Qed.

Lemma nested_fold_closure nested_schemas :
  forall st,
    R st (fold_left (fun st nested_schema =>
                       process_nested_schema_fields self nested_schema st)
            nested_schemas st).
Proof.
  induction nested_schemas as [|n ns IH]; intros st; simpl; [apply R_refl|].
  eapply R_trans; [|apply IH]. apply expand_nested_closure.
Qed.
End NestedClosure.

(** The set of created names only grows. *)
Lemma expand_nested_created_mono self schema_name schema_data st :
  created_schemas st ⊆ created_schemas (expand_nested self schema_name schema_data st).
Proof.
  apply (expand_nested_closure self
           (fun st st' => created_schemas st ⊆ created_schemas st')).
  - done.
  - intros ? ? ? H1 H2. set_solver.
  - intros n st' _. simpl. set_solver.
  - done.
Qed.

(** After the call the name is created. *)
Lemma expand_nested_created self schema_name schema_data st :
  schema_name ∈ created_schemas (expand_nested self schema_name schema_data st).
Proof.
  rewrite expand_nested_eq. case_bool_decide as Hin; [done|].
  assert (Hreg : schema_name ∈ created_schemas (register_nested schema_name st))
    by (simpl; set_solver).
  revert Hreg. generalize (register_nested schema_name st).
  induction (default [] (rs_fields schema_data)) as [|field fields IH];
    intros st' Hst'; simpl; [done|].
  apply IH. unfold nested_field_step.
  destruct (process_field field) as [pf|]; [|done]. simpl.
  destruct (nested_schema_of field); [|done].
  by apply expand_nested_created_mono.
Qed.

(** The keys of [schemas_data] stay distinct. *)
Lemma expand_nested_NoDup self schema_name schema_data st :
  List.NoDup (map fst (schemas_data st)) ->
  List.NoDup (map fst (schemas_data (expand_nested self schema_name schema_data st))).
Proof.
  apply (expand_nested_closure self
           (fun st st' => List.NoDup (map fst (schemas_data st)) ->
                          List.NoDup (map fst (schemas_data st')))).
  - done.
  - auto.
  - intros n st' _. simpl. apply dict_set_NoDup.
  - intros n pf st'. simpl. unfold set_property. by rewrite dict_keys_alter.
Qed.

(** No key of [schemas_data] is lost. *)
Lemma expand_nested_keys self schema_name schema_data st k :
  dict_has k (schemas_data st) = true ->
  dict_has k (schemas_data (expand_nested self schema_name schema_data st)) = true.
Proof.
  apply (expand_nested_closure self
           (fun st st' => dict_has k (schemas_data st) = true ->
                          dict_has k (schemas_data st') = true)).
  - done.
  - auto.
  - intros n st' _. simpl. apply dict_has_set_mono.
  - intros n pf st'. simpl. unfold set_property. by rewrite dict_has_alter.
Qed.

(** C6. Nested-schema expansion is idempotent with respect to the set of
    created names: a call for a name that is already in the set returns the
    state, and so the map of schemas, unchanged; after a first call the name
    is in the set, so a second call for the same name changes nothing; and
    the keys of the map stay distinct, so no entry is duplicated. *)
Theorem process_nested_schema_fields_idempotent
    (self : Generator) (nested_schema : NestedRef) (st : EmitState) :
  (nr_name nested_schema ∈ created_schemas st ->
   process_nested_schema_fields self nested_schema st = st)
  /\ nr_name nested_schema
       ∈ created_schemas (process_nested_schema_fields self nested_schema st)
  /\ process_nested_schema_fields self nested_schema
       (process_nested_schema_fields self nested_schema st)
     = process_nested_schema_fields self nested_schema st
  /\ schemas_data
       (process_nested_schema_fields self nested_schema
          (process_nested_schema_fields self nested_schema st))
     = schemas_data (process_nested_schema_fields self nested_schema st)
  /\ (List.NoDup (map fst (schemas_data st)) ->
      List.NoDup
        (map fst (schemas_data
                    (process_nested_schema_fields self nested_schema st)))).
Proof.
  unfold process_nested_schema_fields.
  assert (Hnoop : forall st',
             nr_name nested_schema ∈ created_schemas st' ->
             expand_nested self (nr_name nested_schema)
               (nr_schema nested_schema) st' = st').
  { intros st' Hin. rewrite expand_nested_eq. by rewrite bool_decide_true. }
  pose proof (expand_nested_created self (nr_name nested_schema)
                (nr_schema nested_schema) st) as Hcreated.
  split; [apply Hnoop|]. split; [exact Hcreated|].
  split; [by apply Hnoop|]. split; [by rewrite Hnoop|].
  apply expand_nested_NoDup.
Qed.

Lemma process_nested_schema_fields_idempotent_witness :
  nr_name sample_nested
    ∈ created_schemas
        (process_nested_schema_fields sample_generator sample_nested
           initial_emit_state)
  /\ List.NoDup (map fst (schemas_data initial_emit_state))
  /\ process_nested_schema_fields sample_generator sample_nested
       (process_nested_schema_fields sample_generator sample_nested
          initial_emit_state)
     = process_nested_schema_fields sample_generator sample_nested
         initial_emit_state
  /\ List.NoDup
       (map fst (schemas_data
                   (process_nested_schema_fields sample_generator sample_nested
                      initial_emit_state))).
Proof.
  destruct (process_nested_schema_fields_idempotent sample_generator
              sample_nested initial_emit_state)
    as (_ & Hin & _ & _ & Hnodup).
  destruct (process_nested_schema_fields_idempotent sample_generator
              sample_nested
              (process_nested_schema_fields sample_generator sample_nested
                 initial_emit_state))
    as (Hnoop & _).
  assert (Hinit : List.NoDup (map fst (schemas_data initial_emit_state))).
  { simpl. constructor; [intros []|constructor]. }
  split; [exact Hin|]. split; [exact Hinit|].
  split; [exact (Hnoop Hin)|exact (Hnodup Hinit)].
Defined.

(** ** Object schemas *)

Lemma add_example_has include field_name property_def k :
  k <> "example" ->
  dict_has k (add_example include field_name property_def) = dict_has k property_def.
Proof.
  intros Hk. unfold add_example.
  destruct include; [|done].
  destruct (type_is "string" property_def); [by rewrite dict_has_set_ne|].
  destruct (type_is "integer" property_def); [by rewrite dict_has_set_ne|].
  destruct (type_is "boolean" property_def); [by rewrite dict_has_set_ne|done].
Qed.

Lemma add_example_get include field_name property_def k :
  k <> "example" ->
  dict_get k (add_example include field_name property_def) = dict_get k property_def.
Proof.
  intros Hk. unfold add_example.
  destruct include; [|done].
  destruct (type_is "string" property_def); [by rewrite dict_get_set_ne|].
  destruct (type_is "integer" property_def); [by rewrite dict_get_set_ne|].
  destruct (type_is "boolean" property_def); [by rewrite dict_get_set_ne|done].
Qed.

(** An example is added to the types string, integer and boolean only. *)
Lemma add_example_other include field_name property_def :
  type_is "string" property_def = false ->
  type_is "integer" property_def = false ->
  type_is "boolean" property_def = false ->
  add_example include field_name property_def = property_def.
Proof. intros H1 H2 H3. unfold add_example. rewrite H1, H2, H3. by destruct include. Qed.

(** The field named ["_ref"] ends its turn in [continue]. *)
Lemma object_property_def_ref self schema fd :
  object_property_def self schema "_ref" fd = None.
Proof. reflexivity. Qed.



(** The property stored by the nested loop never has both keys either: a
    ["type"] next to a ["$ref"] is deleted. *)
Lemma nested_property_def_clean self schema_name pf :
  ref_type_clash (JDict (nested_property_def self schema_name pf)) = false.
Proof.
  unfold nested_property_def. simpl.
  match goal with
  | |- context [if dict_has "$ref" ?d then _ else _] =>
      destruct (dict_has "$ref" d) eqn:E
  end.
  - rewrite dict_has_del_eq. apply andb_false_r.
  - by rewrite E.
Qed.

(** *** Clean properties are preserved by the assignments of the emitter *)

Lemma schemas_clean_set schema_name schema_object schemas_data :
  properties_clean schema_object ->
  schemas_clean schemas_data ->
  schemas_clean (dict_set schema_name schema_object schemas_data).
Proof.
  intros Hobj Hsd n o Hin.
  destruct (in_dict_set _ _ _ _ _ Hin) as [[-> ->]|Hold]; [done|].
  by apply (Hsd n).
Qed.

Lemma schemas_clean_alter (f : json -> json) schema_name schemas_data :
  (forall o, properties_clean o -> properties_clean (f o)) ->
  schemas_clean schemas_data ->
  schemas_clean (dict_alter f schema_name schemas_data).
Proof.
  intros Hf Hsd n o Hin.
  destruct (in_dict_alter _ _ _ _ _ Hin) as [Hold|(-> & o' & Hin' & ->)].
  - by apply (Hsd n).
  - apply Hf. by apply (Hsd schema_name).
Qed.


Lemma properties_clean_store field_name property_def o :
  ref_type_clash property_def = false ->
  properties_clean o ->
  properties_clean
    (json_alter (json_set field_name property_def) "properties" o).
Proof.
  intros Hp Ho ps Hps. destruct o as [| | | | |d]; simpl in *; try done.
  rewrite dict_get_alter_eq in Hps.
  destruct (dict_get "properties" d) as [old|] eqn:Hold; simpl in Hps; [|done].
  injection Hps as Hps.
  destruct old as [| | | | |ps0]; simpl in Hps; try done.
  injection Hps as <-. intros f p Hin.
  destruct (in_dict_set _ _ _ _ _ Hin) as [[-> ->]|Hin']; [done|].
  by apply (Ho ps0 Hold f p).
Qed.

Lemma schemas_clean_set_property schema_name field_name property_def schemas_data :
  ref_type_clash property_def = false ->
  schemas_clean schemas_data ->
  schemas_clean (set_property schema_name field_name property_def schemas_data).
Proof.
  intros Hp. apply schemas_clean_alter.
  intros o. by apply properties_clean_store.
Qed.


Lemma properties_clean_literal d ps :
  dict_get "properties" d = Some (JDict ps) ->
  Forall (fun kv => ref_type_clash (snd kv) = false) ps ->
  properties_clean (JDict d).
Proof.
  intros Hd Hall ps' Hps' f p Hin. simpl in Hps'.
  rewrite Hd in Hps'. injection Hps' as <-.
  rewrite List.Forall_forall in Hall. exact (Hall (f, p) Hin).
Qed.


Lemma expand_nested_clean self schema_name schema_data st :
  schemas_clean (schemas_data st) ->
  schemas_clean (schemas_data (expand_nested self schema_name schema_data st)).
Proof.
  apply (expand_nested_closure self
           (fun st st' => schemas_clean (schemas_data st) ->
                          schemas_clean (schemas_data st'))).
  - done.
  - auto.
  - intros n st' _ H. simpl. apply schemas_clean_set; [|done].
    eapply properties_clean_literal; [reflexivity|constructor].
  - intros n pf st' H. simpl. apply schemas_clean_set_property; [|done].
    apply nested_property_def_clean.
Qed.






(** *** The built-in ["_ref"] property *)

Lemma json_get_alter_ne (f : json -> json) k k' o :
  k <> k' -> json_get k' (json_alter f k o) = json_get k' o.
Proof. intros H. destruct o; simpl; try done. by apply dict_get_alter_ne. Qed.

Lemma json_get_alter_eq (f : json -> json) k o :
  json_get k (json_alter f k o) = f <$> json_get k o.
Proof. destruct o; simpl; try done. apply dict_get_alter_eq. Qed.



Lemma sample_processed_schema_eq :
  process_schema sample_generator sample_schema_readonly "record:a"
  = Ok (Some sample_processed_schema).
Proof. reflexivity. Qed.

(** ** The response schemas *)

Lemma set_property_has schema_name field_name p sd k :
  dict_has k (set_property schema_name field_name p sd) = dict_has k sd.
Proof. unfold set_property. apply dict_has_alter. Qed.

Lemma emit_object_schema_keys self schema sd k :
  dict_has k sd = true ->
  dict_has k (emit_object_schema self schema sd) = true.
Proof.
  intros Hk. unfold emit_object_schema.
  match goal with
  | |- dict_has _ (fold_left _ _ ?init) = _ =>
      assert (Hinit : dict_has k init = true); [|revert Hinit; generalize init]
  end.
  { destruct (sc_required_fields schema).
    - by apply dict_has_set_mono.
    - rewrite dict_has_alter. by apply dict_has_set_mono. }
  induction (sc_fields schema) as [|[field_name fd] fields IH]; intros sd' Hsd';
    simpl; [done|].
  apply IH.
  destruct (object_property_def self schema field_name fd); [|done].
  by rewrite set_property_has.
Qed.

Lemma emit_response_schemas_keys schema sd k :
  dict_has k sd = true ->
  dict_has k (emit_response_schemas schema sd) = true.
Proof.
  intros Hk. unfold emit_response_schemas.
  do 2 apply dict_has_set_mono.
  destruct (sc_supports_create schema); by repeat apply dict_has_set_mono.
Qed.

Lemma emit_schema_keys self st schema k :
  dict_has k (schemas_data st) = true ->
  dict_has k (schemas_data (emit_schema self st schema)) = true.
Proof.
  intros Hk. unfold emit_schema. simpl.
  apply emit_response_schemas_keys.
  apply (nested_fold_closure self
           (fun st st' => dict_has k (schemas_data st) = true ->
                          dict_has k (schemas_data st') = true)).
  - done.
  - auto.
  - intros n st' _. simpl. apply dict_has_set_mono.
  - intros n pf st'. simpl. by rewrite set_property_has.
  - simpl. by apply emit_object_schema_keys.
Qed.

Lemma emit_schemas_keys self schemas :
  forall st k,
    dict_has k (schemas_data st) = true ->
    dict_has k (schemas_data (fold_left (emit_schema self) schemas st)) = true.
Proof.
  induction schemas as [|schema schemas IH]; intros st k Hk; simpl; [done|].
  by apply IH, emit_schema_keys.
Qed.

(** What the four assignments leave in the map. *)
Lemma emit_response_schemas_has schema sd :
  dict_has (sc_response_schema_name schema) (emit_response_schemas schema sd) = true
  /\ dict_has (get_schema_name (sc_schema_name schema))
       (emit_response_schemas schema sd) = true
  /\ dict_has (update_schema_name (sc_schema_name schema))
       (emit_response_schemas schema sd) = true
  /\ (sc_supports_create schema = true ->
      dict_has (create_schema_name (sc_schema_name schema))
        (emit_response_schemas schema sd) = true).
Proof.
  unfold emit_response_schemas.
  split; [|split; [|split]].
  - do 2 apply dict_has_set_mono.
    destruct (sc_supports_create schema);
      [apply dict_has_set_mono|]; apply dict_has_set_eq.
  - apply dict_has_set_mono, dict_has_set_eq.
  - apply dict_has_set_eq.
  - intros ->. do 2 apply dict_has_set_mono. apply dict_has_set_eq.
Qed.

(** C2, as the code has it. For every processed schema handed to
    [generate_schemas_for_objects], the result has the list response, the
    get response and the update response of the schema, whatever
    [supports_modify] is; it has the create response when [supports_create]
    is true; and when [supports_create] is false the turn of the schema
    leaves the entry [Create{schema_name}Response] of the map as it was
    (here for a list response named [List{schema_name}Response], as
    [process_schema] names it). *)
Theorem response_variants_emitted
    (self : Generator) (schemas : list ProcessedSchema)
    (schema : ProcessedSchema) :
  In schema schemas ->
  dict_has (sc_response_schema_name schema)
    (generate_schemas_for_objects self schemas) = true
  /\ dict_has (get_schema_name (sc_schema_name schema))
       (generate_schemas_for_objects self schemas) = true
  /\ dict_has (update_schema_name (sc_schema_name schema))
       (generate_schemas_for_objects self schemas) = true
  /\ (sc_supports_create schema = true ->
      dict_has (create_schema_name (sc_schema_name schema))
        (generate_schemas_for_objects self schemas) = true)
  /\ (sc_supports_create schema = false ->
      sc_response_schema_name schema
        = "List" +:+ sc_schema_name schema +:+ "Response" ->
      forall schemas_data,
        dict_get (create_schema_name (sc_schema_name schema))
          (emit_response_schemas schema schemas_data)
        = dict_get (create_schema_name (sc_schema_name schema)) schemas_data).
Proof.
  intros Hin.
  assert (Hkeys : forall k,
             (forall sd, dict_has k (emit_response_schemas schema sd) = true) ->
             dict_has k (generate_schemas_for_objects self schemas) = true).
  { intros k Hk. unfold generate_schemas_for_objects, generate_schemas_state.
    destruct (in_split _ _ Hin) as (before & after & ->).
    rewrite fold_left_app. simpl.
    apply emit_schemas_keys. unfold emit_schema at 1. simpl. apply Hk. }
  split; [apply Hkeys; intros sd; apply emit_response_schemas_has|].
  split; [apply Hkeys; intros sd; apply emit_response_schemas_has|].
  split; [apply Hkeys; intros sd; apply emit_response_schemas_has|].
  split.
  - intros Hc. apply Hkeys. intros sd. by apply emit_response_schemas_has.
  - intros Hc Hname sd. unfold emit_response_schemas. rewrite Hc, Hname.
    rewrite !dict_get_set_ne; [done|discriminate..].
Qed.

Lemma response_variants_emitted_witness :
  In sample_processed_schema [sample_processed_schema]
  /\ sc_supports_create sample_processed_schema = true
  /\ dict_has "ListRecordAResponse"
       (generate_schemas_for_objects sample_generator [sample_processed_schema])
     = true
  /\ dict_has "GetRecordAResponse"
       (generate_schemas_for_objects sample_generator [sample_processed_schema])
     = true
  /\ dict_has "UpdateRecordAResponse"
       (generate_schemas_for_objects sample_generator [sample_processed_schema])
     = true
  /\ dict_has "CreateRecordAResponse"
       (generate_schemas_for_objects sample_generator [sample_processed_schema])
     = true.
Proof.
  assert (H1 : In sample_processed_schema [sample_processed_schema])
    by (left; reflexivity).
  assert (H2 : sc_supports_create sample_processed_schema = true)
    by reflexivity.
  split; [exact H1|]. split; [exact H2|].
  destruct (response_variants_emitted sample_generator
              [sample_processed_schema] sample_processed_schema H1)
    as (Hlist & Hget & Hupdate & Hcreate & _).
  split; [exact Hlist|]. split; [exact Hget|]. split; [exact Hupdate|].
  exact (Hcreate H2).
Defined.

(** The processed schema of a raw schema without writable field has
    [supports_modify] false, and its update response is emitted all the
    same: the update response is not tied to [supports_modify]. *)
Lemma update_response_without_modify :
  process_schema sample_generator sample_schema_readonly "record:a"
    = Ok (Some sample_processed_schema)
  /\ sc_supports_modify sample_processed_schema = false
  /\ dict_has (update_schema_name (sc_schema_name sample_processed_schema))
       (generate_schemas_for_objects sample_generator [sample_processed_schema])
     = true
  /\ ~ (dict_has (update_schema_name (sc_schema_name sample_processed_schema))
          (generate_schemas_for_objects sample_generator
             [sample_processed_schema]) = true
        <-> sc_supports_modify sample_processed_schema = true).
Proof.
  assert (Hhas :
    dict_has (update_schema_name (sc_schema_name sample_processed_schema))
      (generate_schemas_for_objects sample_generator [sample_processed_schema])
    = true) by (vm_compute; reflexivity).
  split; [reflexivity|]. split; [reflexivity|]. split; [exact Hhas|].
  intros [Hiff _]. specialize (Hiff Hhas). discriminate Hiff.
Qed.

(** ** The path emitter *)

Lemma collection_path_ne_item_path schema :
  collection_path schema <> item_path schema.
Proof.
  unfold collection_path, item_path. intros H.
  assert (Hlen : forall s t : string,
             String.length (s +:+ t) = String.length s + String.length t).
  { intros s t. induction s as [|c s IH]; [done|].
    change (S (String.length (s +:+ t)) = S (String.length s + String.length t)).
    by rewrite IH. }
  apply (f_equal String.length) in H. rewrite !Hlen in H. simpl in H. lia.
Qed.

(** The fields of a processed schema carry the name they are stored under,
    and the filtering fields are among them. *)
Lemma process_schema_fields_known type_name fields :
  forall acc acc',
    process_schema_fields type_name acc fields = Ok acc' ->
    Forall (fun n => dict_has n (acc_processed_fields acc) = true)
      (acc_filtering_fields acc) ->
    Forall (fun n => dict_has n (acc_processed_fields acc') = true)
      (acc_filtering_fields acc').
Proof.
  induction fields as [|f fields IH]; intros acc acc' Hrun Hacc; simpl in Hrun.
  - by injection Hrun as <-.
  - destruct (process_schema_field type_name acc f) as [acc1|] eqn:E; [|done].
    simpl in Hrun. apply (IH acc1 acc' Hrun). clear IH Hrun.
    unfold process_schema_field in E.
    destruct (process_field f) as [pf|]; [|done].
    assert (Hstep : forall v,
      Forall (fun n => dict_has n (dict_set (fd_name pf) v
                                     (acc_processed_fields acc)) = true)
        (if fd_supports_filtering pf
         then acc_filtering_fields acc ++ [fd_name pf]
         else acc_filtering_fields acc)).
    { intros v.
      assert (Hold : Forall (fun n => dict_has n (dict_set (fd_name pf) v
                                        (acc_processed_fields acc)) = true)
                       (acc_filtering_fields acc)).
      { eapply Forall_impl; [exact Hacc|]. intros n Hn. simpl.
        by apply dict_has_set_mono. }
      destruct (fd_supports_filtering pf); [|done].
      apply Forall_app. split; [done|].
      constructor; [apply dict_has_set_eq|constructor]. }
    destruct (nested_of pf); injection E as <-; simpl; apply Hstep.
Qed.

Lemma process_schema_filtering_known self raw object_type schema :
  process_schema self raw object_type = Ok (Some schema) ->
  filtering_fields_known schema.
Proof.
  unfold process_schema, filtering_fields_known.
  destruct (negb (schema_truthy raw)); [done|].
  destruct (process_schema_fields _ _ _) as [acc|] eqn:E; [|done].
  simpl. intros [= <-]. simpl.
  eapply process_schema_fields_known; [exact E|]. simpl. constructor.
Qed.

Lemma process_schema_modify self raw object_type schema :
  process_schema self raw object_type = Ok (Some schema) ->
  sc_supports_modify schema = any_writable (sc_fields schema).
Proof.
  unfold process_schema.
  destruct (negb (schema_truthy raw)); [done|].
  destruct (process_schema_fields _ _ _) as [acc|]; [|done].
  simpl. by intros [= <-].
Qed.

(** The filter loop ends when the filtering fields are known; it changes no
    other path and leaves the collection path a dictionary with its one
    key ["get"]. *)
Lemma add_filter_parameters_ok schema filtering_fields :
  Forall (fun n => dict_has n (sc_fields schema) = true) filtering_fields ->
  forall paths op,
    dict_get (collection_path schema) paths = Some (JDict [ ("get", op) ]) ->
    exists paths' op',
      add_filter_parameters schema filtering_fields paths = Ok paths'
      /\ dict_get (collection_path schema) paths' = Some (JDict [ ("get", op') ])
      /\ (forall k, k <> collection_path schema ->
                    dict_get k paths' = dict_get k paths).
Proof.
  induction 1 as [|n ns Hn _ IH]; intros paths op Hget; simpl; [by eauto|].
  unfold filter_parameter. unfold dict_has in Hn.
  destruct (dict_get n (sc_fields schema)) as [fd|]; [|done]. simpl.
  destruct (IH (append_get_parameter (collection_path schema)
                  (field_query_parameter n fd) paths)
               (json_alter (json_append (field_query_parameter n fd))
                  "parameters" op))
    as (paths' & op' & Hrun & Hget' & Hother).
  { unfold append_get_parameter. rewrite dict_get_alter_eq, Hget. reflexivity. }
  exists paths', op'. split; [done|]. split; [done|].
  intros k Hk. rewrite Hother by done.
  unfold append_get_parameter. by rewrite dict_get_alter_ne.
Qed.

Lemma delete_params_from fields :
  forall params,
    fold_left
      (fun params '(field_name, field_details) =>
         if fd_deleteonly field_details
         then params ++ [field_query_parameter field_name field_details]
         else params)
      fields params
    = params ++ map (fun kv => field_query_parameter (fst kv) (snd kv))
                  (List.filter (fun kv => fd_deleteonly (snd kv)) fields).
Proof.
  induction fields as [|[n fd] fields IH]; intros params; simpl.
  - by rewrite app_nil_r.
  - rewrite IH. destruct (fd_deleteonly fd); simpl; [|done].
    by rewrite <- app_assoc.
Qed.

(** The parameters of DELETE: the path parameter, then one query parameter
    for every delete-only field, in the order of the fields. *)
Lemma delete_params_eq schema :
  delete_params schema =
  reference_parameter (sc_object_type schema)
  :: map (fun kv => field_query_parameter (fst kv) (snd kv))
       (List.filter (fun kv => fd_deleteonly (snd kv)) (sc_fields schema)).
Proof. unfold delete_params. by rewrite delete_params_from. Qed.

(** C7. For every processed schema and whatever the paths emitted before:
    its turn of the path loop ends, and afterwards the collection path
    [/{object_type}] has GET, and POST exactly when [supports_create]; the
    item path [/{object_type}/{reference}] has GET, whose first parameter is
    the required string path parameter ["reference"], PUT exactly when
    [supports_modify], and DELETE exactly when [supports_delete]; the
    parameters of DELETE are the path parameter followed by one optional
    query parameter for every delete-only field; and [supports_modify] is
    true iff the operations string of at least one field has a ['w']. *)
Theorem paths_of_processed_schema
    (self : Generator) (raw : RawSchema) (object_type : string)
    (schema : ProcessedSchema) (paths : list (string * json)) :
  process_schema self raw object_type = Ok (Some schema) ->
  exists paths' list_op,
    emit_paths schema paths = Ok paths'
    /\ collection_path schema = "/" +:+ sc_object_type schema
    /\ item_path schema = "/" +:+ sc_object_type schema +:+ "/{reference}"
    /\ dict_get (collection_path schema) paths'
       = Some (JDict (("get", list_op)
                      :: (if sc_supports_create schema
                          then [ ("post", create_operation schema) ] else [])))
    /\ dict_get (item_path schema) paths'
       = Some (JDict (("get", read_operation schema)
                      :: (if sc_supports_modify schema
                          then [ ("put", update_operation schema) ] else [])
                      ++ (if sc_supports_delete schema
                          then [ ("delete", delete_operation schema) ] else [])))
    /\ (exists others,
          json_get "parameters" (read_operation schema)
          = Some (JList (reference_parameter (sc_object_type schema) :: others)))
    /\ json_get "name" (reference_parameter (sc_object_type schema))
       = Some (JStr "reference")
    /\ json_get "in" (reference_parameter (sc_object_type schema))
       = Some (JStr "path")
    /\ json_get "required" (reference_parameter (sc_object_type schema))
       = Some (JBool true)
    /\ json_get "schema" (reference_parameter (sc_object_type schema))
       = Some (JDict [ ("type", JStr "string") ])
    /\ json_get "parameters" (delete_operation schema)
       = Some (JList
                 (reference_parameter (sc_object_type schema)
                  :: map (fun kv => field_query_parameter (fst kv) (snd kv))
                       (List.filter (fun kv => fd_deleteonly (snd kv))
                          (sc_fields schema))))
    /\ (forall field_name field_details,
          json_get "name" (field_query_parameter field_name field_details)
          = Some (JStr field_name)
          /\ json_get "in" (field_query_parameter field_name field_details)
             = Some (JStr "query")
          /\ json_get "required" (field_query_parameter field_name field_details)
             = Some (JBool false))
    /\ (sc_supports_modify schema = true <->
        exists field_name field_details,
          In (field_name, field_details) (sc_fields schema)
          /\ PyStr.char_in "w" (fd_supports field_details) = true).
Proof.
  intros Hschema.
  pose proof (process_schema_filtering_known _ _ _ _ Hschema) as Hknown.
  pose proof (collection_path_ne_item_path schema) as Hne.
  assert (Hne' : item_path schema <> collection_path schema) by congruence.
  destruct (add_filter_parameters_ok schema (sc_filtering_fields schema) Hknown
              (dict_set (collection_path schema)
                 (JDict [ ("get", list_operation schema) ]) paths)
              (list_operation schema))
    as (paths1 & list_op & Hrun & Hget & _); [apply dict_get_set_eq|].
  unfold emit_paths. rewrite Hrun. simpl.
  eexists _, list_op. split; [reflexivity|].
  split; [reflexivity|]. split; [reflexivity|].
  split.
  { destruct (sc_supports_delete schema), (sc_supports_modify schema),
             (sc_supports_create schema);
      rewrite ?dict_get_alter_ne by done;
      rewrite ?dict_get_set_ne by done;
      rewrite ?dict_get_alter_eq, Hget; reflexivity. }
  split.
  { destruct (sc_supports_delete schema), (sc_supports_modify schema);
      rewrite ?dict_get_alter_eq, dict_get_set_eq; reflexivity. }
  split; [eexists; reflexivity|].
  do 4 (split; [reflexivity|]).
  split; [simpl; by rewrite delete_params_eq|].
  split; [by intros n fd|].
  rewrite (process_schema_modify _ _ _ _ Hschema). unfold any_writable.
  rewrite existsb_exists. split.
  - intros ([n fd] & Hin & Hw). eauto.
  - intros (n & fd & Hin & Hw). exists (n, fd). eauto.
Qed.

Lemma paths_of_processed_schema_witness :
  process_schema sample_generator sample_schema_readonly "record:a"
    = Ok (Some sample_processed_schema)
  /\ exists paths',
       emit_paths sample_processed_schema [] = Ok paths'
       /\ (exists list_op,
             dict_get "/record:a" paths'
             = Some (JDict [ ("get", list_op);
                             ("post", create_operation sample_processed_schema) ]))
       /\ dict_get "/record:a/{reference}" paths'
          = Some (JDict [ ("get", read_operation sample_processed_schema);
                          ("delete", delete_operation sample_processed_schema) ]).
Proof.
  assert (H : process_schema sample_generator sample_schema_readonly "record:a"
              = Ok (Some sample_processed_schema)) by reflexivity.
  split; [exact H|].
  destruct (paths_of_processed_schema sample_generator sample_schema_readonly
              "record:a" sample_processed_schema [] H)
    as (paths' & list_op & Hrun & _ & _ & Hcoll & Hitem & _).
  exists paths'. split; [exact Hrun|].
  split; [exists list_op; exact Hcoll|exact Hitem].
Defined.

(** ** The stores of the emitters find their target

    [set_property], [json_set] and [json_alter] leave a value of the wrong
    shape alone where Python would raise; the object they are applied to is
    always the dictionary assigned just before. *)

Lemma has_properties_set schema_name schema_object schemas_data name :
  (exists properties,
     json_get "properties" schema_object = Some (JDict properties)) ->
  has_properties name schemas_data ->
  has_properties name (dict_set schema_name schema_object schemas_data).
Proof.
  intros [ps Hps] (o & ps' & Ho & Hps').
  destruct (String.eqb_spec schema_name name) as [->|Hne].
  - exists schema_object, ps. by rewrite dict_get_set_eq.
  - exists o, ps'. by rewrite dict_get_set_ne.
Qed.

Lemma has_properties_set_eq schema_name schema_object schemas_data :
  (exists properties,
     json_get "properties" schema_object = Some (JDict properties)) ->
  has_properties schema_name (dict_set schema_name schema_object schemas_data).
Proof. intros [ps Hps]. exists schema_object, ps. by rewrite dict_get_set_eq. Qed.

Lemma has_properties_set_property schema_name field_name p schemas_data name :
  has_properties name schemas_data ->
  has_properties name (set_property schema_name field_name p schemas_data).
Proof.
  intros (o & ps & Ho & Hps). unfold set_property.
  destruct (String.eqb_spec schema_name name) as [->|Hne].
  - eexists _, (dict_set field_name p ps).
    rewrite dict_get_alter_eq, Ho. split; [reflexivity|].
    by rewrite json_get_alter_eq, Hps.
  - exists o, ps. by rewrite dict_get_alter_ne.
Qed.

(** In the nested loop: the registration creates the target, and nothing
    that follows, the recursive calls included, removes it. *)
Lemma register_nested_has_properties schema_name st :
  has_properties schema_name (schemas_data (register_nested schema_name st)).
Proof. simpl. apply has_properties_set_eq. by eexists. Qed.

Lemma expand_nested_has_properties self schema_name schema_data st name :
  has_properties name (schemas_data st) ->
  has_properties name
    (schemas_data (expand_nested self schema_name schema_data st)).
Proof.
  apply (expand_nested_closure self
           (fun st st' => has_properties name (schemas_data st) ->
                          has_properties name (schemas_data st'))).
  - done.
  - auto.
  - intros n st' _. simpl. apply has_properties_set. by eexists.
  - intros n pf st'. simpl. apply has_properties_set_property.
Qed.

Lemma nested_field_step_has_properties self schema_name st field name :
  has_properties name (schemas_data st) ->
  has_properties name
    (schemas_data (nested_field_step self schema_name st field)).
Proof.
  intros H. unfold nested_field_step.
  destruct (process_field field) as [pf|]; [|done]. simpl.
  apply has_properties_set_property.
  destruct (nested_schema_of field); [|done].
  by apply expand_nested_has_properties.
Qed.

(** ** The path loop ends on processed schemas *)

Lemma emit_paths_ok schema paths :
  filtering_fields_known schema ->
  exists paths', emit_paths schema paths = Ok paths'.
Proof.
  intros Hknown.
  destruct (add_filter_parameters_ok schema (sc_filtering_fields schema) Hknown
              (dict_set (collection_path schema)
                 (JDict [ ("get", list_operation schema) ]) paths)
              (list_operation schema))
    as (paths1 & list_op & Hrun & _); [apply dict_get_set_eq|].
  unfold emit_paths. rewrite Hrun. simpl. eauto.
Qed.

Lemma generate_paths_ok schemas :
  Forall filtering_fields_known schemas ->
  exists paths, generate_paths schemas = Ok paths.
Proof.
  intros Hall. unfold generate_paths. generalize (@nil (string * json)).
  induction Hall as [|schema schemas Hschema _ IH]; intros paths; simpl;
    [eauto|].
  destruct (emit_paths_ok schema paths Hschema) as [paths' ->]. simpl.
  apply IH.
Qed.

(** ** An end-to-end run

    The raw schema of ["record:a"] with a required field ["name"] and a
    field ["ipv4addr"], both of type string and readable and writable: the
    schema [RecordA] with the required list [["name"]] and two string
    properties, GET and POST on [/record:a], GET, PUT and DELETE on
    [/record:a/{reference}]. *)
Example record_a_end_to_end :
  exists schema schemas_data paths object_schema properties collection item,
    process_schema sample_generator sample_schema_record_a "record:a"
      = Ok (Some schema)
    /\ sc_schema_name schema = "RecordA"
    /\ generate_schemas_for_objects sample_generator [schema] = schemas_data
    /\ dict_get "RecordA" schemas_data = Some object_schema
    /\ json_get "required" object_schema = Some (JList [JStr "name"])
    /\ json_get "properties" object_schema = Some properties
    /\ (json_get "name" properties ≫= json_get "type") = Some (JStr "string")
    /\ (json_get "ipv4addr" properties ≫= json_get "type") = Some (JStr "string")
    /\ generate_paths [schema] = Ok paths
    /\ map fst paths = ["/record:a"; "/record:a/{reference}"]
    /\ dict_get "/record:a" paths = Some (JDict collection)
    /\ map fst collection = ["get"; "post"]
    /\ dict_get "/record:a/{reference}" paths = Some (JDict item)
    /\ map fst item = ["get"; "put"; "delete"].
Proof.
  do 7 eexists.
  split; [vm_compute; reflexivity|].
  repeat (split; [vm_compute; reflexivity|]).
  vm_compute; reflexivity.
Qed.

(** The documentation clean-up on a text with line breaks and tabs. *)
Example clean_description_example :
  clean_description
    (String (ascii_of_nat 10)
       ("The  name" +:+ String (ascii_of_nat 9)
          ("of the" +:+ String (ascii_of_nat 13)
             (String (ascii_of_nat 10) "record. "))))
  = "The name of the record.".
Proof. reflexivity. Qed.

(** * Further properties of the code *)

(** ** Strings and names *)

Lemma char_in_app c s t :
  PyStr.char_in c (s +:+ t) = PyStr.char_in c s || PyStr.char_in c t.
Proof.
  induction s as [|x s IH]; [done|].
  change (PyStr.char_in c (String x (s +:+ t))
          = PyStr.char_in c (String x s) || PyStr.char_in c t).
  simpl. destruct (Ascii.eqb x c); [done|apply IH].
Qed.

Lemma char_in_map_chars f c s :
  PyStr.char_in c (PyStr.map_chars f s) = true ->
  exists x, PyStr.char_in x s = true /\ f x = c.
Proof.
  induction s as [|x s IH]; simpl; [done|].
  destruct (Ascii.eqb_spec (f x) c) as [<-|Hne].
  - intros _. exists x. by rewrite Ascii.eqb_refl.
  - intros H. destruct (IH H) as (y & Hy & Hfy). exists y.
    split; [|done]. by destruct (Ascii.eqb x y).
Qed.

Lemma char_in_join c ws :
  PyStr.char_in c (PyStr.join ws) = true ->
  exists w, In w ws /\ PyStr.char_in c w = true.
Proof.
  induction ws as [|w ws IH]; simpl; [done|].
  rewrite char_in_app. intros [H|H]%orb_true_iff.
  - exists w. auto.
  - destruct (IH H) as (w' & ? & ?). exists w'. auto.
Qed.

Lemma replace_removes a b s :
  a <> b -> PyStr.char_in a (PyStr.replace a b s) = false.
Proof.
  intros Hab. induction s as [|x s IH]; simpl; [done|].
  destruct (Ascii.eqb_spec x a) as [->|Hxa].
  - apply Ascii.eqb_neq in Hab. rewrite Ascii.eqb_sym in Hab. by rewrite Hab.
  - apply Ascii.eqb_neq in Hxa. by rewrite Hxa.
Qed.

(** A word of [split] has no separator, and only characters of the
    string. *)
Lemma split_words sep s w :
  In w (PyStr.split sep s) ->
  PyStr.char_in sep w = false
  /\ forall c, PyStr.char_in c w = true -> PyStr.char_in c s = true.
Proof.
  revert w. induction s as [|x s IH]; intros w; simpl.
  - intros [<-|[]]. done.
  - destruct (Ascii.eqb_spec x sep) as [->|Hne].
    + intros [<-|Hin]; [done|].
      destruct (IH w Hin) as [Hsep Hsub]. split; [done|].
      intros c Hc. rewrite (Hsub c Hc). by destruct (Ascii.eqb sep c).
    + pose proof (split_nonempty sep s) as Hnil.
      destruct (PyStr.split sep s) as [|w0 ws]; [done|].
      intros [<-|Hin].
      * destruct (IH w0 (or_introl eq_refl)) as [Hsep Hsub]. simpl.
        apply Ascii.eqb_neq in Hne. rewrite Hne. split; [done|].
        intros c. destruct (Ascii.eqb x c); [done|]. apply Hsub.
      * destruct (IH w (or_intror Hin)) as [Hsep Hsub]. split; [done|].
        intros c Hc. rewrite (Hsub c Hc). by destruct (Ascii.eqb x c).
Qed.

(** Changing the case of a character neither makes nor removes a
    separator. *)
Lemma case_keeps_separators x :
  (is_separator (PyStr.to_upper x) = is_separator x)
  /\ (is_separator (PyStr.to_lower x) = is_separator x).
Proof.
  destruct x as [[] [] [] [] [] [] [] []]; split; reflexivity.
Qed.

Lemma capitalize_chars c w :
  PyStr.char_in c (PyStr.capitalize w) = true ->
  exists x, PyStr.char_in x w = true
            /\ (c = PyStr.to_upper x \/ c = PyStr.to_lower x).
Proof.
  destruct w as [|x w]; simpl; [done|].
  destruct (Ascii.eqb_spec (PyStr.to_upper x) c) as [<-|Hne].
  - intros _. exists x. rewrite Ascii.eqb_refl. auto.
  - intros H. destruct (char_in_map_chars _ _ _ H) as (y & Hy & <-).
    exists y. split; [by destruct (Ascii.eqb x y)|auto].
Qed.

Lemma to_pascal_case_no_char c s :
  is_separator c = true -> PyStr.char_in c (to_pascal_case s) = false.
Proof.
  intros Hc. rewrite to_pascal_case_words.
  destruct (PyStr.char_in c _) eqn:E; [|done]. exfalso.
  destruct (char_in_join _ _ E) as (cw & Hcw & Hin).
  apply in_map_iff in Hcw. destruct Hcw as (w & <- & Hw).
  destruct (capitalize_chars _ _ Hin) as (x & Hx & Hcase).
  destruct (split_words _ _ _ Hw) as [Hsep Hsub].
  assert (Hxsep : is_separator x = true).
  { destruct (case_keeps_separators x) as [Hu Hl].
    destruct Hcase as [->| ->]; congruence. }
  unfold is_separator in Hxsep. apply orb_true_iff in Hxsep.
  destruct Hxsep as [Hx'|Hx']; apply Ascii.eqb_eq in Hx'; subst x.
  - apply Hsub in Hx. rewrite replace_removes in Hx; done.
  - congruence.
Qed.

(** X1. The result of [to_pascal_case] has neither a colon nor an
    underscore, whatever the string. *)
Theorem to_pascal_case_no_separator (s : string) :
  PyStr.char_in ":" (to_pascal_case s) = false
  /\ PyStr.char_in "_" (to_pascal_case s) = false.
Proof. split; apply to_pascal_case_no_char; reflexivity. Qed.

(** X2. [to_pascal_case] returns the empty string exactly on the strings
    made of colons and underscores only (the empty string among them): a
    name with any other character gives a non-empty schema name. *)
Theorem to_pascal_case_empty_iff (s : string) :
  to_pascal_case s = "" <-> all_chars is_separator s = true.
Proof.
  induction s as [|c s IH]; [done|].
  simpl all_chars. destruct (is_separator c) eqn:Hc; simpl.
  - rewrite <- IH.
    change (String c s) with ("" +:+ String c s).
    rewrite to_pascal_case_sep; [done|].
    unfold is_separator in Hc. apply orb_true_iff in Hc.
    destruct Hc as [Hc|Hc]; apply Ascii.eqb_eq in Hc; auto.
  - split; [|done]. rewrite to_pascal_case_words. simpl.
    unfold is_separator in Hc. apply orb_false_iff in Hc. destruct Hc as [Hc1 Hc2].
    rewrite Hc1, Hc2.
    pose proof (split_nonempty "_" (PyStr.replace ":" "_" s)) as Hnil.
    destruct (PyStr.split "_" (PyStr.replace ":" "_" s)); done.
Qed.

(** ** The documentation clean-up *)

Lemma control_space_is_space c :
  PyStr.is_control_space c = true ->
  PyStr.is_space c = true /\ Ascii.eqb c " " = false.
Proof. destruct c as [[] [] [] [] [] [] [] []]; done. Qed.

(** After the two substitutions the white space is single blanks. *)
Lemma collapse_single s :
  forall b,
    blanks_single_from b
      (PyStr.collapse_from b (PyStr.sub_control_space s)) = true.
Proof.
  unfold PyStr.sub_control_space.
  induction s as [|c s IH]; intros b; simpl; [done|].
  destruct (PyStr.is_space (if PyStr.is_control_space c then " "%char else c))
    eqn:E.
  - destruct b; [apply IH|]. simpl. apply IH.
  - simpl. rewrite E. apply IH.
Qed.

Lemma lstrip_single b s :
  blanks_single_from b s = true ->
  blanks_single_from true (PyStr.lstrip s) = true.
Proof.
  revert b. induction s as [|c s IH]; intros b; simpl; [done|].
  destruct (PyStr.is_space c) eqn:E.
  - intros H. apply andb_true_iff in H. destruct H as [_ H]. by apply (IH true).
  - simpl. by rewrite E.
Qed.

Lemma rstrip_normal s :
  forall b,
    blanks_single_from b s = true ->
    PyStr.rstrip s = EmptyString
    \/ blanks_normal_from b (PyStr.rstrip s) = true.
Proof.
  induction s as [|c s IH]; intros b H; simpl; [by left|].
  simpl in H.
  destruct (PyStr.rstrip s) as [|k kept] eqn:Hr.
  - destruct (PyStr.is_space c) eqn:E; [by left|]. right. simpl. by rewrite E.
  - right.
    change (blanks_normal_from b (String c (String k kept)) = true).
    cbn [blanks_normal_from]. fold (blanks_normal_from).
    destruct (PyStr.is_space c) eqn:E.
    + apply andb_true_iff in H. destruct H as [H1 H2]. rewrite H1. simpl.
      by destruct (IH true H2).
    + by destruct (IH false H).
Qed.

Lemma normal_no_control b s :
  blanks_normal_from b s = true -> PyStr.sub_control_space s = s.
Proof.
  unfold PyStr.sub_control_space.
  revert b. induction s as [|c s IH]; intros b; simpl; [done|].
  destruct (PyStr.is_control_space c) eqn:Ec.
  - destruct (control_space_is_space c Ec) as [-> ->]. done.
  - destruct (PyStr.is_space c).
    + intros H. apply andb_true_iff in H. destruct H as [_ H].
      by rewrite (IH true H).
    + intros H. by rewrite (IH false H).
Qed.

Lemma normal_no_run s :
  forall p q,
    blanks_normal_from p s = true -> (q = true -> p = true) ->
    PyStr.collapse_from q s = s.
Proof.
  induction s as [|c s IH]; intros p q H Hq; simpl; [done|].
  simpl in H. destruct (PyStr.is_space c).
  - apply andb_true_iff in H. destruct H as [H1 H2].
    apply andb_true_iff in H1. destruct H1 as [Hc Hp].
    apply Ascii.eqb_eq in Hc. subst c.
    destruct q; [destruct p; [done|by discriminate Hq]|].
    by rewrite (IH true true H2).
  - by rewrite (IH false false H).
Qed.

Lemma normal_rstrip s :
  forall b, blanks_normal_from b s = true -> PyStr.rstrip s = s.
Proof.
  induction s as [|c s IH]; intros b H; simpl; [done|].
  simpl in H.
  assert (Hs : blanks_normal_from (PyStr.is_space c) s = true).
  { destruct (PyStr.is_space c); [|done].
    apply andb_true_iff in H. by destruct H. }
  rewrite (IH _ Hs). destruct s as [|k s']; [|done].
  simpl in Hs. by destruct (PyStr.is_space c).
Qed.

(** A text in normal form is left as it is. *)
Lemma clean_description_fixed s :
  blanks_normal s = true -> clean_description s = s.
Proof.
  destruct s as [|c s]; [done|].
  unfold blanks_normal, clean_description. intros H.
  cbn [PyStr.truthy]. unfold PyStr.strip, PyStr.collapse_spaces.
  rewrite (normal_no_control _ _ H).
  rewrite (normal_no_run _ true false H) by done.
  assert (Hl : PyStr.lstrip (String c s) = String c s).
  { simpl in H. simpl.
    destruct (PyStr.is_space c); [by destruct (Ascii.eqb c " ")|done]. }
  rewrite Hl. by apply (normal_rstrip _ true).
Qed.

(** X3. The documentation clean-up of [process_field] leaves a text whose
    only white space is single blanks between words: no line break, tab,
    form feed or vertical tab, no two blanks in a row, no blank at either
    end; and cleaning a cleaned text changes nothing. *)
Theorem clean_description_normal (description : string) :
  blanks_normal (clean_description description) = true
  /\ clean_description (clean_description description)
     = clean_description description.
Proof.
  assert (H : blanks_normal (clean_description description) = true).
  { unfold clean_description.
    destruct (PyStr.truthy description) eqn:E; [|by destruct description].
    unfold PyStr.strip, PyStr.collapse_spaces.
    pose proof (collapse_single description false) as Hs.
    apply lstrip_single in Hs.
    destruct (rstrip_normal _ true Hs) as [->|Hn]; [done|].
    unfold blanks_normal. by destruct (PyStr.rstrip _). }
  split; [exact H|]. by apply clean_description_fixed.
Qed.

(** ** The outcome of [process_schema] and the shape of its result *)

Lemma process_field_no_nested_name field pf :
  process_field field = Some pf ->
  fd_nested_schema_name pf = None
  /\ fd_required pf = rf_required field
  /\ fd_supports_filtering pf = PyStr.truthy (rf_searchable_by field)
  /\ fd_name pf = raw_name field.
Proof.
  unfold process_field, raw_name.
  destruct (negb _); [done|]. by intros [= <-].
Qed.

Lemma process_schema_field_keyed type_name acc field acc' :
  process_schema_field type_name acc field = Ok acc' ->
  fields_keyed type_name (acc_processed_fields acc) (acc_nested_schemas acc) ->
  fields_keyed type_name (acc_processed_fields acc') (acc_nested_schemas acc').
Proof.
  unfold process_schema_field.
  destruct (process_field field) as [pf|] eqn:Hpf; [|done].
  destruct (process_field_name _ _ Hpf) as [_ Hne].
  destruct (process_field_no_nested_name _ _ Hpf) as [Hnn _].
  intros Hrun [Hnodup Hentries].
  destruct (nested_of pf) as [child|] eqn:Hnested; injection Hrun as <-; simpl;
    (split; [by apply dict_set_NoDup|]);
    intros k fd Hin;
    destruct (in_dict_set _ _ _ _ _ Hin) as [[-> ->]|Hold].
  - unfold nested_of in *. simpl. rewrite Hnested.
    repeat split; try done.
    intros child' [= <-]. apply in_or_app. right. by left.
  - destruct (Hentries k fd Hold) as (H1 & H2 & H3 & H4).
    repeat split; try done.
    intros child' Hc. apply in_or_app. left. by apply H4.
  - rewrite Hnested. by repeat split.
  - by apply Hentries.
Qed.

Lemma process_schema_fields_keyed type_name fields :
  forall acc acc',
    process_schema_fields type_name acc fields = Ok acc' ->
    fields_keyed type_name (acc_processed_fields acc) (acc_nested_schemas acc) ->
    fields_keyed type_name (acc_processed_fields acc') (acc_nested_schemas acc').
Proof.
  induction fields as [|f fields IH]; intros acc acc' Hrun Hacc; simpl in Hrun.
  - by injection Hrun as <-.
  - destruct (process_schema_field type_name acc f) as [acc1|] eqn:E; [|done].
    simpl in Hrun. apply (IH acc1 acc' Hrun).
    by eapply process_schema_field_keyed.
Qed.

(** The two lists and the keys that the loop builds, read off the raw
    fields. *)
Lemma process_schema_fields_lists type_name fields :
  forall acc acc',
    process_schema_fields type_name acc fields = Ok acc' ->
    acc_required_fields acc'
    = acc_required_fields acc ++ map raw_name (List.filter rf_required fields)
    /\ acc_filtering_fields acc'
       = acc_filtering_fields acc
         ++ map raw_name
              (List.filter (fun f => PyStr.truthy (rf_searchable_by f)) fields).
Proof.
  induction fields as [|f fields IH]; intros acc acc' Hrun; simpl in Hrun.
  - injection Hrun as <-. simpl. rewrite !app_nil_r. auto.
  - destruct (process_schema_field type_name acc f) as [acc1|] eqn:E; [|done].
    simpl in Hrun. destruct (IH acc1 acc' Hrun) as (Hreq & Hfil).
    rewrite Hreq, Hfil. clear IH Hrun Hreq Hfil.
    unfold process_schema_field in E.
    destruct (process_field f) as [pf|] eqn:Hpf; [|done].
    destruct (process_field_no_nested_name _ _ Hpf) as (_ & Hr & Hs & Hn).
    rewrite Hr, Hs, Hn in E. simpl.
    destruct (nested_of pf); injection E as <-; simpl;
      destruct (rf_required f), (PyStr.truthy (rf_searchable_by f)); simpl;
      rewrite <- ?app_assoc; auto.
Qed.

Lemma process_schema_fields_keys type_name fields :
  forall acc acc' k,
    process_schema_fields type_name acc fields = Ok acc' ->
    (dict_has k (acc_processed_fields acc') = true <->
     dict_has k (acc_processed_fields acc) = true
     \/ exists f, In f fields /\ rf_name f = Some k).
Proof.
  induction fields as [|f fields IH]; intros acc acc' k Hrun; simpl in Hrun.
  - injection Hrun as <-. split; [auto|]. intros [?|(f & [] & _)]. done.
  - destruct (process_schema_field type_name acc f) as [acc1|] eqn:E; [|done].
    simpl in Hrun. rewrite (IH acc1 acc' k Hrun). clear IH Hrun.
    unfold process_schema_field in E.
    destruct (process_field f) as [pf|] eqn:Hpf; [|done].
    destruct (process_field_name _ _ Hpf) as [Hname _].
    assert (Hkeys : forall v,
               dict_has k (dict_set (fd_name pf) v (acc_processed_fields acc)) = true
               <-> dict_has k (acc_processed_fields acc) = true
                   \/ rf_name f = Some k).
    { intros v. rewrite Hname.
      destruct (String.eqb_spec (fd_name pf) k) as [->|Hne].
      - rewrite dict_has_set_eq. split; auto.
      - rewrite dict_has_set_ne by done. split; [auto|].
        intros [?|[= ?]]; done. }
    destruct (nested_of pf); injection E as <-; simpl; rewrite Hkeys;
      (split;
       [ intros [[?|?]|(f' & ? & ?)]; eauto 6
       | intros [?|(f' & [<-|?] & ?)]; eauto 6 ]).
Qed.

Lemma fields_named_or_nameless (fields : list RawField) :
  Forall (fun f => process_field f <> None) fields
  \/ Exists (fun f => process_field f = None) fields.
Proof.
  induction fields as [|f fields [IH|IH]].
  - left. constructor.
  - destruct (process_field f) eqn:E.
    + left. constructor; [by rewrite E|done].
    + right. by constructor.
  - right. by constructor 2.
Qed.

(** X4. The outcomes of [process_schema] on a schema document of the
    vendor's format, which is what [RawSchema] holds: every member that is
    present has the type of the format (the type name and ["supports"] are
    strings, the fields are a list of field descriptors; a null or a value
    of another type in their place is outside this statement). The result
    is [None] exactly for an empty schema; a [TypeError] is raised exactly
    when the schema is not empty and has a field without a name; a
    processed schema is returned exactly when the schema is not empty and
    all its fields have a name. *)
Theorem process_schema_outcome
    (self : Generator) (schema : RawSchema) (object_type : string) :
  (process_schema self schema object_type = Ok None <->
   schema_truthy schema = false)
  /\ (process_schema self schema object_type = Raise TypeError <->
      schema_truthy schema = true
      /\ Exists nameless (default [] (rs_fields schema)))
  /\ ((exists sc, process_schema self schema object_type = Ok (Some sc)) <->
      schema_truthy schema = true
      /\ Forall (fun f => ~ nameless f) (default [] (rs_fields schema))).
Proof.
  unfold process_schema.
  destruct (schema_truthy schema) eqn:Ht; simpl.
  2:{ split; [done|].
      split; [split; [done|by intros [? _]]|].
      split; [by intros [sc ?]|by intros [? _]]. }
  set (type_name := default object_type (rs_type schema)).
  set (acc0 := {| acc_processed_fields := []; acc_filtering_fields := [];
                  acc_required_fields := []; acc_nested_schemas := [] |}).
  destruct (fields_named_or_nameless (default [] (rs_fields schema)))
    as [Hall|Hex'].
  - destruct (process_schema_fields_ok type_name _ acc0 Hall) as [acc ->].
    simpl.
    assert (Hnamed : Forall (fun f => ~ nameless f)
                       (default [] (rs_fields schema))).
    { eapply Forall_impl; [exact Hall|]. intros f Hf Hn.
      by apply Hf, process_field_nameless. }
    split; [done|].
    split.
    { split; [done|]. intros [_ Hex]. apply List.Exists_exists in Hex.
      destruct Hex as (f & Hin & Hn).
      rewrite List.Forall_forall in Hnamed. by destruct (Hnamed f Hin). }
    split; eauto.
  - rewrite (process_schema_fields_raise type_name _ acc0 Hex'). simpl.
    assert (Hnameless : Exists nameless (default [] (rs_fields schema))).
    { eapply List.Exists_impl; [|exact Hex']. intros f.
      apply process_field_nameless. }
    split; [done|].
    split; [done|].
    split; [by intros [sc ?]|].
    intros [_ Hall]. apply List.Exists_exists in Hnameless.
    destruct Hnameless as (f & Hin & Hn).
    rewrite List.Forall_forall in Hall. by destruct (Hall f Hin).
Qed.

Lemma process_schema_acc self schema object_type sc :
  process_schema self schema object_type = Ok (Some sc) ->
  exists acc,
    process_schema_fields (default object_type (rs_type schema))
      {| acc_processed_fields := []; acc_filtering_fields := [];
         acc_required_fields := []; acc_nested_schemas := [] |}
      (default [] (rs_fields schema)) = Ok acc
    /\ sc_object_type sc = default object_type (rs_type schema)
    /\ sc_fields sc = acc_processed_fields acc
    /\ sc_filtering_fields sc = acc_filtering_fields acc
    /\ sc_required_fields sc = acc_required_fields acc
    /\ sc_nested_schemas sc = acc_nested_schemas acc.
Proof.
  unfold process_schema.
  destruct (negb (schema_truthy schema)); [done|].
  destruct (process_schema_fields _ _ _) as [acc|]; [|done].
  simpl. intros [= <-]. by exists acc.
Qed.

(** X5. In the processed schema the fields are keyed by their name: the
    keys are distinct, every field is stored under its own non-empty name,
    and the keys are exactly the names of the raw fields; the required
    fields are the names of the raw fields marked required, and the
    filtering fields the names of the raw fields with a non-empty
    [searchable_by], both in the order of the raw fields. *)
Theorem processed_fields_shape
    (self : Generator) (schema : RawSchema) (object_type : string)
    (sc : ProcessedSchema) :
  process_schema self schema object_type = Ok (Some sc) ->
  List.NoDup (map fst (sc_fields sc))
  /\ (forall k fd, In (k, fd) (sc_fields sc) -> fd_name fd = k /\ k <> "")
  /\ (forall k,
        dict_has k (sc_fields sc) = true <->
        exists f, In f (default [] (rs_fields schema)) /\ rf_name f = Some k)
  /\ sc_required_fields sc
     = map raw_name (List.filter rf_required (default [] (rs_fields schema)))
  /\ sc_filtering_fields sc
     = map raw_name
         (List.filter (fun f => PyStr.truthy (rf_searchable_by f))
            (default [] (rs_fields schema))).
Proof.
  intros Hsc.
  destruct (process_schema_acc _ _ _ _ Hsc)
    as (acc & Hrun & _ & -> & -> & -> & _).
  pose proof (process_schema_fields_keyed _ _ _ _ Hrun) as Hkeyed.
  destruct Hkeyed as [Hnodup Hentries].
  { split; [constructor|]. by intros k fd []. }
  destruct (process_schema_fields_lists _ _ _ _ Hrun) as [Hreq Hfil].
  split; [done|].
  split; [intros k fd Hin; destruct (Hentries k fd Hin) as (? & ? & _); done|].
  split; [|done].
  intros k. rewrite (process_schema_fields_keys _ _ _ _ k Hrun). simpl.
  split; [by intros [?|?]|auto].
Qed.

Lemma processed_fields_shape_witness :
  process_schema sample_generator sample_schema_record_a "record:a"
    = Ok (Some sample_processed_record_a)
  /\ map fst (sc_fields sample_processed_record_a) = ["name"; "ipv4addr"]
  /\ sc_required_fields sample_processed_record_a = ["name"]
  /\ sc_filtering_fields sample_processed_record_a = [].
Proof.
  assert (H : process_schema sample_generator sample_schema_record_a "record:a"
              = Ok (Some sample_processed_record_a)) by reflexivity.
  split; [exact H|]. split; [reflexivity|].
  destruct (processed_fields_shape _ _ _ _ H) as (_ & _ & _ & Hreq & Hfil).
  split; [exact Hreq|exact Hfil].
Defined.

(** X6. In the processed schema a field has a [nested_schema_name] exactly
    when it carries a nested schema; the name is then
    [to_pascal_case(type_name + "_" + field_name)], and the list of nested
    schemas has the entry with that name, that schema and that field
    name. *)
Theorem nested_schemas_of_fields
    (self : Generator) (schema : RawSchema) (object_type : string)
    (sc : ProcessedSchema) (k : string) (fd : FieldDetails) :
  process_schema self schema object_type = Ok (Some sc) ->
  In (k, fd) (sc_fields sc) ->
  fd_nested_schema_name fd
  = match nested_of fd with
    | Some _ => Some (to_pascal_case (sc_object_type sc +:+ "_" +:+ k))
    | None => None
    end
  /\ forall child,
       nested_of fd = Some child ->
       In {| nr_name := to_pascal_case (sc_object_type sc +:+ "_" +:+ k);
             nr_schema := child; nr_field_name := k |}
          (sc_nested_schemas sc).
Proof.
  intros Hsc Hin.
  destruct (process_schema_acc _ _ _ _ Hsc)
    as (acc & Hrun & -> & Hf & _ & _ & ->).
  rewrite Hf in Hin.
  pose proof (process_schema_fields_keyed _ _ _ _ Hrun) as Hkeyed.
  destruct Hkeyed as [_ Hentries].
  { split; [constructor|]. by intros ? ? []. }
  destruct (Hentries k fd Hin) as (_ & _ & Hname & Hlist). done.
Qed.

Lemma nested_schemas_of_fields_witness :
  process_schema sample_generator sample_schema_readonly "record:a"
    = Ok (Some sample_processed_schema)
  /\ In ("options", sample_nested_details) (sc_fields sample_processed_schema)
  /\ fd_nested_schema_name sample_nested_details = Some "RecordAOptions"
  /\ In {| nr_name := "RecordAOptions"; nr_schema := nr_schema sample_nested;
           nr_field_name := "options" |}
        (sc_nested_schemas sample_processed_schema).
Proof.
  assert (H1 : process_schema sample_generator sample_schema_readonly "record:a"
               = Ok (Some sample_processed_schema)) by reflexivity.
  assert (H2 : In ("options", sample_nested_details)
                 (sc_fields sample_processed_schema))
    by (right; left; reflexivity).
  split; [exact H1|]. split; [exact H2|].
  destruct (nested_schemas_of_fields _ _ _ _ _ _ H1 H2) as [Hname Hlist].
  split; [exact Hname|]. exact (Hlist _ eq_refl).
Defined.

(** ** The property definitions *)

Lemma convert_description fd :
  dict_get "description" (convert_field_type_to_openapi fd)
  = Some (JStr (fd_description fd)).
Proof. convert_cases fd; reflexivity. Qed.

Lemma convert_format fd :
  dict_get "format" (convert_field_type_to_openapi fd)
  = JStr <$> dict_get (fd_type fd) format_mapping.
Proof. convert_cases fd; reflexivity. Qed.

(** The keys of the result, in their order. *)
Lemma convert_keys fd :
  map fst (convert_field_type_to_openapi fd)
  = List.filter (fun k => dict_has k (convert_field_type_to_openapi fd))
      ["type"; "description"; "format"; "enum"; "readOnly"; "writeOnly"].
Proof. convert_cases fd; reflexivity. Qed.

Lemma convert_other_key fd k :
  ~ In k ["type"; "description"; "format"; "enum"; "readOnly"; "writeOnly"] ->
  dict_has k (convert_field_type_to_openapi fd) = false.
Proof.
  intros Hk. destruct (dict_has k _) eqn:E; [|done]. exfalso. apply Hk.
  apply dict_has_in_keys in E. rewrite convert_keys in E.
  apply filter_In in E. by destruct E.
Qed.

Lemma format_mapping_kinds k :
  dict_get k format_mapping
  = if bool_decide (k ∈ ["timestamp"; "uint"; "int"]) then Some "int64" else None.
Proof.
  destruct (String.eqb_spec "timestamp" k) as [<-|H1]; [reflexivity|].
  destruct (String.eqb_spec "uint" k) as [<-|H2]; [reflexivity|].
  destruct (String.eqb_spec "int" k) as [<-|H3]; [reflexivity|].
  rewrite bool_decide_false
    by (rewrite !elem_of_cons, elem_of_nil; intros [?|[?|[?|[]]]]; done).
  apply String.eqb_neq in H1, H2, H3.
  unfold format_mapping. cbn [dict_get]. by rewrite H1, H2, H3.
Qed.

(** X7. The property returned by [convert_field_type_to_openapi] always has
    a type and the description of the field; it has the format [int64]
    exactly for the kinds timestamp, uint and int; and its keys are among
    type, description, format, enum, readOnly, writeOnly, in this order
    (so it never has a [$ref], an [items] or an [example]). *)
Theorem convert_property_shape (fd : FieldDetails) :
  dict_has "type" (convert_field_type_to_openapi fd) = true
  /\ dict_get "description" (convert_field_type_to_openapi fd)
     = Some (JStr (fd_description fd))
  /\ dict_get "format" (convert_field_type_to_openapi fd)
     = (if bool_decide (fd_type fd ∈ ["timestamp"; "uint"; "int"])
        then Some (JStr "int64") else None)
  /\ map fst (convert_field_type_to_openapi fd)
     = List.filter (fun k => dict_has k (convert_field_type_to_openapi fd))
         ["type"; "description"; "format"; "enum"; "readOnly"; "writeOnly"]
  /\ dict_has "$ref" (convert_field_type_to_openapi fd) = false
  /\ dict_has "items" (convert_field_type_to_openapi fd) = false
  /\ dict_has "example" (convert_field_type_to_openapi fd) = false.
Proof.
  split; [apply convert_has_type|]. split; [apply convert_description|].
  split.
  { rewrite convert_format, format_mapping_kinds. by case_bool_decide. }
  split; [apply convert_keys|].
  split; [apply convert_no_ref|].
  split; apply convert_other_key; simpl; intuition discriminate.
Qed.

(** *** Arrays without a nested schema *)

Lemma array_items_type item_type :
  json_get "type" (array_items item_type) = Some (dict_item "type" item_type).
Proof. unfold array_items. by destruct (dict_has "enum" item_type). Qed.

Lemma array_items_enum item_type :
  json_get "enum" (array_items item_type) = dict_get "enum" item_type.
Proof.
  unfold array_items, dict_has, dict_item.
  by destruct (dict_get "enum" item_type).
Qed.

(** The base of the property in the object loop: what the branches on
    ["extattrs"] and on the callback fields leave. *)
Lemma object_property_def_eq self schema field_name fd :
  field_name <> "_ref" ->
  exists base,
    base
    = (if String.eqb field_name "extattrs"
       then dict_set "additionalProperties" (schema_ref "ExtAttrs")
              (convert_field_type_to_openapi fd)
       else if bool_decide
                 (field_name
                    ∈ default [] (gen_func_call_fields self !! sc_object_type schema))
            then dict_set "oneOf"
                   (func_call_one_of (sc_object_type schema) field_name
                      (fd_description fd))
                   (dict_del "type" (convert_field_type_to_openapi fd))
            else convert_field_type_to_openapi fd)
    /\ object_property_def self schema field_name fd
       = Some (add_example (gen_include_examples self) field_name
                 match nested_name_of fd with
                 | Some n =>
                     if fd_is_array fd
                     then dict_set "items" (schema_ref n)
                            (dict_set "type" (JStr "array") base)
                     else [ ("$ref", schema_ref_string n) ]
                 | None =>
                     if fd_is_array fd
                     then dict_set "items"
                            (array_items
                               (convert_field_type_to_openapi
                                  (array_item_details (fd_original_type fd)
                                     (Some "is_array"))))
                            (dict_set "type" (JStr "array") base)
                     else base
                 end).
Proof.
  intros Hne. apply String.eqb_neq in Hne.
  eexists. split; [reflexivity|].
  unfold object_property_def. by rewrite Hne.
Qed.

Lemma add_example_has_example include field_name property_def :
  dict_has "example" (add_example include field_name property_def)
  = dict_has "example" property_def
    || include
       && (type_is "string" property_def || type_is "integer" property_def
           || type_is "boolean" property_def).
Proof.
  unfold add_example.
  destruct include; [|by rewrite orb_false_r].
  destruct (type_is "string" property_def);
    [by rewrite dict_has_set_eq, orb_true_r|].
  destruct (type_is "integer" property_def);
    [by rewrite dict_has_set_eq, orb_true_r|].
  destruct (type_is "boolean" property_def);
    [by rewrite dict_has_set_eq, orb_true_r|].
  by rewrite orb_false_r.
Qed.

(** X8. An array field without nested schema becomes a property of type
    array in both loops, without [$ref]; its items carry the type of the
    table for the original element type and, when the element type is
    outside the table and not empty, the one-element enum of that type.
    For an element type outside the table the object loop leaves the items
    at type ["string"] (it marks the item descriptor with
    [parent_property]), the nested loop makes them ["object"]. The object
    loop gives the property no example. The nested loop decides on the
    example before it sets the type to array: the property has an example
    exactly when examples are on and the conversion of the field gave the
    type string, integer or boolean; for a field made by [process_field],
    whose type is ["array"], that is never so. *)
Theorem plain_array_property
    (self : Generator) (schema : ProcessedSchema) (schema_name : string)
    (field_name : string) (fd : FieldDetails) :
  field_name <> "_ref" ->
  fd_is_array fd = true ->
  nested_name_of fd = None ->
  nested_of fd = None ->
  (exists p items,
     object_property_def self schema field_name fd = Some p
     /\ dict_get "type" p = Some (JStr "array")
     /\ dict_has "$ref" p = false
     /\ dict_has "example" p = false
     /\ dict_get "items" p = Some items
     /\ json_get "type" items
        = Some (JStr match dict_get (fd_original_type fd) type_mapping with
                     | Some t => t
                     | None => "string"
                     end))
  /\ (exists items,
        dict_get "type" (nested_property_def self schema_name fd)
        = Some (JStr "array")
        /\ dict_has "$ref" (nested_property_def self schema_name fd) = false
        /\ dict_get "items" (nested_property_def self schema_name fd)
           = Some items
        /\ json_get "type" items
           = Some (JStr match dict_get (fd_original_type fd) type_mapping with
                        | Some t => t
                        | None => "object"
                        end))
  /\ dict_has "example" (nested_property_def self schema_name fd)
     = gen_include_examples self
       && (type_is "string" (convert_field_type_to_openapi fd)
           || type_is "integer" (convert_field_type_to_openapi fd)
           || type_is "boolean" (convert_field_type_to_openapi fd))
  /\ (forall field,
        process_field field = Some fd ->
        dict_has "example" (nested_property_def self schema_name fd) = false)
  /\ (forall parent,
        json_get "enum"
          (array_items
             (convert_field_type_to_openapi
                (array_item_details (fd_original_type fd) parent)))
        = if negb (dict_has (fd_original_type fd) type_mapping)
             && PyStr.truthy (fd_original_type fd)
          then Some (JList [JStr (fd_original_type fd)]) else None).
Proof.
  intros Hname Harr Hn Hnested.
  assert (Hnested_example :
            dict_has "example" (nested_property_def self schema_name fd)
            = gen_include_examples self
              && (type_is "string" (convert_field_type_to_openapi fd)
                  || type_is "integer" (convert_field_type_to_openapi fd)
                  || type_is "boolean" (convert_field_type_to_openapi fd))).
  { unfold nested_property_def. rewrite Hnested, Harr, Hn.
    assert (Href : forall v w,
               dict_has "$ref"
                 (dict_set "items" v
                    (dict_set "type" w
                       (add_example (gen_include_examples self) (fd_name fd)
                          (convert_field_type_to_openapi fd)))) = false).
    { intros v w. dict_lookup. rewrite add_example_has by done.
      apply convert_no_ref. }
    rewrite Href. dict_lookup. rewrite add_example_has_example.
    rewrite convert_other_key by (simpl; intuition discriminate).
    reflexivity. }
  split; [|split; [|split; [exact Hnested_example|split]]].
  - destruct (object_property_def_eq self schema field_name fd Hname)
      as (base & Hbase & Hp).
    rewrite Hn, Harr in Hp.
    rewrite add_example_other in Hp by (unfold type_is; by dict_lookup).
    assert (Href : dict_has "$ref" base = false).
    { rewrite Hbase.
      destruct (String.eqb field_name "extattrs");
        [by dict_lookup; apply convert_no_ref|].
      destruct (bool_decide _); [|apply convert_no_ref].
      dict_lookup. apply convert_no_ref. }
    assert (Hex : dict_has "example" base = false).
    { rewrite Hbase.
      destruct (String.eqb field_name "extattrs");
        [dict_lookup; apply convert_other_key; simpl; intuition discriminate|].
      destruct (bool_decide _);
        [dict_lookup|]; apply convert_other_key; simpl; intuition discriminate. }
    eexists _, _. split; [exact Hp|].
    split; [by dict_lookup|]. split; [by dict_lookup|].
    split; [by dict_lookup|]. split; [by dict_lookup|].
    rewrite array_items_type. unfold dict_item. rewrite convert_type. simpl.
    by destruct (dict_get (fd_original_type fd) type_mapping).
  - unfold nested_property_def. rewrite Hnested, Harr, Hn.
    assert (Href : forall v w,
               dict_has "$ref"
                 (dict_set "items" v
                    (dict_set "type" w
                       (add_example (gen_include_examples self) (fd_name fd)
                          (convert_field_type_to_openapi fd)))) = false).
    { intros v w. dict_lookup. rewrite add_example_has by done.
      apply convert_no_ref. }
    rewrite Href. eexists. split; [by dict_lookup|].
    split; [apply Href|]. split; [by dict_lookup|].
    rewrite array_items_type. unfold dict_item. rewrite convert_type. simpl.
    by destruct (dict_get (fd_original_type fd) type_mapping).
  - intros field Hfield. rewrite Hnested_example.
    assert (Htype : fd_type fd = "array" /\ fd_parent_property fd = None).
    { unfold process_field in Hfield.
      destruct (negb (PyStr.truthy (default "" (rf_name field)))); [done|].
      injection Hfield as <-. simpl in *. by rewrite Harr. }
    destruct Htype as [Htype Hparent].
    unfold type_is. rewrite convert_type, Htype, Hparent. simpl.
    apply andb_false_r.
  - intros parent. rewrite array_items_enum, convert_enum. reflexivity.
Qed.

Lemma plain_array_property_witness :
  "members" <> "_ref"
  /\ fd_is_array sample_array_details = true
  /\ nested_name_of sample_array_details = None
  /\ nested_of sample_array_details = None
  /\ (exists p items,
        object_property_def sample_generator sample_processed_schema "members"
          sample_array_details = Some p
        /\ dict_has "example" p = false
        /\ dict_get "items" p = Some items
        /\ json_get "type" items = Some (JStr "string"))
  /\ (exists items,
        dict_get "items"
          (nested_property_def sample_generator "RecordA" sample_array_details)
        = Some items
        /\ json_get "type" items = Some (JStr "object"))
  /\ dict_has "example"
       (nested_property_def sample_generator "RecordA" sample_array_details)
     = false.
Proof.
  assert (H1 : "members" <> "_ref") by discriminate.
  assert (H2 : fd_is_array sample_array_details = true) by reflexivity.
  assert (H3 : nested_name_of sample_array_details = None) by reflexivity.
  assert (H4 : nested_of sample_array_details = None) by reflexivity.
  split; [exact H1|]. split; [exact H2|]. split; [exact H3|].
  split; [exact H4|].
  destruct (plain_array_property sample_generator sample_processed_schema
              "RecordA" "members" sample_array_details H1 H2 H3 H4)
    as ((p & items & Hp & _ & _ & Hexample & Hitems & Htype)
        & (items' & _ & _ & Hitems' & Htype') & Hnested & _).
  split.
  - exists p, items. split; [exact Hp|]. split; [exact Hexample|].
    split; [exact Hitems|exact Htype].
  - split.
    + exists items'. split; [exact Hitems'|exact Htype'].
    + rewrite Hnested. reflexivity.
Defined.

(** *** The fields with a special treatment in the object loop *)

(** X9. In the object loop, for a field that is neither nested nor an
    array: the field named ["extattrs"] gets [additionalProperties]
    referring to the extensible-attributes schema and no [oneOf], even when
    it is listed as a callback field; any other field listed as a callback
    field of the object type loses its type and gets the two-branch
    [oneOf], a string and an object, without example; and the object
    branch has the property [_object_ref] exactly for the field named
    ["network"]. *)
Theorem special_field_properties
    (self : Generator) (schema : ProcessedSchema)
    (field_name : string) (fd : FieldDetails) :
  field_name <> "_ref" ->
  nested_name_of fd = None ->
  fd_is_array fd = false ->
  exists p,
    object_property_def self schema field_name fd = Some p
    /\ (field_name = "extattrs" ->
        dict_get "additionalProperties" p = Some (schema_ref "ExtAttrs")
        /\ dict_has "oneOf" p = false)
    /\ (field_name <> "extattrs" ->
        field_name ∈ default [] (gen_func_call_fields self !! sc_object_type schema) ->
        dict_has "type" p = false
        /\ dict_has "example" p = false
        /\ dict_has "additionalProperties" p = false
        /\ exists string_branch object_branch properties,
             dict_get "oneOf" p = Some (JList [string_branch; object_branch])
             /\ json_get "type" string_branch = Some (JStr "string")
             /\ json_get "type" object_branch = Some (JStr "object")
             /\ json_get "properties" object_branch = Some (JDict properties)
             /\ (dict_has "_object_ref" properties = true <->
                 field_name = "network"))
    /\ (field_name <> "extattrs" ->
        field_name ∉ default [] (gen_func_call_fields self !! sc_object_type schema) ->
        p = add_example (gen_include_examples self) field_name
              (convert_field_type_to_openapi fd)).
Proof.
  intros Hname Hn Harr.
  destruct (object_property_def_eq self schema field_name fd Hname)
    as (base & Hbase & Hp).
  rewrite Hn, Harr in Hp. eexists. split; [exact Hp|].
  split; [|split].
  - intros ->. rewrite Hbase. simpl String.eqb. cbv iota.
    rewrite add_example_get, add_example_has by done.
    split; [by dict_lookup|]. dict_lookup.
    apply convert_other_key; simpl; intuition discriminate.
  - intros Hx Hcb. apply String.eqb_neq in Hx.
    rewrite Hbase, Hx, bool_decide_true by done.
    rewrite add_example_other by (unfold type_is; by dict_lookup).
    split; [by dict_lookup|].
    split.
    { dict_lookup. apply convert_other_key; simpl; intuition discriminate. }
    split.
    { dict_lookup. apply convert_other_key; simpl; intuition discriminate. }
    unfold func_call_one_of. eexists _, _, _.
    split; [by dict_lookup|]. split; [reflexivity|]. split; [reflexivity|].
    split; [reflexivity|].
    destruct (bool_decide (field_name ∈ ["network"])) eqn:Hnet.
    + apply bool_decide_eq_true, list_elem_of_singleton in Hnet.
      by rewrite dict_has_set_eq.
    + apply bool_decide_eq_false in Hnet. split; [done|].
      intros ->. destruct Hnet. by apply list_elem_of_singleton.
  - intros Hx Hcb. apply String.eqb_neq in Hx.
    by rewrite Hbase, Hx, bool_decide_false.
Qed.

Lemma special_field_properties_witness :
  "network" <> "_ref"
  /\ nested_name_of sample_readonly_details = None
  /\ fd_is_array sample_readonly_details = false
  /\ "network" <> "extattrs"
  /\ "network" ∈ default [] (gen_func_call_fields sample_callback_generator
                               !! sc_object_type sample_processed_schema)
  /\ exists p,
       object_property_def sample_callback_generator sample_processed_schema
         "network" sample_readonly_details = Some p
       /\ dict_has "type" p = false
       /\ dict_has "oneOf" p = true.
Proof.
  assert (H1 : "network" <> "_ref") by discriminate.
  assert (H2 : nested_name_of sample_readonly_details = None) by reflexivity.
  assert (H3 : fd_is_array sample_readonly_details = false) by reflexivity.
  assert (H4 : "network" <> "extattrs") by discriminate.
  assert (H5 : "network"
                 ∈ default [] (gen_func_call_fields sample_callback_generator
                                 !! sc_object_type sample_processed_schema)).
  { apply (bool_decide_unpack _). vm_compute. exact I. }
  split; [exact H1|]. split; [exact H2|]. split; [exact H3|].
  split; [exact H4|]. split; [exact H5|].
  destruct (special_field_properties sample_callback_generator
              sample_processed_schema "network" sample_readonly_details
              H1 H2 H3) as (p & Hp & _ & Hcb & _).
  destruct (Hcb H4 H5) as (Ht & _ & _ & sb & ob & ps & Hone & _).
  exists p. split; [exact Hp|]. split; [exact Ht|].
  unfold dict_has. rewrite Hone. reflexivity.
Defined.

(** ** Nested schemas: what is skipped, what is emitted *)

Lemma has_name_process_field field :
  has_name field = false <-> process_field field = None.
Proof.
  unfold has_name, raw_name, process_field.
  destruct (PyStr.truthy (default "" (rf_name field))); simpl; split; done.
Qed.

Lemma nested_field_step_nameless self schema_name st field :
  has_name field = false -> nested_field_step self schema_name st field = st.
Proof.
  intros H. apply has_name_process_field in H.
  unfold nested_field_step. by rewrite H.
Qed.

Lemma fold_left_filter_skip {A B} (step : A -> B -> A) (keep : B -> bool) l :
  (forall a b, keep b = false -> step a b = a) ->
  forall a, fold_left step (List.filter keep l) a = fold_left step l a.
Proof.
  intros Hskip. induction l as [|b l IH]; intros a; simpl; [done|].
  destruct (keep b) eqn:E; simpl; [apply IH|].
  rewrite (Hskip a b E). apply IH.
Qed.

(** X10. In a nested schema a field without a name is skipped, with no
    exception: [process_nested_schema_fields] gives the same result as on
    the nested schema without its nameless fields. *)
Theorem nested_nameless_fields_skipped
    (self : Generator) (name field_name : string)
    (type_key : option string) (fields : list RawField)
    (restrictions : option RawRestrictions) (version : option string)
    (other : bool) (st : EmitState) :
  process_nested_schema_fields self
    {| nr_name := name;
       nr_schema := mkRawSchema type_key (Some fields) restrictions version other;
       nr_field_name := field_name |} st
  = process_nested_schema_fields self
      {| nr_name := name;
         nr_schema :=
           mkRawSchema type_key (Some (List.filter has_name fields))
             restrictions version other;
         nr_field_name := field_name |} st.
Proof.
  unfold process_nested_schema_fields. cbn [nr_name nr_schema].
  rewrite !expand_nested_eq. cbn [rs_fields default from_option id].
  destruct (bool_decide (name ∈ created_schemas st)); [done|].
  symmetry. apply fold_left_filter_skip.
  intros st' f. apply nested_field_step_nameless.
Qed.

(** *** Every created name has its schema *)

Lemma expand_nested_created_have_schemas self schema_name schema_data st :
  created_have_schemas st ->
  created_have_schemas (expand_nested self schema_name schema_data st).
Proof.
  apply (expand_nested_closure self
           (fun st st' => created_have_schemas st -> created_have_schemas st')).
  - done.
  - auto.
  - intros n st' _ H n' Hn'. simpl in *.
    apply elem_of_union in Hn'. destruct Hn' as [Hn'|Hn'].
    + apply elem_of_singleton in Hn'. subst n'. apply dict_has_set_eq.
    + by apply dict_has_set_mono, H.
  - intros n pf st' H n' Hn'. simpl in *. rewrite set_property_has. by apply H.
Qed.

Lemma nested_field_step_created_mono self schema_name st field :
  created_schemas st
    ⊆ created_schemas (nested_field_step self schema_name st field).
Proof.
  unfold nested_field_step.
  destruct (process_field field) as [pf|]; [|done]. simpl.
  destruct (nested_schema_of field); [|done].
  apply expand_nested_created_mono.
Qed.

Lemma nested_fields_created_mono self schema_name fields :
  forall st,
    created_schemas st
      ⊆ created_schemas (fold_left (nested_field_step self schema_name) fields st).
Proof.
  induction fields as [|f fields IH]; intros st; simpl; [done|].
  etrans; [apply (nested_field_step_created_mono self schema_name st f)|apply IH].
Qed.

Lemma nested_of_process_field field pf child :
  process_field field = Some pf ->
  nested_schema_of field = Some child ->
  nested_of pf = Some child.
Proof.
  intros Hpf Hchild. unfold nested_of.
  rewrite (process_field_nested _ _ Hpf), Hchild.
  unfold nested_schema_of in Hchild.
  destruct field as [? ? ? ? ? ? ? ? [sch|]]; [|done].
  destruct (schema_truthy sch) eqn:E; [|done].
  injection Hchild as <-. by rewrite E.
Qed.

(** X11. When a nested schema is expanded for a name not yet created, the
    child schema of every named field that carries a schema is created and
    is a key of the map, under the very name that the property of the field
    refers to: no reference to a nested child dangles. *)
Theorem nested_children_emitted
    (self : Generator) (schema_name : string) (schema_data : RawSchema)
    (st : EmitState) (field : RawField) (pf : FieldDetails)
    (child : RawSchema) :
  schema_name ∉ created_schemas st ->
  created_have_schemas st ->
  In field (default [] (rs_fields schema_data)) ->
  process_field field = Some pf ->
  nested_schema_of field = Some child ->
  to_pascal_case (schema_name +:+ "_" +:+ fd_name pf)
    ∈ created_schemas (expand_nested self schema_name schema_data st)
  /\ dict_has (to_pascal_case (schema_name +:+ "_" +:+ fd_name pf))
       (schemas_data (expand_nested self schema_name schema_data st)) = true
  /\ (fd_is_array pf = false ->
      dict_get "$ref" (nested_property_def self schema_name pf)
      = Some (schema_ref_string
                (to_pascal_case (schema_name +:+ "_" +:+ fd_name pf))))
  /\ (fd_is_array pf = true ->
      dict_get "items" (nested_property_def self schema_name pf)
      = Some (schema_ref
                (to_pascal_case (schema_name +:+ "_" +:+ fd_name pf)))).
Proof.
  intros Hfresh Hinv Hin Hpf Hchild.
  assert (Hcreated :
    to_pascal_case (schema_name +:+ "_" +:+ fd_name pf)
      ∈ created_schemas (expand_nested self schema_name schema_data st)).
  { rewrite expand_nested_eq, bool_decide_false by done.
    generalize (register_nested schema_name st).
    induction (default [] (rs_fields schema_data)) as [|f fields IH];
      intros st'; simpl; [done|].
    destruct Hin as [->|Hin]; [|by apply IH].
    apply nested_fields_created_mono.
    unfold nested_field_step. rewrite Hpf, Hchild. simpl.
    apply expand_nested_created. }
  split; [exact Hcreated|].
  split; [by apply expand_nested_created_have_schemas|].
  pose proof (nested_of_process_field _ _ _ Hpf Hchild) as Hnested.
  unfold nested_property_def. rewrite Hnested.
  split; intros ->.
  - rewrite dict_has_set_eq. by dict_lookup.
  - reflexivity.
Qed.

Lemma nested_children_emitted_witness :
  ("RecordAOptions" ∉ created_schemas initial_emit_state)
  /\ created_have_schemas initial_emit_state
  /\ In sample_values_field (default [] (rs_fields (nr_schema sample_nested)))
  /\ process_field sample_values_field = Some sample_values_details
  /\ nested_schema_of sample_values_field = Some sample_values_child
  /\ dict_has "RecordaoptionsValues"
       (schemas_data
          (expand_nested sample_generator "RecordAOptions"
             (nr_schema sample_nested) initial_emit_state)) = true
  /\ dict_get "items"
       (nested_property_def sample_generator "RecordAOptions"
          sample_values_details)
     = Some (schema_ref "RecordaoptionsValues").
Proof.
  assert (H1 : "RecordAOptions" ∉ created_schemas initial_emit_state)
    by apply not_elem_of_empty.
  assert (H2 : created_have_schemas initial_emit_state).
  { intros n Hn. by apply not_elem_of_empty in Hn. }
  assert (H3 : In sample_values_field
                 (default [] (rs_fields (nr_schema sample_nested))))
    by (right; left; reflexivity).
  assert (H4 : process_field sample_values_field = Some sample_values_details)
    by reflexivity.
  assert (H5 : nested_schema_of sample_values_field = Some sample_values_child)
    by reflexivity.
  split; [exact H1|]. split; [exact H2|]. split; [exact H3|].
  split; [exact H4|]. split; [exact H5|].
  destruct (nested_children_emitted sample_generator "RecordAOptions"
              (nr_schema sample_nested) initial_emit_state
              sample_values_field sample_values_details sample_values_child
              H1 H2 H3 H4 H5) as (_ & Hhas & _ & Hitems).
  split; [exact Hhas|exact (Hitems eq_refl)].
Defined.

(** ** The map of schemas as a whole *)

Lemma emit_object_schema_has_name self schema sd :
  dict_has (sc_schema_name schema) (emit_object_schema self schema sd) = true.
Proof.
  unfold emit_object_schema.
  match goal with
  | |- dict_has _ (fold_left _ _ ?init) = _ =>
      assert (Hinit : dict_has (sc_schema_name schema) init = true);
        [|revert Hinit; generalize init]
  end.
  { destruct (sc_required_fields schema).
    - apply dict_has_set_eq.
    - rewrite dict_has_alter. apply dict_has_set_eq. }
  induction (sc_fields schema) as [|[field_name fd] fields IH]; intros sd' Hsd';
    simpl; [done|].
  apply IH.
  destruct (object_property_def self schema field_name fd); [|done].
  by rewrite set_property_has.
Qed.

Lemma nested_fold_created_mono self nested_schemas st :
  created_schemas st
    ⊆ created_schemas
        (fold_left (fun st nested_schema =>
                      process_nested_schema_fields self nested_schema st)
           nested_schemas st).
Proof.
  apply (nested_fold_closure self
           (fun st st' => created_schemas st ⊆ created_schemas st')).
  - done.
  - intros ? ? ? ? ?. set_solver.
  - intros ? ? _. simpl. set_solver.
  - done.
Qed.

Lemma nested_fold_created self nested_schemas :
  forall st nested_schema,
    In nested_schema nested_schemas ->
    nr_name nested_schema
      ∈ created_schemas
          (fold_left (fun st nested_schema =>
                        process_nested_schema_fields self nested_schema st)
             nested_schemas st).
Proof.
  induction nested_schemas as [|n ns IH]; intros st nested_schema Hin; [done|].
  simpl. destruct Hin as [->|Hin]; [|by apply IH].
  apply nested_fold_created_mono. apply expand_nested_created.
Qed.

Lemma emit_schema_created_mono self st schema :
  created_schemas st ⊆ created_schemas (emit_schema self st schema).
Proof.
  unfold emit_schema. simpl.
  apply (nested_fold_created_mono self (sc_nested_schemas schema)
           {| created_schemas := created_schemas st;
              schemas_data := emit_object_schema self schema (schemas_data st) |}).
Qed.

Lemma emit_schemas_created_mono self schemas :
  forall st,
    created_schemas st
      ⊆ created_schemas (fold_left (emit_schema self) schemas st).
Proof.
  induction schemas as [|schema schemas IH]; intros st; simpl; [done|].
  etrans; [apply (emit_schema_created_mono self st schema)|apply IH].
Qed.

Lemma emit_schema_created_have_schemas self st schema :
  created_have_schemas st ->
  created_have_schemas (emit_schema self st schema).
Proof.
  intros Hst. unfold emit_schema.
  set (st1 := fold_left _ (sc_nested_schemas schema) _).
  assert (H1 : created_have_schemas st1).
  { apply (nested_fold_closure self
             (fun st st' => created_have_schemas st -> created_have_schemas st')).
    - done.
    - auto.
    - intros n st' _ H n' Hn'. simpl in *.
      apply elem_of_union in Hn'. destruct Hn' as [Hn'|Hn'].
      + apply elem_of_singleton in Hn'. subst n'. apply dict_has_set_eq.
      + by apply dict_has_set_mono, H.
    - intros n pf st' H n' Hn'. simpl in *. rewrite set_property_has.
      by apply H.
    - intros n Hn. simpl in *. by apply emit_object_schema_keys, Hst. }
  intros n Hn. simpl in *. by apply emit_response_schemas_keys, H1.
Qed.

Lemma generate_created_have_schemas self schemas :
  created_have_schemas (generate_schemas_state self schemas).
Proof.
  unfold generate_schemas_state.
  assert (Hinit : created_have_schemas initial_emit_state).
  { intros n Hn. by apply not_elem_of_empty in Hn. }
  revert Hinit. generalize initial_emit_state.
  induction schemas as [|schema schemas IH]; intros st Hst; simpl; [done|].
  by apply IH, emit_schema_created_have_schemas.
Qed.

(** X12. In the result of [generate_schemas_for_objects] every name that
    the emitter defines is a key of the map: ["ExtAttrs"], the
    [schema_name] of every processed schema, the name of every entry of its
    list of nested schemas, which is also in the set of created names, and
    every name created on the way. This is about the keys only: which
    schema is stored under a name that two of them share is not stated
    here. *)
Theorem generated_schemas_present
    (self : Generator) (schemas : list ProcessedSchema) :
  dict_has "ExtAttrs" (generate_schemas_for_objects self schemas) = true
  /\ (forall n,
        n ∈ created_schemas (generate_schemas_state self schemas) ->
        dict_has n (generate_schemas_for_objects self schemas) = true)
  /\ (forall schema,
        In schema schemas ->
        dict_has (sc_schema_name schema)
          (generate_schemas_for_objects self schemas) = true
        /\ forall nested_schema,
             In nested_schema (sc_nested_schemas schema) ->
             nr_name nested_schema
               ∈ created_schemas (generate_schemas_state self schemas)
             /\ dict_has (nr_name nested_schema)
                  (generate_schemas_for_objects self schemas) = true).
Proof.
  pose proof (generate_created_have_schemas self schemas) as Hinv.
  split.
  { unfold generate_schemas_for_objects, generate_schemas_state.
    by apply emit_schemas_keys. }
  split; [exact Hinv|].
  intros schema Hin.
  unfold generate_schemas_for_objects, generate_schemas_state in *.
  destruct (in_split _ _ Hin) as (before & after & ->).
  rewrite fold_left_app in *. simpl in *.
  set (st := fold_left (emit_schema self) before initial_emit_state) in *.
  split.
  - apply emit_schemas_keys. unfold emit_schema. simpl.
    apply emit_response_schemas_keys.
    apply (nested_fold_closure self
             (fun st st' =>
                dict_has (sc_schema_name schema) (schemas_data st) = true ->
                dict_has (sc_schema_name schema) (schemas_data st') = true)).
    + done.
    + auto.
    + intros n st' _. simpl. apply dict_has_set_mono.
    + intros n pf st'. simpl. by rewrite set_property_has.
    + simpl. apply emit_object_schema_has_name.
  - intros ns Hns.
    assert (Hc : nr_name ns
                   ∈ created_schemas
                       (fold_left (emit_schema self) after
                          (emit_schema self st schema))).
    { apply emit_schemas_created_mono. unfold emit_schema. simpl.
      by apply nested_fold_created. }
    split; [exact Hc|]. by apply Hinv.
Qed.

Lemma generated_schemas_present_witness :
  In sample_processed_schema [sample_processed_schema]
  /\ In sample_nested (sc_nested_schemas sample_processed_schema)
  /\ dict_has "RecordA"
       (generate_schemas_for_objects sample_generator [sample_processed_schema])
     = true
  /\ dict_has "RecordAOptions"
       (generate_schemas_for_objects sample_generator [sample_processed_schema])
     = true.
Proof.
  assert (H1 : In sample_processed_schema [sample_processed_schema])
    by (left; reflexivity).
  assert (H2 : In sample_nested (sc_nested_schemas sample_processed_schema))
    by (left; reflexivity).
  split; [exact H1|]. split; [exact H2|].
  destruct (generated_schemas_present sample_generator [sample_processed_schema])
    as (_ & _ & Hall).
  destruct (Hall sample_processed_schema H1) as [Hname Hnested].
  split; [exact Hname|]. exact (proj2 (Hnested sample_nested H2)).
Defined.

(** X13. From the raw schema to the map of schemas: when a processed
    schema comes from [process_schema], every one of its fields whose
    property in the object schema refers to a nested child (the field has a
    non-empty [nested_schema_name]) finds the schema of that child in the
    result of [generate_schemas_for_objects]. *)
Theorem object_nested_references_resolve
    (self : Generator) (raw : RawSchema) (object_type : string)
    (schema : ProcessedSchema) (schemas : list ProcessedSchema)
    (k : string) (fd : FieldDetails) (n : string) :
  process_schema self raw object_type = Ok (Some schema) ->
  In schema schemas ->
  In (k, fd) (sc_fields schema) ->
  nested_name_of fd = Some n ->
  dict_has n (generate_schemas_for_objects self schemas) = true.
Proof.
  intros Hsc Hin Hfield Hn.
  destruct (process_schema_acc _ _ _ _ Hsc)
    as (acc & Hrun & Hot & Hf & _ & _ & Hns).
  rewrite Hf in Hfield.
  destruct (process_schema_fields_keyed _ _ _ _ Hrun) as [_ Hentries].
  { split; [constructor|]. by intros ? ? []. }
  destruct (Hentries k fd Hfield) as (_ & _ & Hname & Hlist).
  unfold nested_name_of in Hn. rewrite Hname in Hn.
  destruct (nested_of fd) as [child|]; [|done].
  specialize (Hlist child eq_refl). rewrite <- Hns in Hlist.
  assert (Hcreated : forall ns,
             In ns (sc_nested_schemas schema) ->
             dict_has (nr_name ns) (generate_schemas_for_objects self schemas)
             = true).
  { intros ns Hin_ns.
    pose proof (generate_created_have_schemas self schemas) as Hinv.
    apply Hinv.
    unfold generate_schemas_state.
    destruct (in_split _ _ Hin) as (before & after & ->).
    rewrite fold_left_app. simpl.
    apply emit_schemas_created_mono. unfold emit_schema at 1. simpl.
    by apply nested_fold_created. }
  specialize (Hcreated _ Hlist). simpl in Hcreated.
  destruct (PyStr.truthy _); [|done]. by injection Hn as <-.
Qed.

Lemma object_nested_references_resolve_witness :
  process_schema sample_generator sample_schema_readonly "record:a"
    = Ok (Some sample_processed_schema)
  /\ In sample_processed_schema [sample_processed_schema]
  /\ In ("options", sample_nested_details) (sc_fields sample_processed_schema)
  /\ nested_name_of sample_nested_details = Some "RecordAOptions"
  /\ dict_has "RecordAOptions"
       (generate_schemas_for_objects sample_generator [sample_processed_schema])
     = true.
Proof.
  assert (H1 : process_schema sample_generator sample_schema_readonly "record:a"
               = Ok (Some sample_processed_schema)) by reflexivity.
  assert (H2 : In sample_processed_schema [sample_processed_schema])
    by (left; reflexivity).
  assert (H3 : In ("options", sample_nested_details)
                 (sc_fields sample_processed_schema))
    by (right; left; reflexivity).
  assert (H4 : nested_name_of sample_nested_details = Some "RecordAOptions")
    by reflexivity.
  split; [exact H1|]. split; [exact H2|]. split; [exact H3|].
  split; [exact H4|].
  exact (object_nested_references_resolve sample_generator
           sample_schema_readonly "record:a" sample_processed_schema
           [sample_processed_schema] "options" sample_nested_details
           "RecordAOptions" H1 H2 H3 H4).
Defined.

(** ** The paths: parameters, failure, and what a turn touches *)

Lemma add_filter_parameters_frame schema filtering_fields :
  forall paths paths',
    add_filter_parameters schema filtering_fields paths = Ok paths' ->
    forall k,
      dict_has k paths' = dict_has k paths
      /\ (k <> collection_path schema -> dict_get k paths' = dict_get k paths).
Proof.
  induction filtering_fields as [|n ns IH]; intros paths paths' Hrun k;
    simpl in Hrun.
  - by injection Hrun as <-.
  - destruct (filter_parameter schema n) as [p|]; [|done]. simpl in Hrun.
    destruct (IH _ _ Hrun k) as [Hhas Hget]. unfold append_get_parameter in *.
    rewrite dict_has_alter in Hhas. split; [done|].
    intros Hk. rewrite (Hget Hk). by rewrite dict_get_alter_ne.
Qed.

Lemma add_filter_parameters_raise schema filtering_fields :
  Exists (fun n => dict_has n (sc_fields schema) = false) filtering_fields ->
  forall paths,
    add_filter_parameters schema filtering_fields paths = Raise (KeyError "type").
Proof.
  induction filtering_fields as [|n ns IH]; intros Hex paths;
    [by inversion Hex|].
  simpl. unfold filter_parameter, dict_has in *.
  destruct (dict_get n (sc_fields schema)) as [fd|] eqn:E; [|done]. simpl.
  apply IH. inversion Hex as [? ? Hn|]; subst; [|done].
  by rewrite E in Hn.
Qed.

Lemma known_or_unknown schema filtering_fields :
  Forall (fun n => dict_has n (sc_fields schema) = true) filtering_fields
  \/ Exists (fun n => dict_has n (sc_fields schema) = false) filtering_fields.
Proof.
  induction filtering_fields as [|n ns [IH|IH]].
  - left. constructor.
  - destruct (dict_has n (sc_fields schema)) eqn:E.
    + left. by constructor.
    + right. by constructor.
  - right. by constructor 2.
Qed.

Lemma add_filter_parameters_exact schema filtering_fields :
  Forall (fun n => dict_has n (sc_fields schema) = true) filtering_fields ->
  forall paths op,
    dict_get (collection_path schema) paths = Some (JDict [ ("get", op) ]) ->
    exists paths' parameters,
      add_filter_parameters schema filtering_fields paths = Ok paths'
      /\ filter_parameters_of schema filtering_fields parameters
      /\ dict_get (collection_path schema) paths'
         = Some (JDict
                   [ ("get",
                       fold_left
                         (fun op p =>
                            json_alter (json_append p) "parameters" op)
                         parameters op) ]).
Proof.
  induction 1 as [|n ns Hn _ IH]; intros paths op Hget; simpl.
  - exists paths, []. split; [done|]. split; [constructor|done].
  - unfold filter_parameter. unfold dict_has in Hn.
    destruct (dict_get n (sc_fields schema)) as [fd|] eqn:E; [|done]. simpl.
    destruct (IH (append_get_parameter (collection_path schema)
                    (field_query_parameter n fd) paths)
                 (json_alter (json_append (field_query_parameter n fd))
                    "parameters" op))
      as (paths' & ps & Hrun & Hps & Hget').
    { unfold append_get_parameter. rewrite dict_get_alter_eq, Hget. reflexivity. }
    exists paths', (field_query_parameter n fd :: ps).
    split; [done|]. split; [|done].
    constructor; [eauto|done].
Qed.

Lemma appended_parameters parameters :
  forall op initial,
    json_get "parameters" op = Some (JList initial) ->
    json_get "parameters"
      (fold_left (fun op p => json_alter (json_append p) "parameters" op)
         parameters op)
    = Some (JList (initial ++ parameters)).
Proof.
  induction parameters as [|p ps IH]; intros op initial Hop; simpl.
  - by rewrite app_nil_r.
  - rewrite (IH _ (initial ++ [p])); [by rewrite <- app_assoc|].
    rewrite json_get_alter_eq, Hop. reflexivity.
Qed.

(** X14. On a schema whose filtering fields are fields, the GET of the
    collection path carries the twelve common parameters followed by one
    optional query parameter for every filtering field, in their order,
    named after the field and typed with the type that
    [convert_field_type_to_openapi] gives the field. *)
Theorem collection_get_parameters
    (schema : ProcessedSchema) (paths : list (string * json)) :
  filtering_fields_known schema ->
  exists paths' collection list_op parameters,
    emit_paths schema paths = Ok paths'
    /\ dict_get (collection_path schema) paths' = Some collection
    /\ json_get "get" collection = Some list_op
    /\ json_get "parameters" list_op
       = Some (JList
                 (map parameter_ref
                    [ "ReturnFields"; "ReturnFieldsPlus"; "MaxResults";
                      "ReturnAsObject"; "Paging"; "PageId"; "ProxySearch";
                      "Schema"; "SchemaVersion"; "GetDoc"; "SchemaSearchable";
                      "Inheritance" ]
                  ++ parameters))
    /\ filter_parameters_of schema (sc_filtering_fields schema) parameters
    /\ (forall n fd,
          json_get "name" (field_query_parameter n fd) = Some (JStr n)
          /\ json_get "required" (field_query_parameter n fd)
             = Some (JBool false)
          /\ json_get "schema" (field_query_parameter n fd)
             = Some (JDict
                       [ ("type",
                           dict_item "type" (convert_field_type_to_openapi fd)) ])).
Proof.
  intros Hknown.
  pose proof (collection_path_ne_item_path schema) as Hne.
  assert (Hne' : item_path schema <> collection_path schema) by congruence.
  destruct (add_filter_parameters_exact schema (sc_filtering_fields schema)
              Hknown
              (dict_set (collection_path schema)
                 (JDict [ ("get", list_operation schema) ]) paths)
              (list_operation schema))
    as (paths1 & parameters & Hrun & Hps & Hget); [apply dict_get_set_eq|].
  unfold emit_paths. rewrite Hrun. simpl.
  eexists _, _, _, parameters. split; [reflexivity|].
  split.
  { rewrite ?dict_get_alter_ne by done.
    rewrite ?dict_get_set_ne by done.
    instantiate (1 :=
      JDict (("get",
               fold_left
                 (fun op p => json_alter (json_append p) "parameters" op)
                 parameters (list_operation schema))
             :: if sc_supports_create schema
                then [ ("post", create_operation schema) ] else [])).
    destruct (sc_supports_delete schema), (sc_supports_modify schema),
             (sc_supports_create schema);
      rewrite ?dict_get_alter_ne by done;
      rewrite ?dict_get_set_ne by done;
      rewrite ?dict_get_alter_eq, Hget; reflexivity. }
  split; [reflexivity|].
  split.
  { exact (appended_parameters parameters (list_operation schema)
             (map parameter_ref
                [ "ReturnFields"; "ReturnFieldsPlus"; "MaxResults";
                  "ReturnAsObject"; "Paging"; "PageId"; "ProxySearch";
                  "Schema"; "SchemaVersion"; "GetDoc"; "SchemaSearchable";
                  "Inheritance" ])
             eq_refl). }
  split; [done|].
  intros n fd. split; [done|]. split; [done|].
  unfold field_query_parameter, dict_item. simpl. by rewrite convert_type.
Qed.

Lemma collection_get_parameters_witness :
  process_schema sample_generator sample_schema_searchable "record:a"
    = Ok (Some sample_processed_searchable)
  /\ sc_filtering_fields sample_processed_searchable = ["name"; "ttl"]
  /\ filtering_fields_known sample_processed_searchable
  /\ exists paths' collection list_op,
       emit_paths sample_processed_searchable [] = Ok paths'
       /\ dict_get "/record:a" paths' = Some collection
       /\ json_get "get" collection = Some list_op
       /\ json_get "parameters" list_op
          = Some (JList
                    (map parameter_ref
                       [ "ReturnFields"; "ReturnFieldsPlus"; "MaxResults";
                         "ReturnAsObject"; "Paging"; "PageId"; "ProxySearch";
                         "Schema"; "SchemaVersion"; "GetDoc";
                         "SchemaSearchable"; "Inheritance" ]
                     ++ [ JDict [ ("name", JStr "name");
                                  ("in", JStr "query");
                                  ("description", JStr "The name.");
                                  ("required", JBool false);
                                  ("schema",
                                    JDict [ ("type", JStr "string") ]) ];
                          JDict [ ("name", JStr "ttl");
                                  ("in", JStr "query");
                                  ("description", JStr "The time to live.");
                                  ("required", JBool false);
                                  ("schema",
                                    JDict [ ("type", JStr "integer") ]) ] ])).
Proof.
  assert (H0 : process_schema sample_generator sample_schema_searchable
                 "record:a" = Ok (Some sample_processed_searchable))
    by reflexivity.
  assert (H : filtering_fields_known sample_processed_searchable)
    by (repeat constructor).
  split; [exact H0|]. split; [reflexivity|]. split; [exact H|].
  destruct (collection_get_parameters sample_processed_searchable [] H)
    as (paths' & collection & list_op & parameters
        & Hrun & Hcoll & Hget & Hparams & Hfilter & _).
  exists paths', collection, list_op.
  split; [exact Hrun|]. split; [exact Hcoll|]. split; [exact Hget|].
  rewrite Hparams.
  inversion Hfilter as [|n1 p1 ns1 ps1 (fd1 & Hfd1 & Hp1) Hrest1]; subst.
  inversion Hrest1 as [|n2 p2 ns2 ps2 (fd2 & Hfd2 & Hp2) Hrest2]; subst.
  inversion Hrest2; subst.
  injection Hfd1 as <-. injection Hfd2 as <-.
  reflexivity.
Defined.

(** X15. A turn of the path loop fails exactly when a filtering field of
    the schema is not one of its fields, and then with the [KeyError] of
    the subscript ["type"] on the empty dictionary that stands for the
    missing field; it ends otherwise. *)
Theorem emit_paths_failure
    (schema : ProcessedSchema) (paths : list (string * json)) :
  ((exists paths', emit_paths schema paths = Ok paths') <->
   filtering_fields_known schema)
  /\ (emit_paths schema paths = Raise (KeyError "type") <->
      ~ filtering_fields_known schema)
  /\ (forall e, emit_paths schema paths = Raise e -> e = KeyError "type").
Proof.
  destruct (known_or_unknown schema (sc_filtering_fields schema))
    as [Hknown|Hunknown].
  - destruct (emit_paths_ok schema paths Hknown) as [paths' Hrun].
    rewrite Hrun. split; [split; eauto|]. split; [|done].
    split; [done|]. intros Hn. by destruct Hn.
  - assert (Hnot : ~ filtering_fields_known schema).
    { intros Hknown. apply List.Exists_exists in Hunknown.
      destruct Hunknown as (n & Hin & Hn).
      unfold filtering_fields_known in Hknown.
      rewrite List.Forall_forall in Hknown. specialize (Hknown n Hin).
      congruence. }
    assert (Hrun : emit_paths schema paths = Raise (KeyError "type")).
    { unfold emit_paths. by rewrite add_filter_parameters_raise. }
    rewrite Hrun. split; [split; [by intros [? ?]|done]|].
    split; [done|]. by intros e [= <-].
Qed.

Lemma emit_paths_failure_witness :
  ~ filtering_fields_known sample_unknown_filter_schema
  /\ emit_paths sample_unknown_filter_schema [] = Raise (KeyError "type").
Proof.
  assert (H : ~ filtering_fields_known sample_unknown_filter_schema).
  { intros Hk. inversion Hk as [|? ? _ Hrest]. subst.
    inversion Hrest as [|? ? Hghost _]. subst. discriminate Hghost. }
  split; [exact H|].
  destruct (emit_paths_failure sample_unknown_filter_schema [])
    as (_ & Hraise & _).
  exact (proj2 Hraise H).
Defined.

Lemma emit_paths_frame schema paths paths' :
  emit_paths schema paths = Ok paths' ->
  forall k,
    (dict_has k paths' = true <->
     dict_has k paths = true \/ k = collection_path schema
     \/ k = item_path schema)
    /\ (k <> collection_path schema -> k <> item_path schema ->
        dict_get k paths' = dict_get k paths).
Proof.
  unfold emit_paths.
  destruct (add_filter_parameters _ _ _) as [paths1|] eqn:Hrun; [|done].
  simpl. intros [= <-] k.
  destruct (add_filter_parameters_frame _ _ _ _ Hrun k) as [Hhas Hget].
  split.
  - assert (Hk : forall d,
               dict_has k
                 (dict_set (item_path schema)
                    (JDict [ ("get", read_operation schema) ]) d) = true
               <-> dict_has k d = true \/ k = item_path schema).
    { intros d. destruct (String.eqb_spec (item_path schema) k) as [<-|Hne].
      - rewrite dict_has_set_eq. split; auto.
      - rewrite dict_has_set_ne by done. split; [auto|].
        intros [?|?]; [done|congruence]. }
    assert (Hc : dict_has k paths1 = true
                 <-> dict_has k paths = true \/ k = collection_path schema).
    { rewrite Hhas.
      destruct (String.eqb_spec (collection_path schema) k) as [<-|Hne].
      - rewrite dict_has_set_eq. split; auto.
      - rewrite dict_has_set_ne by done. split; [auto|].
        intros [?|?]; [done|congruence]. }
    destruct (sc_supports_delete schema), (sc_supports_modify schema),
             (sc_supports_create schema);
      rewrite ?dict_has_alter, Hk, ?dict_has_alter, Hc; tauto.
  - intros Hkc Hki.
    assert (Hki' : item_path schema <> k) by congruence.
    assert (Hkc' : collection_path schema <> k) by congruence.
    destruct (sc_supports_delete schema), (sc_supports_modify schema),
             (sc_supports_create schema);
      rewrite ?dict_get_alter_ne by done;
      rewrite dict_get_set_ne by done;
      rewrite ?dict_get_alter_ne by done;
      rewrite (Hget Hkc); by rewrite dict_get_set_ne.
Qed.

Lemma generate_paths_from_keys schemas :
  forall paths paths',
    generate_paths_from schemas paths = Ok paths' ->
    forall k,
      dict_has k paths' = true <->
      dict_has k paths = true
      \/ exists schema,
           In schema schemas
           /\ (k = collection_path schema \/ k = item_path schema).
Proof.
  induction schemas as [|schema schemas IH]; intros paths paths' Hrun k;
    simpl in Hrun.
  - injection Hrun as <-. split; [auto|]. by intros [?|(? & [] & _)].
  - destruct (emit_paths schema paths) as [paths1|] eqn:E; [|done].
    simpl in Hrun. rewrite (IH _ _ Hrun k).
    destruct (emit_paths_frame _ _ _ E k) as [Hhas _]. rewrite Hhas.
    split.
    + intros [[H|H]|(s & Hs & Hk)].
      * by left.
      * right. exists schema. split; [by left|exact H].
      * right. exists s. split; [by right|exact Hk].
    + intros [H|(s & [<-|Hs] & Hk)].
      * left. by left.
      * left. right. exact Hk.
      * right. exists s. by split.
Qed.

(** X16. A turn of the path loop touches the two paths of its schema and
    no other: every other path keeps its item; and at the end of the loop
    the paths are exactly the collection path and the item path of the
    schemas. *)
Theorem paths_are_those_of_the_schemas
    (schemas : list ProcessedSchema) (paths : list (string * json)) :
  generate_paths schemas = Ok paths ->
  (forall k,
     dict_has k paths = true <->
     exists schema,
       In schema schemas
       /\ (k = collection_path schema \/ k = item_path schema))
  /\ (forall schema before after,
        emit_paths schema before = Ok after ->
        forall k,
          k <> collection_path schema -> k <> item_path schema ->
          dict_get k after = dict_get k before).
Proof.
  intros Hrun. split.
  - intros k. unfold generate_paths in Hrun.
    rewrite (generate_paths_from_keys _ _ _ Hrun k).
    split; [by intros [?|?]|auto].
  - intros schema before after Hstep k Hc Hi.
    by destruct (emit_paths_frame _ _ _ Hstep k) as [_ ->].
Qed.

Lemma paths_are_those_of_the_schemas_witness :
  exists paths,
    generate_paths [sample_processed_schema] = Ok paths
    /\ dict_has "/record:a" paths = true
    /\ dict_has "/record:a/{reference}" paths = true.
Proof.
  destruct (generate_paths_ok [sample_processed_schema]) as [paths Hrun].
  { repeat constructor. }
  exists paths. split; [exact Hrun|].
  destruct (paths_are_those_of_the_schemas [sample_processed_schema] paths Hrun)
    as [Hkeys _].
  split; apply Hkeys; exists sample_processed_schema;
    (split; [left; reflexivity|]); [left|right]; reflexivity.
Defined.

(** ** References to the common parameters *)

Lemma field_query_parameters_no_ref fields :
  omap (fun parameter =>
          match json_get "$ref" parameter with
          | Some (JStr target) => Some target
          | _ => None
          end)
    (map (fun kv : string * FieldDetails =>
            field_query_parameter (fst kv) (snd kv)) fields)
  = [].
Proof. induction fields as [|[n fd] fields IH]; [done|]. exact IH. Qed.

(** X17. Every reference to a common parameter resolves: whatever the
    schema, the parameters of its list, create, read, update and delete
    operations refer only to keys of [generate_common_parameters]; the
    parameters made for fields are inline, not references; and every
    common parameter is used, by the list operation. *)
Theorem parameter_references_resolve (schema : ProcessedSchema) :
  (forall operation target,
     In operation [ list_operation schema; create_operation schema;
                    read_operation schema; update_operation schema;
                    delete_operation schema ] ->
     In target (parameter_refs operation) ->
     exists name,
       target = "#/components/parameters/" +:+ name
       /\ dict_has name generate_common_parameters = true)
  /\ (forall n fd, json_get "$ref" (field_query_parameter n fd) = None)
  /\ parameter_refs (list_operation schema)
     = map (fun name => "#/components/parameters/" +:+ name)
         (map fst generate_common_parameters).
Proof.
  split; [|split; [done|reflexivity]].
  intros operation target Hop Hin.
  assert (Hdel : parameter_refs (delete_operation schema) = []).
  { unfold parameter_refs. simpl json_get. rewrite delete_params_eq.
    simpl. apply field_query_parameters_no_ref. }
  repeat (destruct Hop as [<-|Hop]);
    [ | | | |rewrite Hdel in Hin; destruct Hin|destruct Hop];
    cbv [parameter_refs list_operation create_operation read_operation
         update_operation json_get dict_get String.eqb Ascii.eqb Bool.eqb
         omap list_omap map parameter_ref reference_parameter] in Hin;
    repeat (destruct Hin as [<-|Hin]; [eexists; split; reflexivity|]);
    destruct Hin.
Qed.

Lemma parameter_references_resolve_witness :
  In (read_operation sample_processed_schema)
     [ list_operation sample_processed_schema;
       create_operation sample_processed_schema;
       read_operation sample_processed_schema;
       update_operation sample_processed_schema;
       delete_operation sample_processed_schema ]
  /\ In "#/components/parameters/Inheritance"
        (parameter_refs (read_operation sample_processed_schema))
  /\ exists name,
       "#/components/parameters/Inheritance"
       = "#/components/parameters/" +:+ name
       /\ dict_has name generate_common_parameters = true.
Proof.
  assert (H1 : In (read_operation sample_processed_schema)
                 [ list_operation sample_processed_schema;
                   create_operation sample_processed_schema;
                   read_operation sample_processed_schema;
                   update_operation sample_processed_schema;
                   delete_operation sample_processed_schema ])
    by (right; right; left; reflexivity).
  assert (H2 : In "#/components/parameters/Inheritance"
                 (parameter_refs (read_operation sample_processed_schema)))
    by (right; right; right; left; reflexivity).
  split; [exact H1|]. split; [exact H2|].
  exact (proj1 (parameter_references_resolve sample_processed_schema) _ _ H1 H2).
Defined.

(** ** Tags *)

Lemma add_tags_kept schemas :
  forall existing tags,
    exists kept,
      (fold_left add_tag schemas (existing, tags)).2
      = tags ++ map tag_entry kept
      /\ List.NoDup kept
      /\ (forall object_type,
            In object_type kept <->
            In object_type (map sc_object_type schemas)
            /\ object_type ∉ existing)
      /\ sublist kept (map sc_object_type schemas)
      /\ (forall before after,
            schemas = before ++ after ->
            exists kept_before kept_after,
              kept = kept_before ++ kept_after
              /\ forall object_type,
                   In object_type kept_before <->
                   In object_type (map sc_object_type before)
                   /\ object_type ∉ existing).
Proof.
  induction schemas as [|schema schemas IH]; intros existing tags; simpl.
  - exists []. simpl. rewrite app_nil_r.
    split; [done|]. split; [constructor|].
    split; [intros ot; split; [done|by intros [[] _]]|].
    split; [constructor|].
    intros before after Heq. symmetry in Heq.
    apply app_eq_nil in Heq. destruct Heq as [-> ->].
    exists [], []. split; [done|].
    intros ot. split; [done|by intros [[] _]].
  - unfold add_tag at 2. simpl.
    case_bool_decide as Hseen.
    + destruct (IH existing tags)
        as (kept & Htags & Hnodup & Hin & Hsub & Hprefix).
      exists kept. split; [done|]. split; [done|].
      split.
      { intros ot. rewrite Hin. split; [intros [? ?]; auto|].
        intros [[<-|?] Hnot]; [done|auto]. }
      split; [by apply sublist_cons|].
      intros [|first before] after Heq.
      { exists [], kept. split; [done|].
        intros ot. split; [done|by intros [[] _]]. }
      simpl in Heq. injection Heq as <- Heq.
      destruct (Hprefix before after Heq) as (kb & ka & Hkept & Hkb).
      exists kb, ka. split; [done|].
      intros ot. rewrite Hkb. simpl. split; [intros [? ?]; auto|].
      intros [[<-|?] Hnot]; [done|auto].
    + destruct (IH ({[sc_object_type schema]} ∪ existing)
                  (tags ++ [tag_entry (sc_object_type schema)]))
        as (kept & Htags & Hnodup & Hin & Hsub & Hprefix).
      exists (sc_object_type schema :: kept).
      split; [by rewrite Htags, <- app_assoc|].
      split.
      { constructor; [|done]. intros Hk. apply Hin in Hk.
        destruct Hk as [_ Hk]. apply Hk.
        by apply elem_of_union_l, elem_of_singleton. }
      assert (Hstep : forall (l : list string) (types : list string),
                 (forall ot, In ot l <->
                             In ot types
                             /\ ot ∉ {[sc_object_type schema]} ∪ existing) ->
                 forall ot,
                   In ot (sc_object_type schema :: l) <->
                   In ot (sc_object_type schema :: types) /\ ot ∉ existing).
      { intros l types Hl ot. simpl. rewrite Hl. split.
        - intros [<-|[? Hnot]]; [auto|]. split; [auto|].
          intros Hot. by apply Hnot, elem_of_union_r.
        - intros [[<-|Hot] Hnot]; [auto|].
          destruct (decide (sc_object_type schema = ot)) as [?|Hne]; [auto|].
          right. split; [done|].
          intros [Hx|Hx]%elem_of_union; [|done].
          apply elem_of_singleton in Hx. congruence. }
      split; [by apply Hstep|].
      split; [by apply sublist_skip|].
      intros [|first before] after Heq.
      { exists [], (sc_object_type schema :: kept). split; [done|].
        intros ot. split; [done|by intros [[] _]]. }
      simpl in Heq. injection Heq as <- Heq.
      destruct (Hprefix before after Heq) as (kb & ka & Hkept & Hkb).
      exists (sc_object_type schema :: kb), ka.
      split; [by rewrite Hkept|].
      by apply Hstep.
Qed.

(** X18. The tags of a document: one tag for every distinct object type of
    the schemas, none twice, in the order in which the object types first
    occur: for every initial part of the schemas, the tags of its object
    types come first, so the tag of an object type that occurs in the
    initial part is before the tag of one that occurs only later. The tag
    carries the PascalCase form of the object type as its name. *)
Theorem tags_of_distinct_object_types (schemas : list ProcessedSchema) :
  exists kept,
    generate_tags schemas = map tag_entry kept
    /\ List.NoDup kept
    /\ (forall object_type,
          In object_type kept <-> In object_type (map sc_object_type schemas))
    /\ sublist kept (map sc_object_type schemas)
    /\ (forall before after,
          schemas = before ++ after ->
          exists kept_before kept_after,
            kept = kept_before ++ kept_after
            /\ forall object_type,
                 In object_type kept_before <->
                 In object_type (map sc_object_type before))
    /\ (forall before after first later,
          schemas = before ++ after ->
          In first (map sc_object_type before) ->
          ~ In later (map sc_object_type before) ->
          In later (map sc_object_type after) ->
          exists l1 l2 l3, kept = l1 ++ first :: l2 ++ later :: l3)
    /\ (forall object_type,
          json_get "name" (tag_entry object_type)
          = Some (JStr (to_pascal_case object_type))).
Proof.
  destruct (add_tags_kept schemas ∅ [])
    as (kept & Htags & Hnodup & Hin & Hsub & Hprefix).
  assert (Hempty : forall (l : list string) (types : list string),
             (forall ot, In ot l <-> In ot types /\ ot ∉ (∅ : gset string)) ->
             forall ot, In ot l <-> In ot types).
  { intros l types Hl ot. rewrite Hl. split; [by intros [? _]|].
    intros H. split; [done|]. apply not_elem_of_empty. }
  exists kept. split; [exact Htags|]. split; [done|].
  pose proof (Hempty _ _ Hin) as Hin'.
  split; [exact Hin'|]. split; [done|].
  split; [|split; [|done]].
  - intros before after Heq.
    destruct (Hprefix before after Heq) as (kb & ka & Hkept & Hkb).
    exists kb, ka. split; [done|]. by apply Hempty.
  - intros before after first later Heq Hfirst Hnot Hlater.
    destruct (Hprefix before after Heq) as (kb & ka & Hkept & Hkb).
    pose proof (Hempty _ _ Hkb) as Hkb'.
    apply Hkb' in Hfirst.
    assert (Hka : In later ka).
    { assert (Hk : In later kept).
      { apply Hin'. rewrite Heq, map_app. apply in_or_app. by right. }
      rewrite Hkept in Hk. apply in_app_or in Hk.
      destruct Hk as [Hk|Hk]; [|done]. by apply Hkb' in Hk. }
    destruct (in_split _ _ Hfirst) as (l1 & l2 & ->).
    destruct (in_split _ _ Hka) as (l2' & l3 & ->).
    exists l1, (l2 ++ l2'), l3. rewrite Hkept.
    by rewrite <- !app_assoc.
Qed.

(** ** Grouping *)

Lemma insert_objects_lookup group_name objects_list :
  forall (table : gmap string string) obj,
    fold_left (fun table obj => <[obj := group_name]> table) objects_list table
      !! obj
    = if bool_decide (obj ∈ objects_list) then Some group_name
      else table !! obj.
Proof.
  induction objects_list as [|o objs IH]; intros table obj; simpl; [done|].
  rewrite IH. case_bool_decide as Hin.
  - rewrite bool_decide_true; [done|]. apply elem_of_cons. by right.
  - destruct (decide (o = obj)) as [->|Hne].
    + rewrite bool_decide_true by (apply elem_of_cons; by left).
      by rewrite lookup_insert_eq.
    + rewrite bool_decide_false; [by rewrite lookup_insert_ne|].
      intros [?|?]%elem_of_cons; congruence.
Qed.

Lemma find_in_app {A} (test : A -> bool) (l1 l2 : list A) :
  List.find test (l1 ++ l2)
  = match List.find test l1 with
    | Some x => Some x
    | None => List.find test l2
    end.
Proof.
  induction l1 as [|x l1 IH]; simpl; [done|]. by destruct (test x).
Qed.

Lemma build_from_lookup object_groups :
  forall (table : gmap string string) obj,
    fold_left
      (fun table '(group_name, objects_list) =>
         fold_left (fun table obj => <[obj := group_name]> table)
           objects_list table)
      object_groups table !! obj
    = match
        List.find (fun entry => bool_decide (obj ∈ entry.2)) (rev object_groups)
      with
      | Some entry => Some entry.1
      | None => table !! obj
      end.
Proof.
  induction object_groups as [|[g objs] groups IH]; intros table obj; simpl;
    [done|].
  rewrite IH. rewrite find_in_app.
  destruct (List.find _ (rev groups)); [done|]. simpl.
  rewrite insert_objects_lookup. by case_bool_decide.
Qed.

(** X19. The inverse table of the groups: an object type is in the table
    exactly when some group lists it, it is mapped to a group that lists
    it, and when several groups list it the last of them in the
    configuration wins. *)
Theorem object_to_group_table
    (object_groups : list (string * list string)) (obj : string) :
  (forall group_name,
     build_object_to_group object_groups !! obj = Some group_name ->
     exists objects_list,
       In (group_name, objects_list) object_groups /\ obj ∈ objects_list)
  /\ (build_object_to_group object_groups !! obj = None <->
      forall group_name objects_list,
        In (group_name, objects_list) object_groups -> obj ∉ objects_list)
  /\ (forall before group_name objects_list after,
        object_groups = before ++ (group_name, objects_list) :: after ->
        obj ∈ objects_list ->
        (forall g objs, In (g, objs) after -> obj ∉ objs) ->
        build_object_to_group object_groups !! obj = Some group_name).
Proof.
  unfold build_object_to_group. rewrite build_from_lookup.
  rewrite lookup_empty.
  split; [|split].
  - intros g Hg.
    destruct (List.find _ (rev object_groups)) as [[g' objs]|] eqn:E; [|done].
    apply find_some in E. destruct E as [Hin Hobj].
    injection Hg as <-. exists objs. split.
    + by apply in_rev.
    + by apply bool_decide_eq_true in Hobj.
  - destruct (List.find _ (rev object_groups)) as [[g' objs]|] eqn:E.
    + split; [done|]. intros Hnone. apply find_some in E.
      destruct E as [Hin Hobj]. apply in_rev in Hin.
      apply bool_decide_eq_true in Hobj. by destruct (Hnone g' objs Hin).
    + split; [|done]. intros _ g objs Hin Hobj.
      apply in_rev in Hin.
      pose proof (find_none _ _ E _ Hin) as Hf. simpl in Hf.
      by apply bool_decide_eq_false in Hf.
  - intros before g objs after -> Hobj Hafter.
    rewrite rev_app_distr. simpl. rewrite <- app_assoc. simpl.
    rewrite find_in_app.
    destruct (List.find _ (rev after)) as [[g' objs']|] eqn:E.
    + apply find_some in E. destruct E as [Hin Hobj'].
      apply in_rev in Hin. apply bool_decide_eq_true in Hobj'.
      by destruct (Hafter g' objs' Hin).
    + simpl. by rewrite bool_decide_true.
Qed.

Lemma object_to_group_table_witness :
  [ ("dns", ["record:a"; "view"]); ("dhcp", ["range"; "view"]) ]
  = [ ("dns", ["record:a"; "view"]) ] ++ ("dhcp", ["range"; "view"]) :: []
  /\ ("view" ∈ ["range"; "view"])
  /\ (forall (g : string) (objs : list string),
        In (g, objs) [] -> "view" ∉ objs)
  /\ build_object_to_group
       [ ("dns", ["record:a"; "view"]); ("dhcp", ["range"; "view"]) ]
     !! "view" = Some "dhcp".
Proof.
  assert (H1 : [ ("dns", ["record:a"; "view"]); ("dhcp", ["range"; "view"]) ]
               = [ ("dns", ["record:a"; "view"]) ]
                 ++ ("dhcp", ["range"; "view"]) :: []) by reflexivity.
  assert (H2 : "view" ∈ ["range"; "view"]).
  { apply elem_of_cons. right. apply elem_of_cons. by left. }
  assert (H3 : forall (g : string) (objs : list string),
             In (g, objs) [] -> "view" ∉ objs) by (intros g objs []).
  split; [exact H1|]. split; [exact H2|]. split; [exact H3|].
  destruct (object_to_group_table
              [ ("dns", ["record:a"; "view"]); ("dhcp", ["range"; "view"]) ]
              "view") as (_ & _ & Hlast).
  exact (Hlast _ _ _ _ H1 H2 H3).
Defined.

Lemma group_requested_from (object_to_group : gmap string string) objects :
  forall objects_by_group group,
    default []
      (dict_get group
         (fold_left
            (fun objects_by_group obj =>
               let group := default "custom" (object_to_group !! obj) in
               dict_set group
                 (default [] (dict_get group objects_by_group) ++ [obj])
                 objects_by_group)
            objects objects_by_group))
    = default [] (dict_get group objects_by_group)
      ++ List.filter
           (fun obj =>
              String.eqb (default "custom" (object_to_group !! obj)) group)
           objects.
Proof.
  induction objects as [|obj objects IH]; intros d group; simpl.
  - by rewrite app_nil_r.
  - rewrite IH.
    destruct (String.eqb_spec (default "custom" (object_to_group !! obj)) group)
      as [<-|Hne].
    + rewrite dict_get_set_eq. simpl. by rewrite <- app_assoc.
    + by rewrite dict_get_set_ne.
Qed.

Lemma group_requested_keys (object_to_group : gmap string string) objects :
  forall objects_by_group,
    List.NoDup (map fst objects_by_group) ->
    List.NoDup
      (map fst
         (fold_left
            (fun objects_by_group obj =>
               let group := default "custom" (object_to_group !! obj) in
               dict_set group
                 (default [] (dict_get group objects_by_group) ++ [obj])
                 objects_by_group)
            objects objects_by_group)).
Proof.
  induction objects as [|obj objects IH]; intros d Hd; simpl; [done|].
  apply IH. by apply dict_set_NoDup.
Qed.

(** X20. The requested objects grouped for [generate_all]: the list of a
    group is the requested objects of that group, in the order of the
    request (an object of no group counts for ["custom"]); a group is a
    key exactly when one of the objects is of it; and the keys are
    distinct. *)
Theorem requested_objects_by_group
    (object_to_group : gmap string string) (objects : list string)
    (group : string) :
  default [] (dict_get group (group_requested_objects object_to_group objects))
  = List.filter
      (fun obj => String.eqb (default "custom" (object_to_group !! obj)) group)
      objects
  /\ (dict_has group (group_requested_objects object_to_group objects) = true
      <-> exists obj,
            In obj objects
            /\ default "custom" (object_to_group !! obj) = group)
  /\ List.NoDup
       (map fst (group_requested_objects object_to_group objects)).
Proof.
  unfold group_requested_objects.
  split; [by rewrite group_requested_from|].
  split; [|apply group_requested_keys; constructor].
  assert (Hhas : forall d,
             dict_has group
               (fold_left
                  (fun objects_by_group obj =>
                     let group := default "custom" (object_to_group !! obj) in
                     dict_set group
                       (default [] (dict_get group objects_by_group) ++ [obj])
                       objects_by_group)
                  objects d) = true
             <-> dict_has group d = true
                 \/ exists obj,
                      In obj objects
                      /\ default "custom" (object_to_group !! obj) = group).
  { induction objects as [|obj objects IH]; intros d; simpl.
    - split; [auto|]. by intros [?|(? & [] & _)].
    - rewrite IH.
      destruct (String.eqb_spec (default "custom" (object_to_group !! obj)) group)
        as [Heq|Hne].
      + rewrite <- Heq at 1. rewrite dict_has_set_eq.
        split; [|auto]. intros _. right. exists obj. auto.
      + rewrite dict_has_set_ne by done. split.
        * intros [?|(o & ? & ?)]; [auto|]. right. exists o. auto.
        * intros [?|(o & [<-|?] & ?)]; [auto|done|]. right. exists o. auto. }
  rewrite Hhas. split; [by intros [?|?]|auto].
Qed.

(** ** Names and group of a processed schema *)

Lemma lower_keeps_colon s :
  PyStr.char_in ":" s = false -> PyStr.char_in ":" (PyStr.lower s) = false.
Proof.
  intros H. destruct (PyStr.char_in ":" (PyStr.lower s)) eqn:E; [|done].
  destruct (char_in_map_chars _ _ _ E) as (x & Hx & Hl).
  destruct (case_keeps_separators x) as [_ Hsep]. rewrite Hl in Hsep.
  unfold is_separator in Hsep. simpl in Hsep. symmetry in Hsep.
  apply orb_true_iff in Hsep.
  destruct Hsep as [Hc|Hc]; apply Ascii.eqb_eq in Hc; subst x.
  - congruence.
  - done.
Qed.

(** X21. The names that [process_schema] derives from the type name have
    no colon, with or without the PascalCase option: the schema name (the
    key of the object schema), the list-response name, which is
    [List{schema_name}Response], and the object name. *)
Theorem processed_schema_names
    (self : Generator) (schema : RawSchema) (object_type : string)
    (sc : ProcessedSchema) :
  process_schema self schema object_type = Ok (Some sc) ->
  sc_object_type sc = default object_type (rs_type schema)
  /\ sc_schema_name sc
     = (if gen_pascal_case_schemas self
        then to_pascal_case (sc_object_type sc)
        else PyStr.replace ":" "_" (sc_object_type sc))
  /\ PyStr.char_in ":" (sc_schema_name sc) = false
  /\ sc_response_schema_name sc = "List" +:+ sc_schema_name sc +:+ "Response"
  /\ PyStr.char_in ":" (sc_response_schema_name sc) = false
  /\ PyStr.char_in ":" (sc_object_name sc) = false.
Proof.
  unfold process_schema.
  destruct (negb (schema_truthy schema)); [done|].
  destruct (process_schema_fields _ _ _) as [acc|]; [|done].
  simpl. intros [= <-]. simpl.
  set (type_name := default object_type (rs_type schema)).
  assert (Hname : PyStr.char_in ":"
                    (if gen_pascal_case_schemas self
                     then to_pascal_case type_name
                     else PyStr.replace ":" "_" type_name) = false).
  { destruct (gen_pascal_case_schemas self).
    - by apply to_pascal_case_no_char.
    - by apply replace_removes. }
  split; [done|]. split; [done|]. split; [exact Hname|].
  split; [done|].
  split.
  - rewrite !char_in_app, Hname. reflexivity.
  - apply lower_keeps_colon. by apply replace_removes.
Qed.

Lemma processed_schema_names_witness :
  process_schema sample_generator sample_schema_record_a "record:a"
    = Ok (Some sample_processed_record_a)
  /\ sc_schema_name sample_processed_record_a = "RecordA"
  /\ sc_response_schema_name sample_processed_record_a = "ListRecordAResponse"
  /\ PyStr.char_in ":" (sc_object_name sample_processed_record_a) = false.
Proof.
  assert (H : process_schema sample_generator sample_schema_record_a "record:a"
              = Ok (Some sample_processed_record_a)) by reflexivity.
  split; [exact H|].
  destruct (processed_schema_names _ _ _ _ H) as (_ & Hn & _ & Hr & _ & Ho).
  split; [exact Hn|]. split; [exact Hr|exact Ho].
Defined.

(** X22. The group of a processed schema, for a generator whose table is
    the inverse of the configured groups: ["custom"] when exactly one
    object was requested, whatever the groups; otherwise a group that
    lists the object type, and ["other"] exactly when no group lists
    it. *)
Theorem processed_schema_group
    (self : Generator) (object_groups : list (string * list string))
    (schema : RawSchema) (object_type : string) (sc : ProcessedSchema) :
  gen_object_to_group self = build_object_to_group object_groups ->
  process_schema self schema object_type = Ok (Some sc) ->
  (length (gen_objects self) = 1 -> sc_group sc = "custom")
  /\ (length (gen_objects self) <> 1 ->
      (exists objects_list,
         In (sc_group sc, objects_list) object_groups
         /\ object_type ∈ objects_list)
      \/ (sc_group sc = "other"
          /\ forall group_name objects_list,
               In (group_name, objects_list) object_groups ->
               object_type ∉ objects_list)).
Proof.
  intros Htable. unfold process_schema.
  destruct (negb (schema_truthy schema)); [done|].
  destruct (process_schema_fields _ _ _) as [acc|]; [|done].
  simpl. intros [= <-]. simpl.
  split; [intros Hone; by rewrite bool_decide_true|].
  intros Hmany. rewrite bool_decide_false by done.
  rewrite Htable. unfold build_object_to_group.
  rewrite build_from_lookup, lookup_empty.
  destruct (List.find _ (rev object_groups)) as [[g objs]|] eqn:E; simpl.
  - left. apply find_some in E. destruct E as [Hin Hobj].
    exists objs. split; [by apply in_rev|].
    by apply bool_decide_eq_true in Hobj.
  - right. split; [done|]. intros g objs Hin.
    apply in_rev in Hin. pose proof (find_none _ _ E _ Hin) as Hf.
    simpl in Hf. by apply bool_decide_eq_false in Hf.
Qed.

Lemma processed_schema_group_witness :
  gen_object_to_group sample_dns_generator
    = build_object_to_group [ ("dns", ["record:a"; "view"]) ]
  /\ process_schema sample_dns_generator sample_schema_record_a "record:a"
       = Ok (Some sample_processed_dns_record_a)
  /\ length (gen_objects sample_dns_generator) <> 1
  /\ sc_group sample_processed_dns_record_a = "dns".
Proof.
  assert (H1 : gen_object_to_group sample_dns_generator
               = build_object_to_group [ ("dns", ["record:a"; "view"]) ])
    by reflexivity.
  assert (H2 : process_schema sample_dns_generator sample_schema_record_a
                 "record:a" = Ok (Some sample_processed_dns_record_a))
    by reflexivity.
  assert (H3 : length (gen_objects sample_dns_generator) <> 1)
    by discriminate.
  split; [exact H1|]. split; [exact H2|]. split; [exact H3|].
  destruct (processed_schema_group _ _ _ _ _ H1 H2) as [_ Hgroup].
  destruct (Hgroup H3) as [(objs & Hin & _)|[Hother Hnone]].
  - reflexivity.
  - exfalso. apply (Hnone "dns" ["record:a"; "view"]); [by left|].
    apply elem_of_cons. by left.
Defined.

(** ** The built-in reference property in the result of the emitter *)



(** The closure of [expand_nested] again, for a relation that holds across
    the store of a property only under a created name. *)
Section NestedClosureCreated.
Variable self : Generator.
Variable R : EmitState -> EmitState -> Prop.
Hypothesis R_refl : forall st, R st st.
Hypothesis R_trans : forall st1 st2 st3, R st1 st2 -> R st2 st3 -> R st1 st3.
Hypothesis R_register :
  forall schema_name st,
    schema_name ∉ created_schemas st ->
    R st (register_nested schema_name st).
Hypothesis R_store :
  forall schema_name pf st,
    schema_name ∈ created_schemas st ->
    R st {| created_schemas := created_schemas st;
            schemas_data :=
              set_property schema_name (fd_name pf)
                (JDict (nested_property_def self schema_name pf))
                (schemas_data st) |}.


End NestedClosureCreated.








(** A response schema of the same name replaces the object schema as
    well: with the objects ["list_a_response"] and ["a"], the list response
    of the second is stored under the schema name of the first, and has no
    properties. *)
Lemma object_schema_replaced_by_response :
  exists first second,
    process_schema sample_generator (sample_schema_of_type "list_a_response")
      "list_a_response" = Ok (Some first)
    /\ process_schema sample_generator (sample_schema_of_type "a") "a"
       = Ok (Some second)
    /\ sc_schema_name first = "ListAResponse"
    /\ In "ListAResponse" (response_schema_names second)
    /\ lookup_property "ListAResponse" "_ref"
         (generate_schemas_for_objects sample_generator [first; second])
       = None.
Proof.
  eexists _, _.
  split; [vm_compute; reflexivity|]. split; [vm_compute; reflexivity|].
  split; [reflexivity|]. split; [left; reflexivity|].
  vm_compute. reflexivity.
Qed.
